(** * Flashcard automator: a shallow embedding and its properties

    The program is a Streamlit application of two pages.  [main_page.py]
    extracts the text of two uploaded PDF files, asks Gemini for flashcards
    and keeps named sets of cards in [flashcards.json]; [flashcard_viewer.py]
    walks through one set in shuffled order.

    The embedding keeps the dynamic typing of the source: a Python object is
    a [value], Streamlit's session state is a finite map from key names to
    objects, and a page function is a [Script], a state-and-exception monad
    over the [World] the script runs in (session state, disk, random
    generator, messages shown to the user, requests sent to Gemini). *)

From Stdlib Require Import ZArith Ascii String List Lia.
From stdpp Require Import base tactics option list list_numbers strings gmap pretty.

Local Open Scope Z_scope.
Set Warnings "-register-all".

(** ** Python objects *)

(** The objects [json.loads] can build, without fractional numbers (no card
    field is a number).  A [str] is a sequence of characters; a [dict] keeps
    its items in insertion order. *)
Inductive value : Type :=
  | PyNone
  | PyBool (b : bool)
  | PyInt (z : Z)
  | PyStr (s : string)
  | PyList (l : list value)
  | PyDict (d : list (string * value)).

(** What text extraction finds in an uploaded file: [fitz.open] either raises
    (with the text of the exception) or gives the pages, whose texts
    [get_text] returns in page order. *)
Inductive UploadedFile : Type :=
  | Unreadable (err : string)
  | Pages (texts : list string).

(** What a slot of the session state can hold. *)
Inductive PyObj : Type :=
  | Json (v : value)
  | Upload (f : UploadedFile).

Coercion Json : value >-> PyObj.

(** Structural induction through the nested lists. *)
Section value_rect.
Variable P : value → Prop.
Hypothesis HNone : P PyNone.
Hypothesis HBool : ∀ b, P (PyBool b).
Hypothesis HInt : ∀ z, P (PyInt z).
Hypothesis HStr : ∀ s, P (PyStr s).
Hypothesis HList : ∀ l, Forall P l → P (PyList l).
Hypothesis HDict : ∀ d, Forall (λ kv, P kv.2) d → P (PyDict d).

Fixpoint value_ind' (v : value) : P v :=
  match v with
  | PyNone => HNone
  | PyBool b => HBool b
  | PyInt z => HInt z
  | PyStr s => HStr s
  | PyList l =>
      HList l ((fix go (l : list value) : Forall P l :=
                  match l with
                  | [] => Forall_nil_2 P
                  | x :: l' => Forall_cons_2 P x l' (value_ind' x) (go l')
                  end) l)
  | PyDict d =>
      HDict d ((fix go (d : list (string * value)) : Forall (λ kv, P kv.2) d :=
                  match d with
                  | [] => Forall_nil_2 _
                  | kv :: d' => Forall_cons_2 _ kv d' (value_ind' kv.2) (go d')
                  end) d)
  end.
End value_rect.

(** *** Dictionaries *)

(** [d[k]], [k in d] and [d[k] = v] on an insertion-ordered dictionary: an
    assignment to a key that is present keeps its place, a new key goes to
    the end. *)
Fixpoint dict_get (k : string) (d : list (string * value)) : option value :=
  match d with
  | [] => None
  | (k', v) :: d' => if decide (k = k') then Some v else dict_get k d'
  end.

Fixpoint dict_set (k : string) (v : value) (d : list (string * value))
  : list (string * value) :=
  match d with
  | [] => [(k, v)]
  | (k', v') :: d' =>
      if decide (k = k') then (k, v) :: d' else (k', v') :: dict_set k v d'
  end.

Definition dict_keys (d : list (string * value)) : list string := d.*1.

(** A [value] stands for a Python object when no dictionary in it has a key
    twice. *)
Fixpoint wf_value (v : value) : bool :=
  match v with
  | PyList l => forallb wf_value l
  | PyDict d =>
      bool_decide (NoDup d.*1) && forallb (λ kv, wf_value kv.2) d
  | _ => true
  end.

(** *** Truth value, length, membership, subscription *)

(** [bool(v)]. *)
Definition truthy (v : value) : bool :=
  match v with
  | PyNone => false
  | PyBool b => b
  | PyInt z => negb (z =? 0)
  | PyStr s => negb (bool_decide (s = ""))
  | PyList l => negb (bool_decide (l = []))
  | PyDict d => negb (bool_decide (d.*1 = []))
  end.

(** Truth value of an optional text: [None] and [""] are false. *)
Definition truthy_text (t : option string) : bool :=
  match t with
  | Some s => negb (bool_decide (s = ""))
  | None => false
  end.

(** [len(v)]; [None] is the [TypeError] of an object without length. *)
Definition py_len (v : value) : option nat :=
  match v with
  | PyStr s => Some (String.length s)
  | PyList l => Some (length l)
  | PyDict d => Some (length d)
  | _ => None
  end.

(** Is [s] a prefix of [t], and does [s] occur in [t]. *)
Fixpoint str_prefix (s t : string) : bool :=
  match s, t with
  | EmptyString, _ => true
  | String a s', String b t' => bool_decide (a = b) && str_prefix s' t'
  | String _ _, EmptyString => false
  end.

Fixpoint str_occurs (s t : string) : bool :=
  str_prefix s t ||
  match t with
  | EmptyString => false
  | String _ t' => str_occurs s t'
  end.

(** [k in v] for a string [k]; [None] is the [TypeError] of an object that
    is no container. *)
Definition py_contains (k : string) (v : value) : option bool :=
  match v with
  | PyDict d => Some (bool_decide (k ∈ d.*1))
  | PyList l =>
      Some (existsb (λ x, match x with
                          | PyStr s => bool_decide (s = k)
                          | _ => false
                          end) l)
  | PyStr s => Some (str_occurs k s)
  | _ => None
  end.

(** Exceptions no handler of the program catches. *)
Inductive Exn : Type :=
  | KeyError (k : string)
  | TypeError
  | ValueError
  | IndexError.

(** [v[k]] and [v[k] = x] for a string [k]: only a dictionary takes a
    string subscript. *)
Definition py_getitem (v : value) (k : string) : Exn + value :=
  match v with
  | PyDict d =>
      match dict_get k d with
      | Some x => inr x
      | None => inl (KeyError k)
      end
  | _ => inl TypeError
  end.

Definition py_setitem (v : value) (k : string) (x : value) : Exn + value :=
  match v with
  | PyDict d => inr (PyDict (dict_set k x d))
  | _ => inl TypeError
  end.

(** An object used as an integer: [bool] is a subclass of [int]. *)
Definition as_int (o : PyObj) : option Z :=
  match o with
  | Json (PyInt z) => Some z
  | Json (PyBool b) => Some (Z.b2z b)
  | _ => None
  end.

(** The name of the type of a value, as exception texts print it. *)
Definition type_name (v : value) : string :=
  match v with
  | PyNone => "NoneType"
  | PyBool _ => "bool"
  | PyInt _ => "int"
  | PyStr _ => "str"
  | PyList _ => "list"
  | PyDict _ => "dict"
  end.

(** ** The world a script runs in *)

(** The four message calls of Streamlit the program uses; layout calls
    (titles, columns, spinners, the progress bar, balloons) show nothing
    that depends on the state and are left out. *)
Inductive UiEvent : Type :=
  | StError (msg : string)
  | StWarning (msg : string)
  | StInfo (msg : string)
  | StSuccess (msg : string).

(** What a call of [generate_content] comes to: an exception (raised by the
    request, or by reading [response.text]) with its text, or the text of
    the response. *)
Inductive GeminiReply : Type :=
  | ReplyFails (err : string)
  | ReplyText (text : string).

Record World : Type := {
  session_state : gmap string PyObj;  (* st.session_state *)
  disk : gmap string string;          (* path to contents of the text file *)
  rng : nat → nat;                    (* the draws to come of the generator *)
  shown : list UiEvent;               (* messages shown, oldest first *)
  requests : list string;             (* prompts sent to Gemini, oldest first *)
  secrets : string + string;          (* st.secrets["gemini"]["api_key"], or
                                         the text of the exception it raises *)
  gemini : nat → string → GeminiReply (* reply to the n-th request *)
}.

Definition set_session_state (f : gmap string PyObj → gmap string PyObj)
    (w : World) : World :=
  {| session_state := f (session_state w); disk := disk w; rng := rng w;
     shown := shown w; requests := requests w; secrets := secrets w;
     gemini := gemini w |}.

Definition set_disk (f : gmap string string → gmap string string)
    (w : World) : World :=
  {| session_state := session_state w; disk := f (disk w); rng := rng w;
     shown := shown w; requests := requests w; secrets := secrets w;
     gemini := gemini w |}.

Definition set_rng (g : nat → nat) (w : World) : World :=
  {| session_state := session_state w; disk := disk w; rng := g;
     shown := shown w; requests := requests w; secrets := secrets w;
     gemini := gemini w |}.

Definition add_shown (e : UiEvent) (w : World) : World :=
  {| session_state := session_state w; disk := disk w; rng := rng w;
     shown := shown w ++ [e]; requests := requests w; secrets := secrets w;
     gemini := gemini w |}.

Definition add_request (p : string) (w : World) : World :=
  {| session_state := session_state w; disk := disk w; rng := rng w;
     shown := shown w; requests := requests w ++ [p]; secrets := secrets w;
     gemini := gemini w |}.

(** ** Scripts *)

(** A run of a script ends normally, or at [st.rerun()], or with an
    exception no handler caught (Streamlit shows it and stops the run).
    The changes made to the world up to that point stay. *)
Inductive Outcome (A : Type) : Type :=
  | Done (a : A)
  | Rerun
  | Raised (e : Exn).
Arguments Done {A} a.
Arguments Rerun {A}.
Arguments Raised {A} e.

Record Script (A : Type) : Type := MkScript { run : World → Outcome A * World }.
Arguments MkScript {A} run.
Arguments run {A} s w.

Global Instance script_ret : MRet Script := λ A a, MkScript (λ w, (Done a, w)).

Global Instance script_bind : MBind Script := λ A B f m,
  MkScript (λ w,
    match run m w with
    | (Done a, w') => run (f a) w'
    | (Rerun, w') => (Rerun, w')
    | (Raised e, w') => (Raised e, w')
    end).

Definition raise {A} (e : Exn) : Script A := MkScript (λ w, (Raised e, w)).
Definition st_rerun {A} : Script A := MkScript (λ w, (Rerun, w)).

Definition st_error (msg : string) : Script unit :=
  MkScript (λ w, (Done (), add_shown (StError msg) w)).
Definition st_warning (msg : string) : Script unit :=
  MkScript (λ w, (Done (), add_shown (StWarning msg) w)).
Definition st_info (msg : string) : Script unit :=
  MkScript (λ w, (Done (), add_shown (StInfo msg) w)).
Definition st_success (msg : string) : Script unit :=
  MkScript (λ w, (Done (), add_shown (StSuccess msg) w)).

(** [k in st.session_state], [st.session_state[k]], [st.session_state[k] = o]
    and [del st.session_state[k]]. *)
Definition session_has (k : string) : Script bool :=
  MkScript (λ w, (Done (bool_decide (is_Some (session_state w !! k))), w)).

Definition session_get (k : string) : Script PyObj :=
  MkScript (λ w,
    match session_state w !! k with
    | Some o => (Done o, w)
    | None => (Raised (KeyError k), w)
    end).

Definition session_set (k : string) (o : PyObj) : Script unit :=
  MkScript (λ w, (Done (), set_session_state (insert k o) w)).

Definition session_del (k : string) : Script unit :=
  MkScript (λ w,
    match session_state w !! k with
    | Some _ => (Done (), set_session_state (delete k) w)
    | None => (Raised (KeyError k), w)
    end).

(** A session slot read where the program goes on to use it as a [value]
    (an uploaded file has none of the operations used: [TypeError]). *)
Definition session_get_value (k : string) : Script value :=
  o ← session_get k;
  match o with
  | Json v => mret v
  | Upload _ => raise TypeError
  end.

(** Lifting the result of an operation that may raise. *)
Definition lift_exn {A} (r : Exn + A) : Script A :=
  match r with
  | inr a => mret a
  | inl e => raise e
  end.

Definition lift_type_error {A} (r : option A) : Script A :=
  match r with
  | Some a => mret a
  | None => raise TypeError
  end.

(** [if c: body] *)
Definition when (c : bool) (body : Script unit) : Script unit :=
  if c then body else mret ().

(** *** The disk *)

(** [os.path.exists(path)], [os.remove(path)], and a text file read or
    written in one go; reading gives the text of the exception when the
    file is missing. *)
Definition os_path_exists (path : string) : Script bool :=
  MkScript (λ w, (Done (bool_decide (is_Some (disk w !! path))), w)).

Definition os_remove (path : string) : Script unit :=
  MkScript (λ w, (Done (), set_disk (delete path) w)).

Definition read_text (path : string) : Script (string + string) :=
  MkScript (λ w,
    match disk w !! path with
    | Some text => (Done (inr text), w)
    | None =>
        (Done (inl ("[Errno 2] No such file or directory: '" +:+ path +:+ "'")), w)
    end).

Definition write_text (path text : string) : Script unit :=
  MkScript (λ w, (Done (), set_disk (insert path text) w)).

(** *** The random generator *)

(** [random._randbelow(n)]: some number below [n], decided by the state of
    the generator, which moves on. *)
Definition randbelow (n : nat) : Script nat :=
  MkScript (λ w,
    (Done (rng w 0%nat `mod` n)%nat, set_rng (λ i, rng w (S i)) w)).

(** [random.sample(population, k)], the branch CPython takes when the
    population is no larger than [21 + 4 ** ceil(log(3 * k, 4))], as it is
    whenever [k = len(population)]:
<<
    pool = list(population)
    for i in range(k):
        j = randbelow(n - i)
        result[i] = pool[j]
        pool[j] = pool[n - i - 1]
>>
    [result] is filled from index 0 upwards, so it is built by appending. *)
Fixpoint sample_pool {A} (steps i n : nat) (pool result : list A)
  : Script (list A) :=
  match steps with
  | O => mret result
  | S steps' =>
      j ← randbelow (n - i);
      match pool !! j, pool !! (n - i - 1)%nat with
      | Some x, Some y =>
          sample_pool steps' (S i) n (<[j := y]> pool) (result ++ [x])
      | _, _ => raise IndexError
      end
  end.

Definition random_sample {A} (population : list A) (k : Z) : Script (list A) :=
  let n := length population in
  if bool_decide (0 ≤ k ≤ Z.of_nat n) then
    sample_pool (Z.to_nat k) 0 n population []
  else raise ValueError.

(** [range(n)] *)
Definition py_range (n : Z) : list Z := seqZ 0 n.

(** *** Gemini *)

(** [model.generate_content(prompt)]: the request is sent and the reply
    comes back. *)
Definition generate_content (prompt : string) : Script GeminiReply :=
  MkScript (λ w,
    (Done (gemini w (length (requests w)) prompt), add_request prompt w)).

(** ** The json library *)

(** [json.dumps(v, indent=4, ensure_ascii=False)] and [json.loads(s)], the
    latter giving the text of the [JSONDecodeError] when [s] is no JSON
    document.  What the program relies on is the round trip the library
    documents for objects made of [None], booleans, integers, strings,
    lists and dictionaries with string keys: a document written by the
    library reads back as the object it was written from. *)
Class JsonLib : Type := {
  json_dumps : value → string;
  json_loads : string → string + value;
  json_loads_dumps : ∀ v, wf_value v → json_loads (json_dumps v) = inr v
}.

(** [with open(path, "r", encoding="utf-8") as f: json.load(f)]: the object
    read, or the text of the exception raised on the way. *)
Definition json_load `{!JsonLib} (path : string) : Script (string + value) :=
  r ← read_text path;
  match r with
  | inr text => mret (json_loads text)
  | inl e => mret (inl e)
  end.

(** [with open(path, "w", encoding="utf-8") as f: json.dump(v, f, indent=4,
    ensure_ascii=False)].  Every [value] is serialisable and the disk takes
    every write, so nothing is raised here. *)
Definition json_dump `{!JsonLib} (v : value) (path : string) : Script unit :=
  write_text path (json_dumps v).

(** The line feed, and [s[:n]]. *)
Definition nl : string := String "010"%char "".

Fixpoint str_take (n : nat) (s : string) : string :=
  match n, s with
  | S n', String a s' => String a (str_take n' s')
  | _, _ => ""
  end.

(** ** A reference implementation of the json library *)

(** The encoder and the decoder of CPython's [json] package, on documents
    whose characters are single bytes and whose numbers are integers:
    [dumps] is [json.dumps(v, indent=4, ensure_ascii=False)], [loads] is
    [json.loads], which refuses (as outside this fragment) a number with a
    fraction or an exponent, the constants [NaN] and [Infinity], and a
    [\u] escape above 255.  Of the text of a [JSONDecodeError] only the
    first words are kept.  The instance [ref_json] below shows that the law
    of [JsonLib] can be met; the properties of the program are proved for
    every instance. *)
Module RefJson.

Definition chars : string → list ascii := list_ascii_of_string.
Definition text : list ascii → string := string_of_list_ascii.

Definition quote : ascii := "034"%char.
Definition backslash : ascii := "\"%char.

(** *** Encoding *)

Definition hex_digit (n : nat) : ascii :=
  match n with
  | 0 => "0" | 1 => "1" | 2 => "2" | 3 => "3" | 4 => "4" | 5 => "5"
  | 6 => "6" | 7 => "7" | 8 => "8" | 9 => "9" | 10 => "a" | 11 => "b"
  | 12 => "c" | 13 => "d" | 14 => "e" | _ => "f"
  end%nat%char.

(** [ESCAPE_DCT]: the quote, the backslash and the control characters. *)
Definition escape_char (c : ascii) : list ascii :=
  let n := nat_of_ascii c in
  if (n =? 34)%nat then [backslash; quote]
  else if (n =? 92)%nat then [backslash; backslash]
  else if (n =? 8)%nat then [backslash; "b"%char]
  else if (n =? 12)%nat then [backslash; "f"%char]
  else if (n =? 10)%nat then [backslash; "n"%char]
  else if (n =? 13)%nat then [backslash; "r"%char]
  else if (n =? 9)%nat then [backslash; "t"%char]
  else if (n <? 32)%nat then
    [backslash; "u"%char; "0"%char; "0"%char;
     hex_digit (n / 16); hex_digit (n `mod` 16)]
  else [c].

Definition encode_string (s : string) : list ascii :=
  quote :: flat_map escape_char (chars s) ++ [quote].

Definition digit_char (n : N) : ascii :=
  ascii_of_N (48 + n).

(** The decimal digits of [n], most significant first, in front of [acc]. *)
Fixpoint digits_go (fuel : nat) (n : N) (acc : list ascii) : list ascii :=
  match fuel with
  | O => acc
  | S fuel' =>
      let acc' := digit_char (n `mod` 10)%N :: acc in
      if (n <? 10)%N then acc' else digits_go fuel' (n `div` 10)%N acc'
  end.

Definition encode_N (n : N) : list ascii :=
  digits_go (S (N.size_nat n)) n [].

Definition encode_int (z : Z) : list ascii :=
  match z with
  | Z0 => ["0"%char]
  | Zpos p => encode_N (Npos p)
  | Zneg p => "-"%char :: encode_N (Npos p)
  end.

(** A line feed and the indentation of nesting level [level]. *)
Definition newline_indent (level : nat) : list ascii :=
  "010"%char :: replicate (4 * level) " "%char.

Fixpoint encode (level : nat) (v : value) : list ascii :=
  match v with
  | PyNone => chars "null"
  | PyBool true => chars "true"
  | PyBool false => chars "false"
  | PyInt z => encode_int z
  | PyStr s => encode_string s
  | PyList [] => chars "[]"
  | PyList (x :: l) =>
      "["%char :: newline_indent (S level) ++ encode (S level) x ++
      flat_map (λ y, ","%char :: newline_indent (S level) ++ encode (S level) y) l ++
      newline_indent level ++ ["]"%char]
  | PyDict [] => chars "{}"
  | PyDict ((k, x) :: d) =>
      "{"%char :: newline_indent (S level) ++
      encode_string k ++ chars ": " ++ encode (S level) x ++
      flat_map (λ kv, ","%char :: newline_indent (S level) ++
                      encode_string kv.1 ++ chars ": " ++ encode (S level) kv.2) d ++
      newline_indent level ++ ["}"%char]
  end.

Definition dumps (v : value) : string := text (encode 0 v).

(** *** Decoding *)

(** [WHITESPACE] *)
Definition is_ws (c : ascii) : bool :=
  let n := nat_of_ascii c in
  ((n =? 32) || (n =? 9) || (n =? 10) || (n =? 13))%nat.

Fixpoint skip_ws (s : list ascii) : list ascii :=
  match s with
  | c :: s' => if is_ws c then skip_ws s' else s
  | [] => []
  end.

Definition hex_value (c : ascii) : option nat :=
  let n := nat_of_ascii c in
  if ((48 <=? n) && (n <=? 57))%nat then Some (n - 48)%nat
  else if ((97 <=? n) && (n <=? 102))%nat then Some (n - 87)%nat
  else if ((65 <=? n) && (n <=? 70))%nat then Some (n - 55)%nat
  else None.

(** [BACKSLASH]: the character an escape letter stands for. *)
Definition unescape (c : ascii) : option ascii :=
  let n := nat_of_ascii c in
  if (n =? 34)%nat then Some quote
  else if (n =? 92)%nat then Some backslash
  else if (n =? 47)%nat then Some "/"%char
  else if (n =? 98)%nat then Some "008"%char
  else if (n =? 102)%nat then Some "012"%char
  else if (n =? 110)%nat then Some "010"%char
  else if (n =? 114)%nat then Some "013"%char
  else if (n =? 116)%nat then Some "009"%char
  else None.

(** [scanstring], strict: the characters up to the closing quote, and what
    follows it. *)
Fixpoint scan_string (s : list ascii) : option (list ascii * list ascii) :=
  match s with
  | [] => None
  | c :: s' =>
      let n := nat_of_ascii c in
      if (n =? 34)%nat then Some ([], s')
      else if (n =? 92)%nat then
        match s' with
        | [] => None
        | e :: s'' =>
            if (nat_of_ascii e =? 117)%nat then
              match s'' with
              | h1 :: h2 :: h3 :: h4 :: s''' =>
                  match hex_value h1, hex_value h2, hex_value h3, hex_value h4 with
                  | Some 0%nat, Some 0%nat, Some d3, Some d4 =>
                      '(str, rest) ← scan_string s''';
                      Some (ascii_of_nat (16 * d3 + d4) :: str, rest)
                  | _, _, _, _ => None
                  end
              | _ => None
              end
            else
              ch ← unescape e;
              '(str, rest) ← scan_string s'';
              Some (ch :: str, rest)
        end
      else if (n <? 32)%nat then None
      else
        '(str, rest) ← scan_string s';
        Some (c :: str, rest)
  end.

Definition is_digit (c : ascii) : bool :=
  let n := nat_of_ascii c in ((48 <=? n) && (n <=? 57))%nat.

Definition digit_value (c : ascii) : N := N_of_ascii c - 48.

(** The run of digits at the head of [s], after digits that gave [acc]. *)
Fixpoint scan_digits (acc : N) (s : list ascii) : N * list ascii :=
  match s with
  | c :: s' =>
      if is_digit c then scan_digits (10 * acc + digit_value c) s' else (acc, s)
  | [] => (acc, [])
  end.

(** Does a fraction (a point and a digit) or an exponent (e or E, a sign
    or none, a digit) follow. *)
Definition float_follows (s : list ascii) : bool :=
  match s with
  | c :: d :: s' =>
      let n := nat_of_ascii c in
      let m := nat_of_ascii d in
      if (n =? 46)%nat then is_digit d
      else if ((n =? 101) || (n =? 69))%nat then
        is_digit d ||
        (((m =? 43) || (m =? 45))%nat &&
         match s' with e :: _ => is_digit e | [] => false end)
      else false
  | _ => false
  end.

(** The integer part of [NUMBER_RE]: a zero, or a digit that is not zero
    and the digits after it. *)
Definition scan_natural (s : list ascii) : option (N * list ascii) :=
  match s with
  | c :: s' =>
      if (nat_of_ascii c =? 48)%nat then Some (0%N, s')
      else if is_digit c then Some (scan_digits (digit_value c) s')
      else None
  | [] => None
  end.

(** [NUMBER_RE], for an integer. *)
Definition scan_number (s : list ascii) : option (value * list ascii) :=
  match s with
  | c :: s' =>
      '(n, rest) ← (if (nat_of_ascii c =? 45)%nat then
                      '(n, rest) ← scan_natural s'; Some (- Z.of_N n, rest)
                    else
                      '(n, rest) ← scan_natural s; Some (Z.of_N n, rest));
      if float_follows rest then None else Some (PyInt n, rest)
  | [] => None
  end.

Fixpoint strip_prefix (p s : list ascii) : option (list ascii) :=
  match p, s with
  | [], _ => Some s
  | a :: p', b :: s' => if Ascii.eqb a b then strip_prefix p' s' else None
  | _ :: _, [] => None
  end.

(** [scan_once], [JSONArray] and [JSONObject].  [fuel] bounds the number
    of nested calls; [parse_array] is entered where an element starts and
    [parse_object] after the quote that opens a key, each with the items
    read so far. *)
Fixpoint parse_value (fuel : nat) (s : list ascii) {struct fuel}
  : option (value * list ascii) :=
  match fuel with
  | O => None
  | S fuel' =>
      match s with
      | [] => None
      | c :: s' =>
          let n := nat_of_ascii c in
          if (n =? 34)%nat then
            '(str, rest) ← scan_string s';
            Some (PyStr (text str), rest)
          else if (n =? 123)%nat then
            match skip_ws s' with
            | d :: s'' =>
                if (nat_of_ascii d =? 125)%nat then Some (PyDict [], s'')
                else if (nat_of_ascii d =? 34)%nat then parse_object fuel' s'' []
                else None
            | [] => None
            end
          else if (n =? 91)%nat then
            match skip_ws s' with
            | d :: s'' =>
                if (nat_of_ascii d =? 93)%nat then Some (PyList [], s'')
                else parse_array fuel' (d :: s'') []
            | [] => None
            end
          else if (n =? 110)%nat then
            rest ← strip_prefix (chars "null") s; Some (PyNone, rest)
          else if (n =? 116)%nat then
            rest ← strip_prefix (chars "true") s; Some (PyBool true, rest)
          else if (n =? 102)%nat then
            rest ← strip_prefix (chars "false") s; Some (PyBool false, rest)
          else scan_number s
      end
  end
with parse_array (fuel : nat) (s : list ascii) (items : list value) {struct fuel}
  : option (value * list ascii) :=
  match fuel with
  | O => None
  | S fuel' =>
      '(v, s1) ← parse_value fuel' s;
      match skip_ws s1 with
      | d :: s2 =>
          if (nat_of_ascii d =? 93)%nat then Some (PyList (items ++ [v]), s2)
          else if (nat_of_ascii d =? 44)%nat then
            parse_array fuel' (skip_ws s2) (items ++ [v])
          else None
      | [] => None
      end
  end
with parse_object (fuel : nat) (s : list ascii) (items : list (string * value))
    {struct fuel} : option (value * list ascii) :=
  match fuel with
  | O => None
  | S fuel' =>
      '(key, s1) ← scan_string s;
      match skip_ws s1 with
      | c :: s2 =>
          if (nat_of_ascii c =? 58)%nat then
            '(v, s3) ← parse_value fuel' (skip_ws s2);
            let items' := dict_set (text key) v items in
            match skip_ws s3 with
            | d :: s4 =>
                if (nat_of_ascii d =? 125)%nat then Some (PyDict items', s4)
                else if (nat_of_ascii d =? 44)%nat then
                  match skip_ws s4 with
                  | q :: s5 =>
                      if (nat_of_ascii q =? 34)%nat
                      then parse_object fuel' s5 items'
                      else None
                  | [] => None
                  end
                else None
            | [] => None
            end
          else None
      | [] => None
      end
  end.

(** [JSONDecoder.decode]: one value, white space around it, nothing else. *)
Definition loads (s : string) : string + value :=
  let input := chars s in
  match parse_value (S (length input)) (skip_ws input) with
  | Some (v, rest) =>
      match skip_ws rest with
      | [] => inr v
      | _ :: _ => inl "Extra data"
      end
  | None => inl "Expecting value"
  end.

(** *** Notions used to state that decoding inverts encoding *)

(** What may follow a number for the number to end there. *)
Definition ends_number (rest : list ascii) : bool :=
  match rest with
  | [] => true
  | c :: _ =>
      let n := nat_of_ascii c in
      negb (is_digit c) && negb (n =? 46)%nat && negb (n =? 101)%nat
      && negb (n =? 69)%nat
  end.

(** The first character of a number written. *)
Definition starts_number (c : ascii) : Prop :=
  nat_of_ascii c = 45%nat ∨ (48 ≤ nat_of_ascii c ≤ 57)%nat.

(** A bound on the nesting of calls that reads a value back. *)
Fixpoint cost (v : value) : nat :=
  match v with
  | PyList l => S (sum_list_with (λ y, S (cost y)) l)
  | PyDict d => S (sum_list_with (λ kv, S (cost kv.2)) d)
  | _ => 1
  end.

(** Items after the first of a list or a dictionary, each written behind
    its separator. *)
Definition more_items (level : nat) (l : list value) : list ascii :=
  flat_map (λ y, ","%char :: newline_indent (S level) ++ encode (S level) y) l.

Definition more_pairs (level : nat) (d : list (string * value)) : list ascii :=
  flat_map (λ kv, ","%char :: newline_indent (S level) ++
                  encode_string kv.1 ++ chars ": " ++ encode (S level) kv.2) d.

End RefJson.

(** ** flashcard_viewer.py *)

Module flashcard_viewer.

(** The four buttons of [navigation_controls], each with the value
    [st.button] returns in this run. *)
Record NavButtons : Type := {
  previous_card : bool;
  shuffle_cards : bool;
  show_answer : bool;
  next_card : bool
}.

Section viewer.
Context `{!JsonLib}.

(** [hash(json.dumps(v, sort_keys=True))] *)
Variable content_hash : value → Z.

Definition FLASHCARDS_FILE : string := "flashcards.json".

Definition load_flashcard_sets : Script value :=
  found ← os_path_exists FLASHCARDS_FILE;
  if (found : bool) then
    r ← json_load FLASHCARDS_FILE;
    match r with
    | inr v => mret v
    | inl e =>
        st_error ("Failed to load flashcard sets: " +:+ e);;
        mret (PyDict [])
    end
  else mret (PyDict []).

(** [o != z] for an integer [z]. *)
Definition differs_from_int (o : PyObj) (z : Z) : bool :=
  match as_int o with
  | Some z' => negb (z' =? z)
  | None => true
  end.

Definition initialize_flashcard_viewer_state (selected_flashcards : value)
  : Script unit :=
  let current_set_id := content_hash selected_flashcards in
  known ← session_has "current_set_hash";
  changed ← (if (known : bool) then
               o ← session_get "current_set_hash";
               mret (differs_from_int o current_set_id)
             else mret true);
  when changed (
    session_set "current_set_hash" (PyInt current_set_id);;
    session_set "flashcards_current_set" selected_flashcards;;
    session_set "current_card_index" (PyInt 0);;
    session_set "show_answer" (PyBool false);;
    session_set "chat_history" (PyList []);;
    session_set "current_flashcard_context" (PyStr "");;
    (if truthy selected_flashcards then
       n ← lift_type_error (py_len selected_flashcards);
       p ← random_sample (py_range (Z.of_nat n)) (Z.of_nat n);
       session_set "shuffled_cards" (PyList (PyInt <$> p))
     else session_set "shuffled_cards" (PyList []));;
    st_rerun).

Definition navigation_controls (total_cards : Z) (b : NavButtons)
  : Script unit :=
  if bool_decide (total_cards = 0) then mret () else
  when (previous_card b) (
    o ← session_get "current_card_index";
    c ← lift_type_error (as_int o);
    session_set "current_card_index" (PyInt ((c - 1) `mod` total_cards));;
    session_set "show_answer" (PyBool false);;
    session_set "chat_history" (PyList []);;
    st_rerun);;
  when (shuffle_cards b) (
    p ← random_sample (py_range total_cards) total_cards;
    session_set "shuffled_cards" (PyList (PyInt <$> p));;
    session_set "current_card_index" (PyInt 0);;
    session_set "show_answer" (PyBool false);;
    session_set "chat_history" (PyList []);;
    st_rerun);;
  when (show_answer b) (
    session_set "show_answer" (PyBool true));;
  when (next_card b) (
    o ← session_get "current_card_index";
    c ← lift_type_error (as_int o);
    session_set "current_card_index" (PyInt ((c + 1) `mod` total_cards));;
    session_set "show_answer" (PyBool false);;
    session_set "chat_history" (PyList []);;
    st_rerun).
End viewer.

End flashcard_viewer.

(** ** main_page.py *)

Module main_page.

(** The widgets of the page, each with the value it returns in this run. *)
Record Widgets : Type := {
  uploaded_question_file : option UploadedFile;
  uploaded_answer_file : option UploadedFile;
  set_name : string;
  generate_button_pressed : bool;
  load_button_pressed : bool;
  clear_button_pressed : bool
}.

Section page.
Context `{!JsonLib}.

(** The fixed instructions that open the prompt. *)
Variable instruction_prefix : string.

Definition FLASHCARDS_FILE : string := "flashcards.json".

Definition extract_text_from_pdf (pdf_file : PyObj) : Script (option string) :=
  match pdf_file with
  | Upload (Pages texts) =>
      mret (Some (fold_left (λ text page, text +:+ page) texts ""))
  | Upload (Unreadable e) =>
      st_error ("Error during PDF text extraction: " +:+ e);;
      mret None
  | Json v =>
      st_error ("Error during PDF text extraction: '" +:+ type_name v
                +:+ "' object has no attribute 'read'");;
      mret None
  end.

Definition indent8 : string := "        ".

Definition prompt_message (question_text_content answer_text_content : string)
  : string :=
  nl +:+ indent8 +:+ instruction_prefix +:+ nl +:+
  nl +:+ indent8 +:+ "Here is the text from the **Question Paper**:" +:+
  nl +:+ indent8 +:+ "```" +:+
  nl +:+ indent8 +:+ question_text_content +:+
  nl +:+ indent8 +:+ "```" +:+ nl +:+
  nl +:+ indent8 +:+ "Here is the text from the **Scheme Answer**:" +:+
  nl +:+ indent8 +:+ "```" +:+
  nl +:+ indent8 +:+ answer_text_content +:+
  nl +:+ indent8 +:+ "```" +:+ nl +:+
  nl +:+ indent8 +:+ "Now, generate the flashcards by matching questions to answers." +:+
  nl +:+ indent8.

(** [st.secrets["gemini"]["api_key"]] *)
Definition read_api_key : Script (string + string) :=
  MkScript (λ w, (Done (secrets w), w)).

Definition generate_flashcards_gemini
    (question_text_content answer_text_content : string) : Script value :=
  key ← read_api_key;
  match key with
  | inl e =>
      st_error ("An error occurred during Gemini flashcard generation: " +:+ e);;
      mret (PyList [])
  | inr _ =>
      response ← generate_content
                   (prompt_message question_text_content answer_text_content);
      match response with
      | ReplyFails e =>
          st_error ("An error occurred during Gemini flashcard generation: " +:+ e);;
          mret (PyList [])
      | ReplyText json_string =>
          match json_loads json_string with
          | inr cards => mret cards
          | inl e =>
              st_error ("Error decoding JSON from Gemini response. Ensure Gemini generated valid JSON. Error: "
                        +:+ e +:+ nl +:+ "Raw response (first 500 chars): "
                        +:+ str_take 500 json_string +:+ "...");;
              mret (PyList [])
          end
      end
  end.

(** The handler of the source ([except Exception], which shows
    [Error saving flashcard sets]) is never entered: see [json_dump]. *)
Definition save_flashcard_sets (flashcard_sets : value) : Script unit :=
  json_dump flashcard_sets FLASHCARDS_FILE.

Definition load_flashcard_sets : Script value :=
  found ← os_path_exists FLASHCARDS_FILE;
  if (found : bool) then
    r ← json_load FLASHCARDS_FILE;
    match r with
    | inr v => mret v
    | inl e =>
        st_error ("Error loading flashcard sets from " +:+ FLASHCARDS_FILE
                  +:+ ": " +:+ e);;
        mret (PyDict [])
    end
  else mret (PyDict []).

(** [if k not in st.session_state: st.session_state[k] = init] *)
Definition session_default (k : string) (init : Script PyObj) : Script unit :=
  known ← session_has k;
  if (known : bool) then mret () else o ← init; session_set k o.

(** The part of [main] under [if generate_button_pressed:]. *)
Definition generate_pressed (set_name : string) : Script unit :=
  if negb (truthy (PyStr set_name)) return Script unit then
    st_warning "Please enter a name for the flashcard set before generating."
  else
    has_q ← session_has "uploaded_question_pdf";
    has_a ← (if (has_q : bool) then session_has "uploaded_answer_pdf"
             else mret false);
    if (has_a : bool) return Script unit then
      st_info "Processing your PDFs...";;
      q_pdf ← session_get "uploaded_question_pdf";
      question_text ← extract_text_from_pdf q_pdf;
      (match question_text with
       | Some text =>
           if truthy (PyStr text) then
             session_set "question_text" (PyStr text);;
             st_success "Question Paper text extracted."
           else st_error "Failed to extract text from Question Paper."
       | None => st_error "Failed to extract text from Question Paper."
       end : Script unit);;
      a_pdf ← session_get "uploaded_answer_pdf";
      answer_text ← extract_text_from_pdf a_pdf;
      (match answer_text with
       | Some text =>
           if truthy (PyStr text) then
             session_set "answer_text" (PyStr text);;
             st_success "Scheme Answer text extracted."
           else st_error "Failed to extract text from Scheme Answer."
       | None => st_error "Failed to extract text from Scheme Answer."
       end : Script unit);;
      match question_text, answer_text return Script unit with
      | Some q, Some a =>
          if truthy (PyStr q) && truthy (PyStr a) return Script unit then
            cards ← generate_flashcards_gemini q a;
            (if truthy cards return Script unit then
               sets ← session_get_value "flashcard_sets";
               sets' ← lift_exn (py_setitem sets set_name cards);
               session_set "flashcard_sets" (Json sets');;
               sets ← session_get_value "flashcard_sets";
               save_flashcard_sets sets
             else
               st_warning "No flashcards generated from the provided content. Try different PDFs or adjust the prompt.");;
            sets ← session_get_value "flashcard_sets";
            present ← lift_type_error (py_contains set_name sets);
            stored ← (if (present : bool) then
                        x ← lift_exn (py_getitem sets set_name);
                        mret (truthy x)
                      else mret false);
            if (stored : bool) return Script unit then
              x ← lift_exn (py_getitem sets set_name);
              n ← lift_type_error (py_len x);
              st_success ("Successfully generated " +:+ pretty (n : nat)
                          +:+ " flashcards for set '" +:+ set_name +:+ "'!");;
              st_info "Navigate to the **'Flashcard viewer'** page in the sidebar to review your new flashcards."
            else
              st_warning "No flashcards could be generated. Check PDF content or errors above."
          else
            st_error "Text extraction failed for one or both PDFs. Flashcard generation skipped."
      | _, _ =>
          st_error "Text extraction failed for one or both PDFs. Flashcard generation skipped."
      end
    else
      st_warning "Please upload both the Question Paper and Scheme Answer PDFs.".

(** The part of [main] under [if load_button_pressed:]. *)
Definition load_pressed : Script unit :=
  sets ← load_flashcard_sets;
  session_set "flashcard_sets" (Json sets);;
  sets ← session_get_value "flashcard_sets";
  (if truthy sets return Script unit then
     n ← lift_type_error (py_len sets);
     st_success ("Loaded " +:+ pretty (n : nat) +:+ " flashcard sets from file!");;
     st_info "Navigate to the **'Flashcard viewer'** page in the sidebar to review them."
   else
     st_info "No saved flashcard sets found or an error occurred during loading.");;
  st_rerun.

(** [if k in st.session_state: del st.session_state[k]] *)
Definition session_discard (k : string) : Script unit :=
  known ← session_has k;
  when known (session_del k).

(** The part of [main] under [if clear_button_pressed:]. *)
Definition clear_pressed : Script unit :=
  session_set "flashcard_sets" (PyDict []);;
  session_set "question_text" (PyStr "");;
  session_set "answer_text" (PyStr "");;
  session_discard "uploaded_question_pdf";;
  session_discard "uploaded_answer_pdf";;
  session_discard "last_set_name";;
  st_success "All current flashcards and session data cleared.";;
  found ← os_path_exists FLASHCARDS_FILE;
  when found (
    os_remove FLASHCARDS_FILE;;
    st_info ("Removed saved flashcards file: " +:+ FLASHCARDS_FILE));;
  st_rerun.

(** The part of [main] above the buttons: the defaults of the session, the
    two upload widgets and the text input of the set name. *)
Definition render_widgets (ui : Widgets) : Script unit :=
  session_default "flashcard_sets" (sets ← load_flashcard_sets; mret (Json sets));;
  session_default "question_text" (mret (Json (PyStr "")));;
  session_default "answer_text" (mret (Json (PyStr "")));;
  session_default "last_set_name" (mret (Json (PyStr "")));;
  (match uploaded_question_file ui with
   | Some f =>
       session_set "uploaded_question_pdf" (Upload f);;
       st_success "Question Paper uploaded!"
   | None => mret ()
   end : Script unit);;
  (match uploaded_answer_file ui with
   | Some f =>
       session_set "uploaded_answer_pdf" (Upload f);;
       st_success "Scheme Answer uploaded!"
   | None => mret ()
   end : Script unit);;
  session_get "last_set_name";;
  when (truthy (PyStr (set_name ui)))
    (session_set "last_set_name" (PyStr (set_name ui))).

Definition main (ui : Widgets) : Script unit :=
  render_widgets ui;;
  when (generate_button_pressed ui) (generate_pressed (set_name ui));;
  when (load_button_pressed ui) load_pressed;;
  when (clear_button_pressed ui) clear_pressed.
End page.

End main_page.

(** ** Notions the properties are stated with *)

Import flashcard_viewer.

(** The world a script leaves behind. *)
Definition after {A} (m : Script A) (w : World) : World := (run m w).2.

(** The cursor into the shuffle order, when the session holds one. *)
Definition cursor (w : World) : option Z :=
  session_state w !! "current_card_index" ≫= as_int.

(** A run in which exactly one button was pressed. *)
Definition press_previous : NavButtons :=
  {| previous_card := true; shuffle_cards := false;
     show_answer := false; next_card := false |}.
Definition press_shuffle : NavButtons :=
  {| previous_card := false; shuffle_cards := true;
     show_answer := false; next_card := false |}.
Definition press_show_answer : NavButtons :=
  {| previous_card := false; shuffle_cards := false;
     show_answer := true; next_card := false |}.
Definition press_next : NavButtons :=
  {| previous_card := false; shuffle_cards := false;
     show_answer := false; next_card := true |}.

(** [p] holds every index below [n] exactly once. *)
Definition permutation_of_range (p : list Z) (n : nat) : Prop :=
  p ≡ₚ py_range (Z.of_nat n) ∧ length p = n ∧ NoDup p ∧
  ∀ i, i ∈ p ↔ 0 ≤ i < Z.of_nat n.






(** A run of the main page in which one button was pressed, with the two
    documents in the upload widgets and [name] in the text input. *)
Definition press_generate (q a : UploadedFile) (name : string)
  : main_page.Widgets :=
  {| main_page.uploaded_question_file := Some q;
     main_page.uploaded_answer_file := Some a;
     main_page.set_name := name;
     main_page.generate_button_pressed := true;
     main_page.load_button_pressed := false;
     main_page.clear_button_pressed := false |}.

Definition press_clear (q a : option UploadedFile) (name : string)
  : main_page.Widgets :=
  {| main_page.uploaded_question_file := q;
     main_page.uploaded_answer_file := a;
     main_page.set_name := name;
     main_page.generate_button_pressed := false;
     main_page.load_button_pressed := false;
     main_page.clear_button_pressed := true |}.

(** The text [extract_text_from_pdf] returns for a readable document. *)
Definition document_text (texts : list string) : string :=
  fold_left (λ text page, text +:+ page) texts "".

(** What [extract_text_from_pdf] returns for an uploaded file. *)
Definition extracted (f : UploadedFile) : option string :=
  match f with
  | Pages texts => Some (document_text texts)
  | Unreadable _ => None
  end.

(** [w'] differs from [w] at most in the session state and in the messages
    shown. *)
Definition same_outside (w w' : World) : Prop :=
  disk w' = disk w ∧ rng w' = rng w ∧ requests w' = requests w ∧
  secrets w' = secrets w ∧ gemini w' = gemini w.

(** The world after [if k not in st.session_state: st.session_state[k] = o]. *)
Definition default_world (k : string) (o : PyObj) (w : World) : World :=
  if bool_decide (is_Some (session_state w !! k)) then w
  else set_session_state (insert k o) w.

(** ** Worlds and inputs used as examples *)

Definition example_card : value :=
  PyDict [("type", PyStr "definition");
          ("front", PyStr "What is osmosis?");
          ("back", PyStr "The movement of water across a membrane.")].

Definition example_steps : value :=
  PyDict [("type", PyStr "why_how");
          ("front", PyStr "Why do cells need water?");
          ("back", PyList [PyStr "It dissolves salts."; PyStr "It carries heat."])].

Definition example_sets : list (string * value) :=
  [("Biology", PyList [example_card; example_steps])].

(** A session in the middle of a review, with one set in its mapping, an
    empty disk, and a Gemini that answers every request with [reply]. *)
Definition example_world (reply : GeminiReply) : World :=
  {| session_state :=
       <["flashcard_sets" := Json (PyDict example_sets)]>
         (<["current_card_index" := Json (PyInt 2)]>
            (<["chat_history" :=
                 Json (PyList [PyDict [("role", PyStr "user");
                                       ("content", PyStr "Why?")]])]> ∅));
     disk := ∅;
     rng := λ i, (7 * i + 3)%nat;
     shown := [];
     requests := [];
     secrets := inr "secret";
     gemini := λ _ _, reply |}.

Definition example_questions : UploadedFile :=
  Pages ["Q1. What is osmosis? "; "Q2. Why do cells need water?"].

Definition example_answers : UploadedFile :=
  Pages ["A1. The movement of water across a membrane."].

(** The response of a Gemini that answers with one card, as the library
    writes it. *)
Definition example_response : string :=
  RefJson.dumps (PyList [example_card]).

(** ** Notions for the further properties of the main page *)

(** A run of the main page in which the Load button was pressed. *)
Definition press_load (q a : option UploadedFile) (name : string)
  : main_page.Widgets :=
  {| main_page.uploaded_question_file := q;
     main_page.uploaded_answer_file := a;
     main_page.set_name := name;
     main_page.generate_button_pressed := false;
     main_page.load_button_pressed := true;
     main_page.clear_button_pressed := false |}.

(** A run of the main page in which no button was pressed. *)
Definition press_nothing (q a : option UploadedFile) (name : string)
  : main_page.Widgets :=
  {| main_page.uploaded_question_file := q;
     main_page.uploaded_answer_file := a;
     main_page.set_name := name;
     main_page.generate_button_pressed := false;
     main_page.load_button_pressed := false;
     main_page.clear_button_pressed := false |}.

(** The world in which [generate_pressed] calls Gemini, when both
    documents gave text: the two texts are in the session and three
    messages were shown. *)
Definition texts_extracted (question_text answer_text : string) (w : World)
  : World :=
  add_shown (StSuccess "Scheme Answer text extracted.")
    (set_session_state (insert "answer_text" (Json (PyStr answer_text)))
       (add_shown (StSuccess "Question Paper text extracted.")
          (set_session_state (insert "question_text" (Json (PyStr question_text)))
             (add_shown (StInfo "Processing your PDFs...") w)))).

(** What [generate_flashcards_gemini] returns for a reply of Gemini. *)
Definition generated `{!JsonLib} (reply : GeminiReply) : value :=
  match reply with
  | ReplyFails _ => PyList []
  | ReplyText json_string =>
      match json_loads json_string with
      | inr cards => cards
      | inl _ => PyList []
      end
  end.

(** The part of [generate_pressed] that follows the call of Gemini: from
    [if cards:] to the message that reports on the set. *)
Definition store_and_report `{!JsonLib} (set_name : string) (cards : value)
  : Script unit :=
  (if truthy cards return Script unit then
     sets ← session_get_value "flashcard_sets";
     sets' ← lift_exn (py_setitem sets set_name cards);
     session_set "flashcard_sets" (Json sets');;
     sets ← session_get_value "flashcard_sets";
     main_page.save_flashcard_sets sets
   else
     st_warning "No flashcards generated from the provided content. Try different PDFs or adjust the prompt.");;
  sets ← session_get_value "flashcard_sets";
  present ← lift_type_error (py_contains set_name sets);
  stored ← (if (present : bool) then
              x ← lift_exn (py_getitem sets set_name);
              mret (truthy x)
            else mret false);
  if (stored : bool) return Script unit then
    x ← lift_exn (py_getitem sets set_name);
    n ← lift_type_error (py_len x);
    st_success ("Successfully generated " +:+ pretty (n : nat)
                +:+ " flashcards for set '" +:+ set_name +:+ "'!");;
    st_info "Navigate to the **'Flashcard viewer'** page in the sidebar to review your new flashcards."
  else
    st_warning "No flashcards could be generated. Check PDF content or errors above.".

(** The messages [generate_pressed] reports the outcome with. *)
Definition no_cards_warning : UiEvent :=
  StWarning "No flashcards generated from the provided content. Try different PDFs or adjust the prompt.".

Definition nothing_generated_warning : UiEvent :=
  StWarning "No flashcards could be generated. Check PDF content or errors above.".

Definition generated_success (n : nat) (set_name : string) : UiEvent :=
  StSuccess ("Successfully generated " +:+ pretty n
             +:+ " flashcards for set '" +:+ set_name +:+ "'!").

Definition go_to_viewer_info : UiEvent :=
  StInfo "Navigate to the **'Flashcard viewer'** page in the sidebar to review your new flashcards.".


(** ** What a script leaves alone *)

(** [m] never changes what [f] reads of the world, however it ends. *)
Definition keeps {A B} (f : World → B) (m : Script A) : Prop :=
  ∀ w, f (after m w) = f w.

(** One slot of the session. *)
Definition slot (k : string) (w : World) : option PyObj := session_state w !! k.

(** The slots the main page writes to, and those the controls of the
    review view write to. *)
Definition main_page_slots : list string :=
  ["flashcard_sets"; "question_text"; "answer_text";
   "uploaded_question_pdf"; "uploaded_answer_pdf"; "last_set_name"].

Definition review_slots : list string :=
  ["current_card_index"; "show_answer"; "chat_history"; "shuffled_cards"].

(** ** More worlds used as examples *)

(** The example world with [text] in the flashcards file. *)
Definition example_world_with_file (text : string) : World :=
  set_disk (insert main_page.FLASHCARDS_FILE text)
           (example_world (ReplyFails "no network")).

(** The example world without an API key in the secrets. *)
Definition example_world_without_key : World :=
  {| session_state := session_state (example_world (ReplyFails "no network"));
     disk := ∅;
     rng := λ i, i;
     shown := [];
     requests := [];
     secrets := inl "'gemini'";
     gemini := λ _ _, ReplyFails "no network" |}.

(** A stand-in for the hash of the dumped set. *)
Definition example_hash (v : value) : Z :=
  Z.of_nat (String.length (RefJson.dumps v)).

(** ** flashcard_viewer.py: the page and its views *)

(** *** More of Python *)

(** [x == s] for a string [s]. *)
Definition eq_str (x : value) (s : string) : bool :=
  match x with
  | PyStr t => bool_decide (t = s)
  | _ => false
  end.

(** Exceptions of the viewer page that no handler catches: those of the
    scripts, an attribute an object does not have, and a dictionary asked
    for a key that is no string (the keys of a JSON object are strings, so
    such a key is never found). *)
Inductive PageExn : Type :=
  | Uncaught (e : Exn)
  | AttributeError (type attribute : string)
  | KeyErrorAt (key : value).

(** [v.get(k, fallback)] for a string [k]: a method of dictionaries only. *)
Definition py_get (v : value) (k : string) (fallback : value)
  : PageExn + value :=
  match v with
  | PyDict d => inr (default fallback (dict_get k d))
  | _ => inl (AttributeError (type_name v) "get")
  end.

(** [v.get(key, fallback)] for a key that is any object: a list or a
    dictionary cannot be hashed. *)
Definition py_get_key (v key fallback : value) : PageExn + value :=
  match v with
  | PyDict d =>
      match key with
      | PyStr k => inr (default fallback (dict_get k d))
      | PyList _ | PyDict _ => inl (Uncaught TypeError)
      | _ => inr fallback
      end
  | _ => inl (AttributeError (type_name v) "get")
  end.

(** [l[i]] for a list and an integer: a negative index counts from the
    end. *)
Definition list_index {A} (l : list A) (i : Z) : option A :=
  if bool_decide (0 ≤ i) then l !! Z.to_nat i
  else if bool_decide (- Z.of_nat (length l) ≤ i)
       then l !! Z.to_nat (Z.of_nat (length l) + i)
       else None.

(** [v[i]] for any two objects. *)
Definition py_index (v i : value) : PageExn + value :=
  match v with
  | PyList l =>
      match as_int (Json i) with
      | Some z =>
          match list_index l z with
          | Some x => inr x
          | None => inl (Uncaught IndexError)
          end
      | None => inl (Uncaught TypeError)
      end
  | PyStr s =>
      match as_int (Json i) with
      | Some z =>
          match list_index (String.list_ascii_of_string s) z with
          | Some c => inr (PyStr (String c EmptyString))
          | None => inl (Uncaught IndexError)
          end
      | None => inl (Uncaught TypeError)
      end
  | PyDict d =>
      match i with
      | PyStr k =>
          match dict_get k d with
          | Some x => inr x
          | None => inl (Uncaught (KeyError k))
          end
      | PyList _ | PyDict _ => inl (Uncaught TypeError)
      | _ => inl (KeyErrorAt i)
      end
  | _ => inl (Uncaught TypeError)
  end.

(** The objects [for x in v] goes through. *)
Definition py_iter (v : value) : PageExn + list value :=
  match v with
  | PyList l => inr l
  | PyStr s =>
      inr ((λ c, PyStr (String c EmptyString))
             <$> String.list_ascii_of_string s)
  | PyDict d => inr (PyStr <$> dict_keys d)
  | _ => inl (Uncaught TypeError)
  end.

(** [str(v)], as an f-string writes a value.  The text of a string inside
    a list or a dictionary is its [repr], with quotes and escapes that
    depend on the characters: a parameter. *)
Section text.
Variable str_repr : string → string.

Fixpoint py_repr (v : value) : string :=
  match v with
  | PyNone => "None"
  | PyBool b => if b then "True" else "False"
  | PyInt z => pretty z
  | PyStr s => str_repr s
  | PyList l => "[" +:+ String.concat ", " (map py_repr l) +:+ "]"
  | PyDict d =>
      "{" +:+ String.concat ", "
                (map (λ kv, str_repr kv.1 +:+ ": " +:+ py_repr kv.2) d)
      +:+ "}"
  end.

Definition py_str (v : value) : string :=
  match v with
  | PyStr s => s
  | _ => py_repr v
  end.
End text.

(** *** The page and its runs *)

(** The calls of the viewer page and of the sidebar that put text on the
    page, each with its argument, in the order they are made; the messages
    ([st.info] and the like) go to [shown] as before. *)
Inductive Drawn : Type :=
  | StTitle (text : string)
  | StHeader (text : string)
  | StSubheader (text : string)
  | StWrite (text : string)
  | StMarkdown (body : value)
  | StExpander (label : string)
  | StChatMessage (name : string).

(** Where a run of the viewer page happens: the world of the scripts, what
    was drawn so far, and the slot [gemini] of the session state, which is
    kept apart since what it holds is no JSON value but the model object
    ([None]: the slot is not set; [Some name]: it holds
    [GenerativeModel(name)]). *)
Record Browser : Type := {
  world : World;
  gemini_model : option string;
  drawn : list Drawn
}.

Definition set_world (w : World) (b : Browser) : Browser :=
  {| world := w; gemini_model := gemini_model b; drawn := drawn b |}.

Definition set_gemini_model (m : option string) (b : Browser) : Browser :=
  {| world := world b; gemini_model := m; drawn := drawn b |}.

Definition add_drawn (d : Drawn) (b : Browser) : Browser :=
  {| world := world b; gemini_model := gemini_model b;
     drawn := drawn b ++ [d] |}.

(** A run of the page ends normally, at [st.rerun()], at [st.stop()], or
    with an exception no handler caught.  [Unmodelled] stands for a run
    that leaves what is modelled here: it reads an uploaded file from a
    slot that the viewer uses as data (neither page ever writes one
    there), or it gives [st.chat_message] a role that is no string (what
    Streamlit does with it is not in the source). *)
Inductive PageOutcome (A : Type) : Type :=
  | Returned (a : A)
  | Reran
  | Stopped
  | Failed (e : PageExn)
  | Unmodelled.
Arguments Returned {A} a.
Arguments Reran {A}.
Arguments Stopped {A}.
Arguments Failed {A} e.
Arguments Unmodelled {A}.

Record Page (A : Type) : Type :=
  MkPage { run_page : Browser → PageOutcome A * Browser }.
Arguments MkPage {A} run_page.
Arguments run_page {A} p b.

Global Instance page_ret : MRet Page := λ A a, MkPage (λ b, (Returned a, b)).

Global Instance page_bind : MBind Page := λ A B f m,
  MkPage (λ b,
    match run_page m b with
    | (Returned a, b') => run_page (f a) b'
    | (Reran, b') => (Reran, b')
    | (Stopped, b') => (Stopped, b')
    | (Failed e, b') => (Failed e, b')
    | (Unmodelled, b') => (Unmodelled, b')
    end).

(** A script run as part of the page. *)
Definition lift {A} (m : Script A) : Page A :=
  MkPage (λ b,
    match run m (world b) with
    | (Done a, w) => (Returned a, set_world w b)
    | (Rerun, w) => (Reran, set_world w b)
    | (Raised e, w) => (Failed (Uncaught e), set_world w b)
    end).

Definition fail {A} (e : PageExn) : Page A := MkPage (λ b, (Failed e, b)).
Definition st_stop {A} : Page A := MkPage (λ b, (Stopped, b)).
Definition unmodelled {A} : Page A := MkPage (λ b, (Unmodelled, b)).

Definition draw (d : Drawn) : Page unit :=
  MkPage (λ b, (Returned (), add_drawn d b)).

Definition lift_page {A} (r : PageExn + A) : Page A :=
  match r with
  | inr a => mret a
  | inl e => fail e
  end.

(** [st.session_state[k]] for a slot of the viewer, whose object the page
    goes on to use as data. *)
Definition page_get (k : string) : Page value :=
  o ← lift (session_get k);
  match o with
  | Json v => mret v
  | Upload _ => unmodelled
  end.

(** The slot [gemini]: [st.session_state["gemini"]], with [None] for the
    [KeyError], and the assignment to it. *)
Definition get_gemini_model : Page (option string) :=
  MkPage (λ b, (Returned (gemini_model b), b)).

Definition put_gemini_model (name : string) : Page unit :=
  MkPage (λ b, (Returned (), set_gemini_model (Some name) b)).

(** [if c: body] and [for x in l: body] on the page. *)
Definition page_when (c : bool) (body : Page unit) : Page unit :=
  if c then body else mret ().

Fixpoint for_each {A} (l : list A) (body : A → Page unit) : Page unit :=
  match l with
  | [] => mret ()
  | x :: l' => body x;; for_each l' body
  end.

(** The widgets of the viewer page, each with the value it returns in this
    run: the Open Set button of every set (by the name in its key), the
    button back to the sets, the four controls, and the chat input
    ([None] when nothing was sent). *)
Record ViewerWidgets : Type := {
  open_set : string → bool;
  back_to_all_sets : bool;
  controls : flashcard_viewer.NavButtons;
  chat_input : option string
}.

Module viewer_page.

Section views.
Context `{!JsonLib}.

(** [hash(json.dumps(v, sort_keys=True))] and the [repr] of a string. *)
Variable content_hash : value → Z.
Variable str_repr : string → string.

Definition configure_gemini : Page string :=
  key ← lift main_page.read_api_key;
  match key with
  | inr _ => mret "gemini-2.0-flash"
  | inl e =>
      lift (st_error ("Gemini API configuration failed. Check .streamlit/secrets.toml. Error: "
                      +:+ e));;
      st_stop
  end.

(** The second loop of [render_ai_chat]: the conversation so far as text. *)
Fixpoint conversation (messages : list value) (history : string)
  : Page string :=
  match messages with
  | [] => mret history
  | msg :: rest =>
      role ← lift (lift_exn (py_getitem msg "role"));
      let speaker := if eq_str role "user" then "User" else "Assistant" in
      content ← lift (lift_exn (py_getitem msg "content"));
      conversation rest
        (history +:+ speaker +:+ ": " +:+ py_str str_repr content +:+ nl)
  end.

(** The list in [chat_history] is changed in place by [append]: it is
    looked up once, and the later look-ups of the source find the same
    list with the messages appended so far.  In the [try] block, only the
    look-up of the model and the request can raise. *)
Definition render_ai_chat (ui : ViewerWidgets) (current_card back_content : value)
  : Page unit :=
  draw (StMarkdown (PyStr "---"));;
  draw (StExpander "💬 Ask AI about this Flashcard");;
  lift (st_info "Ask AI for more detail about this question/answer.");;
  chat_history ← page_get "chat_history";
  messages ← lift_page (py_iter chat_history);
  for_each messages (λ message,
    role ← lift (lift_exn (py_getitem message "role"));
    match role with
    | PyStr name =>
        draw (StChatMessage name);;
        content ← lift (lift_exn (py_getitem message "content"));
        draw (StMarkdown content)
    | _ => unmodelled
    end);;
  page_get "current_flashcard_context";;
  match chat_input ui with
  | Some prompt =>
      page_when (truthy (PyStr prompt)) (
        match chat_history with
        | PyList l =>
            let with_question :=
              l ++ [PyDict [("role", PyStr "user"); ("content", PyStr prompt)]] in
            lift (session_set "chat_history" (PyList with_question));;
            draw (StChatMessage "user");;
            draw (StMarkdown (PyStr prompt));;
            history ← conversation with_question "";
            front ← lift_page (py_get current_card "front" (PyStr "N/A"));
            let history :=
              history +:+ "Flashcard Question: " +:+ py_str str_repr front +:+ nl
                      +:+ "Flashcard Answer: " +:+ py_str str_repr back_content
                      +:+ nl in
            model ← get_gemini_model;
            reply ← match model with
                    | Some _ =>
                        lift (generate_content
                                (history +:+ "Now, answer the user's most recent question concisely (max 3 sentences)."))
                    | None => mret (ReplyFails "'gemini'")
                    end;
            match reply with
            | ReplyText response =>
                lift (session_set "chat_history"
                        (PyList (with_question ++
                                 [PyDict [("role", PyStr "assistant");
                                          ("content", PyStr response)]])));;
                draw (StChatMessage "assistant");;
                draw (StMarkdown (PyStr response))
            | ReplyFails e =>
                let error_msg :=
                  "Sorry, AI request failed: " +:+ e
                  +:+ ". Please check your API key or try again later." in
                lift (session_set "chat_history"
                        (PyList (with_question ++
                                 [PyDict [("role", PyStr "assistant");
                                          ("content", PyStr error_msg)]])));;
                draw (StChatMessage "assistant");;
                draw (StMarkdown (PyStr error_msg))
            end;;
            lift st_rerun
        | _ => fail (AttributeError (type_name chat_history) "append")
        end)
  | None => mret ()
  end.

Definition render_flashcard (ui : ViewerWidgets)
    (current_card : value) (total_cards : nat) (current_index_display : value)
  : Page unit :=
  i ← lift (lift_type_error (as_int (Json current_index_display)));
  draw (StSubheader ("Flashcard " +:+ pretty (i + 1) +:+ " / "
                     +:+ pretty total_cards));;
  type ← lift_page (py_get current_card "type" (PyStr "N/A"));
  draw (StMarkdown (PyStr ("**Type:** `" +:+ py_str str_repr type +:+ "`")));;
  draw (StMarkdown (PyStr "---"));;
  draw (StMarkdown (PyStr "<h3 style='text-align: center; color: #306998;'>❓ Question:</h3>"));;
  front ← lift_page (py_get current_card "front" (PyStr "N/A"));
  draw (StMarkdown (PyStr ("<p style='text-align: center; font-size: 1.2em; font-weight: bold;'>"
                           +:+ py_str str_repr front +:+ "</p>")));;
  show_answer ← page_get "show_answer";
  page_when (truthy show_answer) (
    draw (StMarkdown (PyStr "---"));;
    draw (StMarkdown (PyStr "<h3 style='text-align: center; color: #4CAF50;'>✅ Answer:</h3>"));;
    back ← lift_page (py_get current_card "back" (PyStr "N/A"));
    match back with
    | PyList items =>
        for_each items (λ item,
          draw (StMarkdown (PyStr ("<p style='text-align: center; font-size: 1.1em;'>- "
                                   +:+ py_str str_repr item +:+ "</p>"))))
    | _ =>
        draw (StMarkdown (PyStr ("<p style='text-align: center; font-size: 1.1em;'>"
                                 +:+ py_str str_repr back +:+ "</p>")))
    end;;
    render_ai_chat ui current_card back).

Definition display_dashboard_view (ui : ViewerWidgets) (all_flashcard_sets : value)
  : Page unit :=
  draw (StWrite "Select a flashcard set to start reviewing:");;
  if negb (truthy all_flashcard_sets) then
    lift (st_info "No flashcard sets found. Please generate some from the 'Main page'.")
  else
    match all_flashcard_sets with
    | PyDict d =>
        let cols_per_row := 3%nat in
        let set_names := dict_keys d in
        let num_sets := length set_names in
        let num_rows := ((num_sets + cols_per_row - 1) / cols_per_row)%nat in
        for_each (seq 0 num_rows) (λ i,
          for_each (seq 0 cols_per_row) (λ j,
            let set_index := (i * cols_per_row + j)%nat in
            page_when (bool_decide (set_index < num_sets)%nat) (
              set_name ← lift (match set_names !! set_index with
                               | Some name => mret name
                               | None => raise IndexError
                               end);
              cards_in_set ← lift (lift_exn (py_getitem all_flashcard_sets set_name));
              num_cards ← lift (lift_type_error (py_len cards_in_set));
              draw (StSubheader ("🗂️ " +:+ set_name));;
              draw (StMarkdown (PyStr ("**Cards:** " +:+ pretty num_cards)));;
              draw (StMarkdown (PyStr "---"));;
              draw (StMarkdown (PyStr "Ready to review!"));;
              page_when (open_set ui set_name) (
                lift (session_set "selected_set_name" (PyStr set_name));;
                lift (session_set "viewer_current_view" (PyStr "flashcard_review"));;
                lift st_rerun))))
    | _ => fail (AttributeError (type_name all_flashcard_sets) "keys")
    end.

Definition display_flashcard_review_view (ui : ViewerWidgets)
    (all_flashcard_sets : value) : Page unit :=
  selected_set_name ← page_get "selected_set_name";
  page_when (back_to_all_sets ui) (
    lift (session_set "viewer_current_view" (PyStr "dashboard"));;
    lift (session_set "selected_set_name" PyNone);;
    lift (session_set "flashcards_current_set" (PyList []));;
    lift (session_set "current_set_hash" PyNone);;
    lift st_rerun);;
  draw (StHeader ("Set: " +:+ py_str str_repr selected_set_name));;
  draw (StWrite "Review your flashcards below.");;
  selected_flashcards ←
    lift_page (py_get_key all_flashcard_sets selected_set_name (PyList []));
  if negb (truthy selected_flashcards) then
    lift (st_warning ("The selected set '" +:+ py_str str_repr selected_set_name
                      +:+ "' is empty or not found. Please go back and select another set or generate new flashcards."))
  else
    lift (flashcard_viewer.initialize_flashcard_viewer_state
            content_hash selected_flashcards);;
    flashcards_for_display ← page_get "flashcards_current_set";
    total_cards ← lift (lift_type_error (py_len flashcards_for_display));
    known ← lift (session_has "shuffled_cards");
    stale ← (if (known : bool) then
               shuffled_cards ← page_get "shuffled_cards";
               n ← lift (lift_type_error (py_len shuffled_cards));
               mret (negb (bool_decide (n = total_cards)))
             else mret true);
    page_when stale (
      p ← lift (random_sample (py_range (Z.of_nat total_cards))
                              (Z.of_nat total_cards));
      lift (session_set "shuffled_cards" (PyList (PyInt <$> p)));;
      lift (session_set "current_card_index" (PyInt 0)));;
    current_index_in_shuffled ← page_get "current_card_index";
    shuffled_cards ← page_get "shuffled_cards";
    actual_card_index ← lift_page (py_index shuffled_cards current_index_in_shuffled);
    current_card ← lift_page (py_index flashcards_for_display actual_card_index);
    front ← lift_page (py_get current_card "front" (PyStr ""));
    back ← lift_page (py_get current_card "back" (PyStr ""));
    let context_key :=
      py_str str_repr selected_set_name +:+ "_" +:+ py_str str_repr front
      +:+ "_" +:+ py_str str_repr back in
    context ← page_get "current_flashcard_context";
    page_when (negb (eq_str context context_key)) (
      lift (session_set "current_flashcard_context" (PyStr context_key));;
      lift (session_set "chat_history" (PyList []));;
      lift (session_set "show_answer" (PyBool false)));;
    draw (StMarkdown (PyStr "---"));;
    render_flashcard ui current_card total_cards current_index_in_shuffled;;
    draw (StMarkdown (PyStr "---"));;
    lift (flashcard_viewer.navigation_controls (Z.of_nat total_cards) (controls ui)).

Definition flashcard_viewer_page (ui : ViewerWidgets) : Page unit :=
  draw (StTitle "✨ Interactive Flashcard Viewer");;
  model ← get_gemini_model;
  match model with
  | Some _ => mret ()
  | None => name ← configure_gemini; put_gemini_model name
  end;;
  lift (main_page.session_default "viewer_current_view"
          (mret (Json (PyStr "dashboard"))));;
  lift (main_page.session_default "selected_set_name" (mret (Json PyNone)));;
  all_flashcard_sets ← lift flashcard_viewer.load_flashcard_sets;
  view ← page_get "viewer_current_view";
  (if eq_str view "dashboard" then display_dashboard_view ui all_flashcard_sets
   else if eq_str view "flashcard_review"
        then display_flashcard_review_view ui all_flashcard_sets
        else mret ());;
  draw (StMarkdown (PyStr "---")).

End views.

End viewer_page.

(** ** app.py *)

Module app.

Section script.
Context `{!JsonLib}.
Variable instruction_prefix : string.
Variable content_hash : value → Z.
Variable str_repr : string → string.

(** The script Streamlit runs: the sidebar with its menu, whose choice is
    [selected], then the chosen page, then the foot of the sidebar. *)
Definition script (selected : string) (main_ui : main_page.Widgets)
    (viewer_ui : ViewerWidgets) : Page unit :=
  draw (StMarkdown (PyStr "### Flashcard App"));;
  (if bool_decide (selected = "Main page") then
     lift (main_page.main instruction_prefix main_ui)
   else if bool_decide (selected = "Flashcard viewer") then
     viewer_page.flashcard_viewer_page content_hash str_repr viewer_ui
   else mret ());;
  draw (StMarkdown (PyStr "---"));;
  lift (st_info "Built with Streamlit and Google Gemini").
End script.

End app.

(** ** Notions the properties of the viewer page are stated with *)

(** The browser a page leaves behind. *)
Definition page_after {A} (p : Page A) (b : Browser) : Browser :=
  (run_page p b).2.

(** What the dashboard does for one set: its name and the number of its
    cards, then its Open Set button. *)
Definition dashboard_card (ui : ViewerWidgets) (all_flashcard_sets : value)
    (set_name : string) : Page unit :=
  cards_in_set ← lift (lift_exn (py_getitem all_flashcard_sets set_name));
  num_cards ← lift (lift_type_error (py_len cards_in_set));
  draw (StSubheader ("🗂️ " +:+ set_name));;
  draw (StMarkdown (PyStr ("**Cards:** " +:+ pretty num_cards)));;
  draw (StMarkdown (PyStr "---"));;
  draw (StMarkdown (PyStr "Ready to review!"));;
  page_when (open_set ui set_name) (
    lift (session_set "selected_set_name" (PyStr set_name));;
    lift (session_set "viewer_current_view" (PyStr "flashcard_review"));;
    lift st_rerun).

(** What the dashboard draws for a set of [n] cards. *)
Definition card_of_set (set_name : string) (n : nat) : list Drawn :=
  [StSubheader ("🗂️ " +:+ set_name);
   StMarkdown (PyStr ("**Cards:** " +:+ pretty n));
   StMarkdown (PyStr "---");
   StMarkdown (PyStr "Ready to review!")].

(** The length of a set, [0] for an object without length. *)
Definition set_size (cards : value) : nat := default 0%nat (py_len cards).

(** No control of the review was pressed, and no widget of the viewer
    page at all. *)
Definition press_no_control : flashcard_viewer.NavButtons :=
  {| flashcard_viewer.previous_card := false;
     flashcard_viewer.shuffle_cards := false;
     flashcard_viewer.show_answer := false;
     flashcard_viewer.next_card := false |}.

Definition nothing_pressed : ViewerWidgets :=
  {| open_set := λ _, false;
     back_to_all_sets := false;
     controls := press_no_control;
     chat_input := None |}.

(** The browser with more drawn on the page. *)
Definition draw_all (ds : list Drawn) (b : Browser) : Browser :=
  {| world := world b; gemini_model := gemini_model b;
     drawn := drawn b ++ ds |}.

(** The session of a review that is under way: the set [name] with its
    [cards] was opened, the cards are kept with their hash, [order] is the
    shuffle order and [c] the cursor. *)
Definition reviewing (content_hash : value → Z) (name : string)
    (cards : list value) (order : list Z) (c : Z) (w : World) : Prop :=
  session_state w !! "selected_set_name" = Some (Json (PyStr name)) ∧
  session_state w !! "current_set_hash"
    = Some (Json (PyInt (content_hash (PyList cards)))) ∧
  session_state w !! "flashcards_current_set" = Some (Json (PyList cards)) ∧
  session_state w !! "shuffled_cards" = Some (Json (PyList (PyInt <$> order))) ∧
  length order = length cards ∧
  session_state w !! "current_card_index" = Some (Json (PyInt c)).

(** The key of the chat context of a card of a set. *)
Definition context_key (str_repr : string → string) (name : string)
    (card : value) : string :=
  match card with
  | PyDict fields =>
      name +:+ "_" +:+ py_str str_repr (default (PyStr "") (dict_get "front" fields))
      +:+ "_" +:+ py_str str_repr (default (PyStr "") (dict_get "back" fields))
  | _ => ""
  end.

(** The part of [display_flashcard_review_view] that follows the choice of
    the current card: the chat context, the card, the controls. *)
Definition review_card (str_repr : string → string) (ui : ViewerWidgets)
    (selected_set_name current_card : value) (total_cards : nat)
    (current_index_in_shuffled : value) : Page unit :=
  front ← lift_page (py_get current_card "front" (PyStr ""));
  back ← lift_page (py_get current_card "back" (PyStr ""));
  let context_key :=
    py_str str_repr selected_set_name +:+ "_" +:+ py_str str_repr front
    +:+ "_" +:+ py_str str_repr back in
  context ← page_get "current_flashcard_context";
  page_when (negb (eq_str context context_key)) (
    lift (session_set "current_flashcard_context" (PyStr context_key));;
    lift (session_set "chat_history" (PyList []));;
    lift (session_set "show_answer" (PyBool false)));;
  draw (StMarkdown (PyStr "---"));;
  viewer_page.render_flashcard str_repr ui current_card total_cards
    current_index_in_shuffled;;
  draw (StMarkdown (PyStr "---"));;
  lift (flashcard_viewer.navigation_controls (Z.of_nat total_cards) (controls ui)).

(** What [render_flashcard] draws of a card before the answer, and what it
    draws of the answer. *)
Definition question_drawn (str_repr : string → string)
    (fields : list (string * value)) (c : Z) (total_cards : nat) : list Drawn :=
  [StSubheader ("Flashcard " +:+ pretty (c + 1) +:+ " / " +:+ pretty total_cards);
   StMarkdown (PyStr ("**Type:** `"
                      +:+ py_str str_repr (default (PyStr "N/A") (dict_get "type" fields))
                      +:+ "`"));
   StMarkdown (PyStr "---");
   StMarkdown (PyStr "<h3 style='text-align: center; color: #306998;'>❓ Question:</h3>");
   StMarkdown (PyStr ("<p style='text-align: center; font-size: 1.2em; font-weight: bold;'>"
                      +:+ py_str str_repr (default (PyStr "N/A") (dict_get "front" fields))
                      +:+ "</p>"))].

Definition answer_drawn (str_repr : string → string)
    (fields : list (string * value)) : list Drawn :=
  [StMarkdown (PyStr "---");
   StMarkdown (PyStr "<h3 style='text-align: center; color: #4CAF50;'>✅ Answer:</h3>")]
  ++ match default (PyStr "N/A") (dict_get "back" fields) with
     | PyList items =>
         (λ item, StMarkdown (PyStr ("<p style='text-align: center; font-size: 1.1em;'>- "
                                     +:+ py_str str_repr item +:+ "</p>")))
           <$> items
     | back =>
         [StMarkdown (PyStr ("<p style='text-align: center; font-size: 1.1em;'>"
                             +:+ py_str str_repr back +:+ "</p>"))]
     end.

(** A turn of the conversation, and what the chat draws of a transcript of
    such turns. *)
Definition turn (role : string) (content : value) : value :=
  PyDict [("role", PyStr role); ("content", content)].

Definition transcript_drawn (turns : list (string * value)) : list Drawn :=
  concat ((λ t, [StChatMessage t.1; StMarkdown t.2]) <$> turns).

Definition chat_drawn (turns : list (string * value)) : list Drawn :=
  [StMarkdown (PyStr "---"); StExpander "💬 Ask AI about this Flashcard"]
  ++ transcript_drawn turns.

(** The transcript as [render_ai_chat] writes it into its request. *)
Definition transcript_text (str_repr : string → string)
    (turns : list (string * value)) : string :=
  fold_left (λ history t,
               history +:+ (if bool_decide (t.1 = "user") then "User" else "Assistant")
               +:+ ": " +:+ py_str str_repr t.2 +:+ nl)
            turns "".

(** The request [render_ai_chat] sends for a question: the transcript with
    the question, the two sides of the card, the instruction. *)
Definition chat_request (str_repr : string → string)
    (turns : list (string * value)) (prompt : string)
    (fields : list (string * value)) (back_content : value) : string :=
  (transcript_text str_repr (turns ++ [("user", PyStr prompt)])
   +:+ "Flashcard Question: "
   +:+ py_str str_repr (default (PyStr "N/A") (dict_get "front" fields)) +:+ nl
   +:+ "Flashcard Answer: " +:+ py_str str_repr back_content +:+ nl)
  +:+ "Now, answer the user's most recent question concisely (max 3 sentences).".

(** What the chat makes of a reply: the response, or the text that stands
    for the failure. *)
Definition chat_answer (reply : GeminiReply) : string :=
  match reply with
  | ReplyText response => response
  | ReplyFails e =>
      "Sorry, AI request failed: " +:+ e
      +:+ ". Please check your API key or try again later."
  end.

(** [p] never changes what [f] reads of the world, however it ends. *)
Definition page_keeps {A B} (f : World → B) (p : Page A) : Prop :=
  ∀ b, f (world (page_after p b)) = f (world b).

(** What the viewer page reads but never writes: the file, and the slots
    of the main page. *)
Definition saved_sets (w : World) :=
  (disk w, slot "flashcard_sets" w, slot "question_text" w,
   slot "answer_text" w, slot "uploaded_question_pdf" w,
   slot "uploaded_answer_pdf" w, slot "last_set_name" w).

(** ** Browsers used as examples *)

(** A stand-in for [repr] on strings: the text between quotes. *)
Definition example_repr (s : string) : string := "'" +:+ s +:+ "'".

(** A browser with a model in its slot and nothing drawn. *)
Definition browser_of (w : World) : Browser :=
  {| world := w; gemini_model := Some "gemini-2.0-flash"; drawn := [] |}.

(** The two sets of the examples. *)
Definition example_two_sets : list (string * value) :=
  [("Physics", PyList [example_card]);
   ("Biology", PyList [example_card; example_steps])].

(** The world of a review of the set [Biology] with [cards] in it, in the
    shuffle order [order], with the cursor on [c]; Gemini answers every
    request with [reply]. *)
Definition example_review (cards : list value) (order : list Z) (c : Z)
    (context show_answer chat_history : value) (reply : GeminiReply) : World :=
  {| session_state :=
       <["viewer_current_view" := Json (PyStr "flashcard_review")]>
       (<["selected_set_name" := Json (PyStr "Biology")]>
       (<["current_set_hash" := Json (PyInt (example_hash (PyList cards)))]>
       (<["flashcards_current_set" := Json (PyList cards)]>
       (<["shuffled_cards" := Json (PyList (PyInt <$> order))]>
       (<["current_card_index" := Json (PyInt c)]>
       (<["current_flashcard_context" := Json context]>
       (<["show_answer" := Json show_answer]>
       (<["chat_history" := Json chat_history]> ∅))))))));
     disk := ∅;
     rng := λ i, (5 * i + 1)%nat;
     shown := [];
     requests := [];
     secrets := inr "secret";
     gemini := λ _ _, reply |}.

(** The fields of the second example card. *)
Definition example_steps_fields : list (string * value) :=
  [("type", PyStr "why_how");
   ("front", PyStr "Why do cells need water?");
   ("back", PyList [PyStr "It dissolves salts."; PyStr "It carries heat."])].

(** A review of the two cards of [Biology] that shows the second card
    first, with the answer hidden and a transcript of [turns]. *)
Definition example_steps_review (show_answer : bool)
    (turns : list (string * value)) (reply : GeminiReply) : World :=
  example_review [example_card; example_steps] [1; 0] 0
    (PyStr (context_key example_repr "Biology" example_steps))
    (PyBool show_answer) (PyList ((λ t, turn t.1 t.2) <$> turns)) reply.

(** Widgets of the viewer page with one thing done. *)
Definition press_open (set_name : string) : ViewerWidgets :=
  {| open_set := λ name, bool_decide (name = set_name);
     back_to_all_sets := false;
     controls := press_no_control;
     chat_input := None |}.

Definition press_control (control : flashcard_viewer.NavButtons) : ViewerWidgets :=
  {| open_set := λ _, false;
     back_to_all_sets := false;
     controls := control;
     chat_input := None |}.

Definition press_back : ViewerWidgets :=
  {| open_set := λ _, false;
     back_to_all_sets := true;
     controls := press_no_control;
     chat_input := None |}.

Definition send_chat (prompt : string) : ViewerWidgets :=
  {| open_set := λ _, false;
     back_to_all_sets := false;
     controls := press_no_control;
     chat_input := Some prompt |}.

(** The world [w] with the two example sets saved to the file. *)
Definition with_saved_sets (w : World) : World :=
  set_disk (insert flashcard_viewer.FLASHCARDS_FILE
              (RefJson.dumps (PyDict example_two_sets))) w.

(** * Properties *)

(** ** Running scripts *)

Lemma run_bind {A B} (m : Script A) (f : A → Script B) w :
  run (m ≫= f) w =
  match run m w with
  | (Done a, w') => run (f a) w'
  | (Rerun, w') => (Rerun, w')
  | (Raised e, w') => (Raised e, w')
  end.
Proof. reflexivity. Qed.

Lemma run_ret {A} (a : A) w : run (mret a) w = (Done a, w).
Proof. reflexivity. Qed.

(** Running a script one step further. *)
Ltac run_simpl :=
  repeat first
    [ rewrite run_bind
    | progress cbn [run mret script_ret raise st_rerun st_error st_warning
                    st_info st_success session_has session_get
                    session_set session_del session_get_value lift_exn
                    lift_type_error when os_path_exists os_remove
                    read_text write_text generate_content randbelow] ].

(** Reading the fields of a world that was changed. *)
Ltac world_simpl :=
  cbn [session_state disk rng shown requests secrets gemini
       add_shown add_request set_session_state set_disk set_rng fst snd];
  repeat first [ rewrite lookup_insert_eq
               | rewrite lookup_insert_ne by done ].

(** A run of [navigation_controls] with the buttons known. *)
Ltac unfold_controls :=
  unfold navigation_controls;
  cbn [press_next press_previous press_shuffle press_show_answer
       previous_card shuffle_cards show_answer next_card].


(** ** random.sample *)

(** One step of the loop: taking [pool[j]] out and moving the last live
    element of the pool into its place keeps the elements. *)
Lemma pool_step {A} (pool : list A) (m j : nat) (x y : A) :
  (j < m)%nat →
  pool !! j = Some x →
  pool !! (m - 1)%nat = Some y →
  x :: take (m - 1) (<[j := y]> pool) ≡ₚ take m pool.
Proof.
  intros Hj Hx Hy.
  assert (m - 1 < length pool)%nat as Hm by (by eapply lookup_lt_Some).
  replace m with (S (m - 1)) at 2 by lia.
  rewrite (take_S_r _ _ y) by done.
  destruct (decide (j = m - 1)%nat) as [->|Hne].
  - rewrite list_insert_id by done.
    assert (x = y) as -> by congruence.
    by rewrite Permutation_cons_append.
  - rewrite take_insert_lt by lia.
    assert (take (m - 1) pool !! j = Some x) as Hx'.
    { rewrite lookup_take_lt by lia. done. }
    apply list_elem_of_split_length in Hx' as (l1 & l2 & Heq & Hlen).
    rewrite Heq. subst j.
    rewrite insert_app_r_alt by lia.
    replace (length l1 - length l1)%nat with 0%nat by lia. simpl.
    rewrite <- !app_assoc. simpl.
    rewrite <- !Permutation_middle. by rewrite app_nil_r.
Qed.

(** The loop ends normally, changes nothing but the generator, and gives
    the elements drawn so far followed by [steps] more from the live part
    of the pool; what it leaves there is [rest]. *)
Lemma sample_pool_spec {A} (steps i n : nat) (pool result : list A) w :
  (i + steps ≤ n)%nat →
  (n ≤ length pool)%nat →
  ∃ res g rest,
    run (sample_pool steps i n pool result) w = (Done res, set_rng g w) ∧
    res ++ rest ≡ₚ result ++ take (n - i) pool ∧
    length rest = (n - i - steps)%nat.
Proof.
  revert i pool result w.
  induction steps as [|steps IH]; intros i pool result w Hi Hn.
  - exists result, (rng w), (take (n - i) pool). split_and!.
    + by destruct w.
    + done.
    + rewrite length_take. lia.
  - cbn [sample_pool]. rewrite run_bind. cbn [run randbelow].
    set (j := (rng w 0 `mod` (n - i))%nat).
    assert (j < n - i)%nat as Hj by (apply Nat.mod_upper_bound; lia).
    destruct (lookup_lt_is_Some_2 pool j) as [x Hx]; [lia|].
    destruct (lookup_lt_is_Some_2 pool (n - i - 1)) as [y Hy]; [lia|].
    rewrite Hx, Hy.
    destruct (IH (S i) (<[j := y]> pool) (result ++ [x])
                (set_rng (λ k, rng w (S k)) w))
      as (res & g & rest & Hrun & Hperm & Hlen);
      [lia | by rewrite length_insert |].
    exists res, g, rest. split_and!.
    + rewrite Hrun. by destruct w.
    + rewrite Hperm. rewrite <- app_assoc. simpl.
      apply Permutation_app_head.
      replace (n - S i)%nat with (n - i - 1)%nat by lia.
      by apply pool_step.
    + lia.
Qed.

(** Sampling as many elements as there are gives a permutation. *)
Lemma random_sample_all {A} (population : list A) w :
  ∃ res g,
    run (random_sample population (Z.of_nat (length population))) w
      = (Done res, set_rng g w) ∧
    res ≡ₚ population.
Proof.
  unfold random_sample. rewrite bool_decide_true by lia.
  rewrite Nat2Z.id.
  destruct (sample_pool_spec (length population) 0 (length population)
              population [] w) as (res & g & rest & Hrun & Hperm & Hlen);
    [lia..|].
  exists res, g. split; [done|].
  destruct rest; [|simpl in Hlen; lia].
  rewrite app_nil_r in Hperm. rewrite Hperm. simpl.
  by rewrite Nat.sub_0_r, firstn_all.
Qed.

(** ** The reference implementation reads back what it writes *)

Module RefJsonFacts.
Import RefJson.

Lemma text_chars s : text (chars s) = s.
Proof. apply string_of_list_ascii_of_string. Qed.

(** Strings *)

Lemma scan_string_escape c tail :
  scan_string (escape_char c ++ tail) =
  '(str, rest) ← scan_string tail; Some (c :: str, rest).
Proof.
  destruct c as [[] [] [] [] [] [] [] []]; reflexivity.
Qed.

Lemma scan_string_encode cs rest :
  scan_string (flat_map escape_char cs ++ quote :: rest) = Some (cs, rest).
Proof.
  induction cs as [|c cs IH]; [done|].
  cbn [flat_map]. rewrite <- app_assoc, scan_string_escape, IH. done.
Qed.

(** Numbers *)

Lemma is_digit_digit_char d : (d < 10)%N → is_digit (digit_char d) = true.
Proof.
  intros Hd. assert (d ∈ [0;1;2;3;4;5;6;7;8;9]%N) as Hin.
  { destruct d as [|p]; [set_solver|].
    do 4 (destruct p as [p|p|]; try lia; try set_solver). }
  repeat (apply elem_of_cons in Hin as [->|Hin]; [reflexivity|]).
  by apply elem_of_nil in Hin.
Qed.

Lemma digit_value_digit_char d : (d < 10)%N → digit_value (digit_char d) = d.
Proof.
  intros Hd. assert (d ∈ [0;1;2;3;4;5;6;7;8;9]%N) as Hin.
  { destruct d as [|p]; [set_solver|].
    do 4 (destruct p as [p|p|]; try lia; try set_solver). }
  repeat (apply elem_of_cons in Hin as [->|Hin]; [reflexivity|]).
  by apply elem_of_nil in Hin.
Qed.

Lemma nat_of_digit_char d :
  (d < 10)%N → nat_of_ascii (digit_char d) = (48 + N.to_nat d)%nat.
Proof.
  intros Hd. assert (d ∈ [0;1;2;3;4;5;6;7;8;9]%N) as Hin.
  { destruct d as [|p]; [set_solver|].
    do 4 (destruct p as [p|p|]; try lia; try set_solver). }
  repeat (apply elem_of_cons in Hin as [->|Hin]; [reflexivity|]).
  by apply elem_of_nil in Hin.
Qed.

Lemma scan_digits_end acc rest :
  ends_number rest → scan_digits acc rest = (acc, rest).
Proof.
  destruct rest as [|c rest]; [done|]. cbn.
  destruct (is_digit c); [done|]. done.
Qed.

Lemma float_follows_end rest : ends_number rest → float_follows rest = false.
Proof.
  destruct rest as [|c [|d rest]]; [done..|]. cbn.
  destruct (is_digit c); [done|]. cbn.
  destruct (nat_of_ascii c =? 46)%nat; [done|].
  destruct (nat_of_ascii c =? 101)%nat; [done|].
  destruct (nat_of_ascii c =? 69)%nat; [done|]. done.
Qed.

Lemma digits_go_app fuel n acc :
  digits_go fuel n acc = digits_go fuel n [] ++ acc.
Proof.
  revert n acc. induction fuel as [|fuel IH]; intros n acc; [done|].
  cbn [digits_go]. destruct (n <? 10)%N; [done|].
  rewrite IH, (IH _ [_]). by rewrite <- app_assoc.
Qed.

Lemma size_nat_bound n : (n < 2 ^ N.of_nat (N.size_nat n))%N.
Proof.
  destruct n as [|p]; [done|]. cbn [N.size_nat].
  induction p as [p IH|p IH|].
  - cbn [Pos.size_nat]. rewrite Nat2N.inj_succ, N.pow_succ_r'. lia.
  - cbn [Pos.size_nat]. rewrite Nat2N.inj_succ, N.pow_succ_r'. lia.
  - done.
Qed.

(** Reading the digits written for [n] after digits that gave [a]. *)
Lemma scan_digits_go fuel n acc a :
  (n < 2 ^ N.of_nat fuel)%N → fuel ≠ O →
  ∃ a', scan_digits a (digits_go fuel n acc) = scan_digits a' acc ∧
        (a = 0%N → a' = n).
Proof.
  revert n acc a. induction fuel as [|fuel IH]; intros n acc a Hn Hf; [done|].
  cbn [digits_go]. destruct (N.ltb_spec n 10) as [Hlt|Hge].
  - exists (10 * a + n)%N. split; [|lia].
    cbn [scan_digits]. rewrite is_digit_digit_char by (by apply N.mod_lt).
    rewrite digit_value_digit_char by (by apply N.mod_lt).
    by rewrite N.mod_small.
  - assert (n `div` 10 < 2 ^ N.of_nat fuel)%N as Hdiv.
    { rewrite Nat2N.inj_succ, N.pow_succ_r' in Hn.
      apply N.Div0.div_lt_upper_bound. lia. }
    assert (fuel ≠ O) as Hfuel.
    { intros ->. cbn in Hdiv.
      assert (1 ≤ n `div` 10)%N; [|lia].
      apply N.div_le_lower_bound; lia. }
    destruct (IH (n `div` 10)%N (digit_char (n `mod` 10) :: acc) a Hdiv Hfuel)
      as (a1 & Hscan & Ha1).
    exists (10 * a1 + n `mod` 10)%N. split.
    + rewrite Hscan. cbn [scan_digits].
      rewrite is_digit_digit_char by (by apply N.mod_lt).
      by rewrite digit_value_digit_char by (by apply N.mod_lt).
    + intros ->. rewrite Ha1 by done.
      rewrite (N.div_mod n 10) at 3 by done. lia.
Qed.

(** The first digit written for a positive number is not a zero. *)
Lemma digits_go_head fuel n acc :
  (n < 2 ^ N.of_nat fuel)%N → fuel ≠ O → (0 < n)%N →
  ∃ d tl, digits_go fuel n acc = digit_char d :: tl ∧ (0 < d < 10)%N.
Proof.
  revert n acc. induction fuel as [|fuel IH]; intros n acc Hn Hf Hpos; [done|].
  cbn [digits_go]. destruct (N.ltb_spec n 10) as [Hlt|Hge].
  - exists n, acc. rewrite N.mod_small by done. split; [done|lia].
  - assert (n `div` 10 < 2 ^ N.of_nat fuel)%N as Hdiv.
    { rewrite Nat2N.inj_succ, N.pow_succ_r' in Hn.
      apply N.Div0.div_lt_upper_bound. lia. }
    assert (1 ≤ n `div` 10)%N as Hone by (apply N.div_le_lower_bound; lia).
    apply IH; [done| |lia].
    intros ->. cbn in Hdiv. lia.
Qed.

Lemma scan_natural_encode p rest :
  ends_number rest →
  scan_natural (encode_N (Npos p) ++ rest) = Some (Npos p, rest).
Proof.
  intros Hrest. unfold encode_N.
  pose proof (size_nat_bound (Npos p)) as Hb.
  assert (N.size_nat (N.pos p) ≤ S (N.size_nat (N.pos p)))%nat as Hle by lia.
  assert (N.pos p < 2 ^ N.of_nat (S (N.size_nat (N.pos p))))%N as Hb'.
  { eapply N.lt_le_trans; [done|]. apply N.pow_le_mono_r; lia. }
  destruct (digits_go_head (S (N.size_nat (Npos p))) (Npos p) [] Hb')
    as (d & tl & Hhd & Hd); [done|lia|].
  destruct (scan_digits_go (S (N.size_nat (Npos p))) (Npos p) rest 0 Hb')
    as (a' & Hscan & Ha'); [done|].
  rewrite digits_go_app in Hscan. rewrite Hhd in *.
  cbn [app scan_natural].
  rewrite nat_of_digit_char by lia.
  replace (48 + N.to_nat d =? 48)%nat with false
    by (symmetry; apply Nat.eqb_neq; lia).
  rewrite is_digit_digit_char by lia.
  cbn [app scan_digits] in Hscan.
  rewrite is_digit_digit_char in Hscan by lia.
  replace (10 * 0 + digit_value (digit_char d))%N
    with (digit_value (digit_char d)) in Hscan by lia.
  rewrite Hscan, Ha' by done. by rewrite scan_digits_end.
Qed.

Lemma encode_int_head z :
  ∃ c tl, encode_int z = c :: tl ∧ starts_number c.
Proof.
  destruct z as [|p|p].
  - eexists _, _. split; [done|]. right. vm_compute. lia.
  - unfold encode_int, encode_N.
    pose proof (size_nat_bound (Npos p)) as Hb.
    destruct (digits_go_head (S (N.size_nat (Npos p))) (Npos p) [])
      as (d & tl & Hhd & Hd); [|done|lia|].
    { eapply N.lt_le_trans; [done|]. apply N.pow_le_mono_r; lia. }
    exists (digit_char d), tl. split; [done|]. right.
    rewrite nat_of_digit_char by lia. lia.
  - eexists _, _. split; [done|]. by left.
Qed.

Lemma scan_number_digit c s :
  (48 ≤ nat_of_ascii c ≤ 57)%nat →
  scan_number (c :: s) =
  '(n, rest) ← scan_natural (c :: s);
  if float_follows rest then None else Some (PyInt (Z.of_N n), rest).
Proof.
  intros Hc. unfold scan_number.
  replace (nat_of_ascii c =? 45)%nat with false
    by (symmetry; apply Nat.eqb_neq; lia).
  by destruct (scan_natural (c :: s)) as [[??]|].
Qed.

Lemma scan_number_encode z rest :
  ends_number rest →
  scan_number (encode_int z ++ rest) = Some (PyInt z, rest).
Proof.
  intros Hrest. destruct z as [|p|p].
  - change (encode_int 0 ++ rest) with ("0"%char :: rest).
    rewrite scan_number_digit by (vm_compute; lia).
    change (scan_natural ("0"%char :: rest)) with (Some (0%N, rest)).
    cbn [mbind option_bind]. by rewrite float_follows_end.
  - pose proof (scan_natural_encode p rest Hrest) as Hscan.
    cbn [encode_int]. unfold encode_N in *.
    pose proof (size_nat_bound (Npos p)) as Hb.
    destruct (digits_go_head (S (N.size_nat (Npos p))) (Npos p) [])
      as (d & tl & Hhd & Hd); [|done|lia|].
    { eapply N.lt_le_trans; [done|]. apply N.pow_le_mono_r; lia. }
    rewrite Hhd in *. cbn [app] in *.
    rewrite scan_number_digit by (rewrite nat_of_digit_char by lia; lia).
    rewrite Hscan. cbn [mbind option_bind]. by rewrite float_follows_end.
  - change (encode_int (Z.neg p) ++ rest)
      with ("-"%char :: (encode_N (Npos p) ++ rest)).
    unfold scan_number.
    change (nat_of_ascii "-" =? 45)%nat with true. cbn match.
    rewrite scan_natural_encode by done. cbn [mbind option_bind].
    by rewrite float_follows_end.
Qed.

(** White space *)

Lemma skip_ws_head c s : is_ws c = false → skip_ws (c :: s) = c :: s.
Proof. intros Hc. cbn [skip_ws]. by rewrite Hc. Qed.

Lemma skip_ws_newline_indent level s :
  skip_ws (newline_indent level ++ s) = skip_ws s.
Proof.
  unfold newline_indent. cbn [app skip_ws].
  change (is_ws "010") with true. cbn match.
  induction (4 * level)%nat as [|n IH]; [done|].
  cbn [replicate app skip_ws]. by change (is_ws " ") with true.
Qed.

(** How [parse_value] goes by the first character. *)

Lemma parse_value_string fuel s :
  parse_value (S fuel) (quote :: s) =
  '(str, rest) ← scan_string s; Some (PyStr (text str), rest).
Proof. reflexivity. Qed.

Lemma parse_value_list fuel s :
  parse_value (S fuel) ("["%char :: s) =
  match skip_ws s with
  | d :: s' =>
      if (nat_of_ascii d =? 93)%nat then Some (PyList [], s')
      else parse_array fuel (d :: s') []
  | [] => None
  end.
Proof. reflexivity. Qed.

Lemma parse_value_dict fuel s :
  parse_value (S fuel) ("{"%char :: s) =
  match skip_ws s with
  | d :: s' =>
      if (nat_of_ascii d =? 125)%nat then Some (PyDict [], s')
      else if (nat_of_ascii d =? 34)%nat then parse_object fuel s' []
      else None
  | [] => None
  end.
Proof. reflexivity. Qed.

Lemma parse_value_number fuel c s :
  starts_number c → parse_value (S fuel) (c :: s) = scan_number (c :: s).
Proof.
  intros Hc. unfold starts_number in Hc. cbn [parse_value].
  repeat match goal with
         | |- context [(nat_of_ascii c =? ?k)%nat] =>
             replace (nat_of_ascii c =? k)%nat with false
               by (symmetry; apply Nat.eqb_neq; lia)
         end.
  done.
Qed.

Lemma parse_array_S fuel s items :
  parse_array (S fuel) s items =
  '(v, s1) ← parse_value fuel s;
  match skip_ws s1 with
  | d :: s2 =>
      if (nat_of_ascii d =? 93)%nat then Some (PyList (items ++ [v]), s2)
      else if (nat_of_ascii d =? 44)%nat then
        parse_array fuel (skip_ws s2) (items ++ [v])
      else None
  | [] => None
  end.
Proof. reflexivity. Qed.

Lemma parse_object_S fuel s items :
  parse_object (S fuel) s items =
  '(key, s1) ← scan_string s;
  match skip_ws s1 with
  | c :: s2 =>
      if (nat_of_ascii c =? 58)%nat then
        '(v, s3) ← parse_value fuel (skip_ws s2);
        let items' := dict_set (text key) v items in
        match skip_ws s3 with
        | d :: s4 =>
            if (nat_of_ascii d =? 125)%nat then Some (PyDict items', s4)
            else if (nat_of_ascii d =? 44)%nat then
              match skip_ws s4 with
              | q :: s5 =>
                  if (nat_of_ascii q =? 34)%nat
                  then parse_object fuel s5 items'
                  else None
              | [] => None
              end
            else None
        | [] => None
        end
      else None
  | [] => None
  end.
Proof. reflexivity. Qed.

(** The first character written for a value: no white space, no closing
    bracket. *)
Lemma encode_head level v :
  ∃ c tl, encode level v = c :: tl ∧ is_ws c = false ∧
          (nat_of_ascii c =? 93)%nat = false.
Proof.
  destruct v as [|[]|z|s|[|x l]|[|[k x] d]];
    try (eexists _, _; split; [reflexivity|done]).
  destruct (encode_int_head z) as (c & tl & Hc & Hs).
  exists c, tl. split; [done|].
  unfold starts_number in Hs. unfold is_ws. split.
  - repeat (apply orb_false_intro); apply Nat.eqb_neq; lia.
  - apply Nat.eqb_neq; lia.
Qed.

Lemma dict_set_fresh k v (d : list (string * value)) :
  k ∉ d.*1 → dict_set k v d = d ++ [(k, v)].
Proof.
  induction d as [|[k' v'] d IH]; intros Hk; [done|].
  cbn [fmap list_fmap fst] in Hk. apply not_elem_of_cons in Hk as [Hne Hk].
  cbn [dict_set]. rewrite decide_False by done.
  cbn [app]. by rewrite IH.
Qed.
Lemma ends_number_more_items level l tail :
  ends_number (more_items level l ++ newline_indent level ++ tail).
Proof. by destruct l. Qed.

Lemma ends_number_more_pairs level d tail :
  ends_number (more_pairs level d ++ newline_indent level ++ tail).
Proof. by destruct d. Qed.

(** The loop of [parse_array] on the elements written for [x :: l]. *)
Lemma parse_array_encode level rest (l : list value) :
  Forall (λ v, ∀ level fuel rest,
            (cost v ≤ fuel)%nat → ends_number rest →
            parse_value fuel (encode level v ++ rest) = Some (v, rest)) l →
  ∀ x items fuel,
    (∀ level fuel rest,
        (cost x ≤ fuel)%nat → ends_number rest →
        parse_value fuel (encode level x ++ rest) = Some (x, rest)) →
    (sum_list_with (λ y, S (cost y)) (x :: l) ≤ fuel)%nat →
    parse_array fuel
      (encode (S level) x ++ more_items level l ++
       newline_indent level ++ "]"%char :: rest) items
    = Some (PyList (items ++ x :: l), rest).
Proof.
  induction 1 as [|y l Hy Hl IH]; intros x items fuel Hx Hfuel.
  - destruct fuel as [|fuel]; [cbn in Hfuel; lia|].
    rewrite parse_array_S, Hx; [|cbn in Hfuel; lia|done].
    cbn [mbind option_bind more_items flat_map app].
    rewrite (skip_ws_newline_indent level), skip_ws_head by done.
    done.
  - destruct fuel as [|fuel]; [cbn in Hfuel; lia|].
    cbn [sum_list_with] in Hfuel.
    rewrite parse_array_S, Hx; [|lia|done].
    cbn [mbind option_bind more_items flat_map].
    fold (more_items level l).
    rewrite <- !app_assoc. cbn [app].
    rewrite skip_ws_head by done.
    change (nat_of_ascii "," =? 93)%nat with false.
    change (nat_of_ascii "," =? 44)%nat with true. cbn match.
    rewrite <- app_assoc, skip_ws_newline_indent.
    destruct (encode_head (S level) y) as (c & tl & Hc & Hws & _).
    rewrite Hc. cbn [app]. rewrite skip_ws_head by done.
    change (c :: tl ++ ?t) with ((c :: tl) ++ t). rewrite <- Hc.
    rewrite IH; [|done|cbn [sum_list_with]; lia].
    by rewrite <- app_assoc.
Qed.

(** The loop of [parse_object] on the items written for [(k, x) :: d],
    entered after the quote that opens [k]. *)
Lemma parse_object_encode level rest (d : list (string * value)) :
  Forall (λ kv, ∀ level fuel rest,
            (cost kv.2 ≤ fuel)%nat → ends_number rest →
            parse_value fuel (encode level kv.2 ++ rest) = Some (kv.2, rest)) d →
  ∀ k x items fuel,
    (∀ level fuel rest,
        (cost x ≤ fuel)%nat → ends_number rest →
        parse_value fuel (encode level x ++ rest) = Some (x, rest)) →
    NoDup (items.*1 ++ k :: d.*1) →
    (sum_list_with (λ kv, S (cost kv.2)) ((k, x) :: d) ≤ fuel)%nat →
    parse_object fuel
      (flat_map escape_char (chars k) ++ quote :: chars ": " ++
       encode (S level) x ++ more_pairs level d ++
       newline_indent level ++ "}"%char :: rest) items
    = Some (PyDict (items ++ (k, x) :: d), rest).
Proof.
  induction 1 as [|[k' y] d Hy Hd IH]; intros k x items fuel Hx Hnodup Hfuel.
  - destruct fuel as [|fuel]; [cbn in Hfuel; lia|].
    rewrite parse_object_S, scan_string_encode.
    cbn [mbind option_bind chars list_ascii_of_string app].
    rewrite skip_ws_head by done.
    change (nat_of_ascii ":" =? 58)%nat with true. cbn match.
    destruct (encode_head (S level) x) as (c & tl & Hc & Hws & _).
    rewrite Hc. cbn [app skip_ws]. change (is_ws " ") with true. cbn match.
    rewrite Hws.
    change (c :: tl ++ ?t) with ((c :: tl) ++ t). rewrite <- Hc.
    rewrite Hx; [|cbn in Hfuel; lia|done].
    cbn [mbind option_bind more_pairs flat_map app].
    rewrite (skip_ws_newline_indent level), skip_ws_head by done.
    change (nat_of_ascii "}" =? 125)%nat with true. cbn match.
    rewrite text_chars, dict_set_fresh; [done|].
    apply NoDup_app in Hnodup as (_ & Hnot & _).
    intros Hin. apply (Hnot k Hin). by left.
  - destruct fuel as [|fuel]; [cbn in Hfuel; lia|].
    cbn [sum_list_with snd] in Hfuel.
    rewrite parse_object_S, scan_string_encode.
    cbn [mbind option_bind chars list_ascii_of_string app].
    rewrite skip_ws_head by done.
    change (nat_of_ascii ":" =? 58)%nat with true. cbn match.
    destruct (encode_head (S level) x) as (c & tl & Hc & Hws & _).
    rewrite Hc. cbn [app skip_ws]. change (is_ws " ") with true. cbn match.
    rewrite Hws.
    change (c :: tl ++ ?t) with ((c :: tl) ++ t). rewrite <- Hc.
    rewrite Hx; [|lia|by apply ends_number_more_pairs].
    cbn [mbind option_bind more_pairs flat_map fst snd].
    fold (more_pairs level d).
    rewrite <- !app_assoc. cbn [app].
    rewrite skip_ws_head by done.
    change (nat_of_ascii "," =? 125)%nat with false.
    change (nat_of_ascii "," =? 44)%nat with true. cbn match.
    rewrite <- app_assoc, skip_ws_newline_indent.
    unfold encode_string at 1. cbn [app].
    rewrite skip_ws_head by done.
    change (nat_of_ascii quote =? 34)%nat with true. cbn match.
    rewrite <- !app_assoc. cbn [app].
    rewrite text_chars, dict_set_fresh.
    + cbn [fmap list_fmap fst] in Hnodup.
      rewrite IH; [by rewrite <- app_assoc|done| |cbn [sum_list_with snd]; lia].
      rewrite fmap_app, <- app_assoc. done.
    + apply NoDup_app in Hnodup as (_ & Hnot & _).
      intros Hin. apply (Hnot k Hin). by left.
Qed.

(** What [encode] writes for a well-formed value, [parse_value] reads back
    as that value, with fuel enough and before any text a number may end
    at. *)
Lemma parse_value_encode (v : value) :
  wf_value v →
  ∀ level fuel rest,
    (cost v ≤ fuel)%nat → ends_number rest →
    parse_value fuel (encode level v ++ rest) = Some (v, rest).
Proof.
  induction v as [|b|z|s|l IH|d IH] using value_ind';
    intros Hwf level fuel rest Hfuel Hrest;
    (destruct fuel as [|fuel]; [cbn in Hfuel; lia|]).
  - reflexivity.
  - by destruct b.
  - destruct (encode_int_head z) as (c & tl & Hc & Hs).
    pose proof (scan_number_encode z rest Hrest) as Hscan.
    cbn [encode]. rewrite Hc in *. cbn [app] in *.
    by rewrite parse_value_number.
  - cbn [encode]. unfold encode_string. cbn [app].
    rewrite parse_value_string, <- app_assoc. cbn [app].
    rewrite scan_string_encode. cbn [mbind option_bind].
    by rewrite text_chars.
  - cbn [wf_value] in Hwf. apply forallb_True in Hwf.
    assert (Forall (λ v, ∀ level fuel rest,
              (cost v ≤ fuel)%nat → ends_number rest →
              parse_value fuel (encode level v ++ rest) = Some (v, rest)) l)
      as IH'.
    { apply Forall_forall. intros x Hx.
      rewrite Forall_forall in IH, Hwf. by apply IH; [|apply Hwf]. }
    clear IH Hwf. destruct IH' as [|x l Hx Hl]; [reflexivity|].
    cbn [encode]. fold (more_items level l). cbn [app].
    rewrite parse_value_list, <- !app_assoc, skip_ws_newline_indent.
    destruct (encode_head (S level) x) as (c & tl & Hc & Hws & Hclose).
    rewrite Hc. cbn [app]. rewrite skip_ws_head, Hclose by done.
    change (c :: tl ++ ?t) with ((c :: tl) ++ t). rewrite <- Hc.
    cbn [app]. rewrite parse_array_encode; [done..|].
    cbn [cost] in Hfuel. lia.
  - cbn [wf_value] in Hwf. apply andb_True in Hwf as [Hnodup Hwf].
    apply bool_decide_spec in Hnodup. apply forallb_True in Hwf.
    assert (Forall (λ kv, ∀ level fuel rest,
              (cost kv.2 ≤ fuel)%nat → ends_number rest →
              parse_value fuel (encode level kv.2 ++ rest) = Some (kv.2, rest)) d)
      as IH'.
    { apply Forall_forall. intros kv Hkv.
      rewrite Forall_forall in IH, Hwf. by apply IH; [|apply Hwf]. }
    clear IH Hwf. destruct IH' as [|[k x] d Hx Hd]; [reflexivity|].
    cbn [encode]. fold (more_pairs level d). cbn [app].
    rewrite parse_value_dict, <- !app_assoc, skip_ws_newline_indent.
    unfold encode_string at 1. cbn [app]. rewrite skip_ws_head by done.
    change (nat_of_ascii quote =? 125)%nat with false.
    change (nat_of_ascii quote =? 34)%nat with true. cbn match.
    rewrite <- !app_assoc. cbn [app].
    rewrite (parse_object_encode level rest d Hd k x []); [done|done|done|].
    cbn [cost] in Hfuel. lia.
Qed.

(** The text written is long enough to serve as fuel. *)
Lemma cost_le_length (v : value) level : (cost v ≤ length (encode level v))%nat.
Proof.
  revert level.
  induction v as [|b|z|s|l IH|d IH] using value_ind'; intros level.
  - cbn. lia.
  - destruct b; cbn; lia.
  - cbn [encode cost]. destruct (encode_int_head z) as (c & tl & -> & _).
    cbn [length]. lia.
  - cbn. lia.
  - destruct l as [|x l]; [cbn; lia|].
    cbn [encode cost sum_list_with length].
    rewrite !length_app. cbn [length].
    apply Forall_cons in IH as [Hx Hl].
    specialize (Hx (S level)).
    assert (sum_list_with (λ y, S (cost y)) l
            ≤ length (more_items level l))%nat; [|unfold more_items in *; lia].
    clear Hx. induction Hl as [|y l Hy Hl IHl]; [done|].
    cbn [sum_list_with more_items flat_map].
    rewrite length_app. cbn [length]. rewrite length_app.
    specialize (Hy (S level)). unfold more_items in IHl. lia.
  - destruct d as [|[k x] d]; [cbn; lia|].
    cbn [encode cost sum_list_with length snd].
    rewrite !length_app. cbn [length].
    apply Forall_cons in IH as [Hx Hd]. cbn [snd] in Hx.
    specialize (Hx (S level)).
    assert (sum_list_with (λ kv, S (cost kv.2)) d
            ≤ length (more_pairs level d))%nat; [|unfold more_pairs in *; lia].
    clear Hx. induction Hd as [|[k' y] d Hy Hd IHd]; [done|].
    cbn [sum_list_with more_pairs flat_map snd fst].
    rewrite length_app. cbn [length]. rewrite !length_app.
    specialize (Hy (S level)). cbn [snd] in Hy. unfold more_pairs in IHd. lia.
Qed.

(** The law of [JsonLib] for the reference implementation. *)
Lemma loads_dumps (v : value) : wf_value v → loads (dumps v) = inr v.
Proof.
  intros Hwf. unfold loads, dumps, chars, text.
  rewrite list_ascii_of_string_of_list_ascii.
  destruct (encode_head 0 v) as (c & tl & Hc & Hws & _).
  rewrite Hc, skip_ws_head, <- Hc by done.
  rewrite <- (app_nil_r (encode 0 v)) at 2.
  rewrite parse_value_encode; [done|done| |done].
  pose proof (cost_le_length v 0). lia.
Qed.
End RefJsonFacts.

(** The reference implementation is a json library in the sense of
    [JsonLib]. *)
Global Instance ref_json : JsonLib := {|
  json_dumps := RefJson.dumps;
  json_loads := RefJson.loads;
  json_loads_dumps := RefJsonFacts.loads_dumps
|}.

(** ** The review view *)

Lemma permutation_of_range_intro p n :
  p ≡ₚ py_range (Z.of_nat n) → permutation_of_range p n.
Proof.
  intros Hp. unfold permutation_of_range, py_range in *. split_and!.
  - done.
  - by rewrite Hp, length_seqZ, Nat2Z.id.
  - rewrite Hp. apply NoDup_seqZ.
  - intros i. rewrite Hp, elem_of_seqZ. lia.
Qed.

(** What a run of [navigation_controls] with one button pressed does. *)
Lemma run_next n c w :
  n ≠ 0 → cursor w = Some c →
  run (navigation_controls n press_next) w =
  (Rerun,
   set_session_state (insert "chat_history" (Json (PyList [])))
     (set_session_state (insert "show_answer" (Json (PyBool false)))
        (set_session_state
           (insert "current_card_index" (Json (PyInt ((c + 1) `mod` n)))) w))).
Proof.
  intros Hn Hc. unfold cursor in Hc.
  destruct (session_state w !! "current_card_index") as [o|] eqn:Ho; [|done].
  simpl in Hc.
  unfold_controls. rewrite bool_decide_false by done.
  run_simpl. rewrite Ho. run_simpl. rewrite Hc. by run_simpl.
Qed.

Lemma run_previous n c w :
  n ≠ 0 → cursor w = Some c →
  run (navigation_controls n press_previous) w =
  (Rerun,
   set_session_state (insert "chat_history" (Json (PyList [])))
     (set_session_state (insert "show_answer" (Json (PyBool false)))
        (set_session_state
           (insert "current_card_index" (Json (PyInt ((c - 1) `mod` n)))) w))).
Proof.
  intros Hn Hc. unfold cursor in Hc.
  destruct (session_state w !! "current_card_index") as [o|] eqn:Ho; [|done].
  simpl in Hc.
  unfold_controls. rewrite bool_decide_false by done.
  run_simpl. rewrite Ho. run_simpl. rewrite Hc. by run_simpl.
Qed.

Lemma run_show_answer n w :
  n ≠ 0 →
  run (navigation_controls n press_show_answer) w =
  (Done (), set_session_state (insert "show_answer" (Json (PyBool true))) w).
Proof.
  intros Hn. unfold navigation_controls. rewrite bool_decide_false by done.
  by run_simpl.
Qed.

Lemma run_shuffle (n : nat) w :
  (0 < n)%nat →
  ∃ p g,
    p ≡ₚ py_range (Z.of_nat n) ∧
    run (navigation_controls (Z.of_nat n) press_shuffle) w =
    (Rerun,
     set_session_state (insert "chat_history" (Json (PyList [])))
       (set_session_state (insert "show_answer" (Json (PyBool false)))
          (set_session_state (insert "current_card_index" (Json (PyInt 0)))
             (set_session_state
                (insert "shuffled_cards" (Json (PyList (PyInt <$> p))))
                (set_rng g w))))).
Proof.
  intros Hn.
  destruct (random_sample_all (py_range (Z.of_nat n)) w)
    as (p & g & Hrun & Hp).
  unfold py_range in Hrun at 2. rewrite length_seqZ, Nat2Z.id in Hrun.
  exists p, g. split; [done|].
  unfold_controls. rewrite bool_decide_false by lia.
  run_simpl. rewrite Hrun. by run_simpl.
Qed.

(** Opening a set: [initialize_flashcard_viewer_state] on a set whose hash
    the session does not hold. *)
Lemma run_initialize content_hash (cards : list value) w :
  cards ≠ [] →
  (∀ o, session_state w !! "current_set_hash" = Some o →
        differs_from_int o (content_hash (PyList cards)) = true) →
  ∃ p g,
    p ≡ₚ py_range (Z.of_nat (length cards)) ∧
    run (initialize_flashcard_viewer_state content_hash (PyList cards)) w =
    (Rerun,
     set_session_state (insert "shuffled_cards" (Json (PyList (PyInt <$> p))))
       (set_rng g
         (set_session_state (insert "current_flashcard_context" (Json (PyStr "")))
         (set_session_state (insert "chat_history" (Json (PyList [])))
         (set_session_state (insert "show_answer" (Json (PyBool false)))
         (set_session_state (insert "current_card_index" (Json (PyInt 0)))
         (set_session_state (insert "flashcards_current_set" (Json (PyList cards)))
         (set_session_state
            (insert "current_set_hash"
                    (Json (PyInt (content_hash (PyList cards))))) w)))))))).
Proof.
  intros Hne Hhash.
  set (w1 := set_session_state (insert "current_flashcard_context" (Json (PyStr ""))) _).
  destruct (random_sample_all (py_range (Z.of_nat (length cards))) w1)
    as (p & g & Hrun & Hp).
  unfold py_range in Hrun at 2. rewrite length_seqZ, Nat2Z.id in Hrun.
  exists p, g. split; [done|].
  unfold initialize_flashcard_viewer_state. run_simpl.
  assert (run (if bool_decide (is_Some (session_state w !! "current_set_hash"))
               then o ← session_get "current_set_hash";
                    mret (differs_from_int o (content_hash (PyList cards)))
               else mret true) w = (Done true, w)) as ->.
  { destruct (session_state w !! "current_set_hash") as [o|] eqn:Ho.
    - rewrite bool_decide_true by eauto. run_simpl. rewrite Ho.
      by rewrite (Hhash o).
    - rewrite bool_decide_false by (by intros [??]). done. }
  run_simpl. cbn [truthy]. rewrite bool_decide_false by done.
  cbn [negb py_len]. run_simpl. fold w1. rewrite Hrun. by run_simpl.
Qed.

(** C2. For a set of [n > 0] cards, the Shuffle button, and the shuffle done
    when a set is opened (the session holds no hash, or another one than
    that of the set), leave in [shuffled_cards] a list that holds every
    index from [0] to [n - 1] exactly once and has length [n]; this for
    every state of the random generator, so for every repetition. *)
Theorem C2_shuffle_is_permutation (n : nat) (w : World) :
  (0 < n)%nat →
  (∃ p, session_state (after (navigation_controls (Z.of_nat n) press_shuffle) w)
          !! "shuffled_cards" = Some (Json (PyList (PyInt <$> p))) ∧
        permutation_of_range p n) ∧
  (∀ content_hash cards,
     length cards = n →
     (∀ o, session_state w !! "current_set_hash" = Some o →
           differs_from_int o (content_hash (PyList cards)) = true) →
     ∃ p, session_state
            (after (initialize_flashcard_viewer_state content_hash (PyList cards)) w)
            !! "shuffled_cards" = Some (Json (PyList (PyInt <$> p))) ∧
          permutation_of_range p n).
Proof.
  intros Hn. split.
  - destruct (run_shuffle n w Hn) as (p & g & Hp & Hrun).
    exists p. split; [|by apply permutation_of_range_intro].
    unfold after. rewrite Hrun. cbn. by simplify_map_eq.
  - intros content_hash cards Hlen Hhash.
    destruct (run_initialize content_hash cards w) as (p & g & Hp & Hrun);
      [by intros ->; simpl in Hlen; lia | done |].
    exists p. split; [|by apply permutation_of_range_intro; rewrite <- Hlen].
    unfold after. rewrite Hrun. cbn. by simplify_map_eq.
Qed.

(** C3. With [n > 0] cards, Next replaces the cursor [c] by [(c + 1) mod n]
    and Previous by [(c - 1) mod n]; so Next on the last position gives [0]
    and Previous on [0] gives the last position. *)
Theorem C3_next_previous_wrap (n c : Z) (w : World) :
  0 < n → cursor w = Some c →
  cursor (after (navigation_controls n press_next) w) = Some ((c + 1) `mod` n) ∧
  cursor (after (navigation_controls n press_previous) w) = Some ((c - 1) `mod` n) ∧
  (c = n - 1 → cursor (after (navigation_controls n press_next) w) = Some 0) ∧
  (c = 0 → cursor (after (navigation_controls n press_previous) w) = Some (n - 1)).
Proof.
  intros Hn Hc.
  assert (cursor (after (navigation_controls n press_next) w)
          = Some ((c + 1) `mod` n)) as Hnext.
  { unfold after. rewrite (run_next n c) by (done || lia).
    unfold cursor. cbn. by simplify_map_eq. }
  assert (cursor (after (navigation_controls n press_previous) w)
          = Some ((c - 1) `mod` n)) as Hprev.
  { unfold after. rewrite (run_previous n c) by (done || lia).
    unfold cursor. cbn. by simplify_map_eq. }
  split_and!; [done..| |].
  - intros ->. rewrite Hnext. f_equal.
    replace (n - 1 + 1) with n by lia. apply Z_mod_same_full.
  - intros ->. rewrite Hprev. f_equal.
    replace (0 - 1) with (-1 * n + (n - 1)) by lia.
    rewrite Z.add_comm, Z_mod_plus_full. apply Z.mod_small. lia.
Qed.

(** C4. Show Answer sets the flag [show_answer] to true and changes nothing
    else, in the session state or elsewhere; Next, Previous and Shuffle each
    leave the chat transcript empty and the flag false. *)
Theorem C4_reveal_keeps_rest_card_change_resets (n : nat) (c : Z) (w : World) :
  (0 < n)%nat → cursor w = Some c →
  run (navigation_controls (Z.of_nat n) press_show_answer) w =
    (Done (), set_session_state (insert "show_answer" (Json (PyBool true))) w) ∧
  ∀ b, b ∈ [press_next; press_previous; press_shuffle] →
    let w' := after (navigation_controls (Z.of_nat n) b) w in
    session_state w' !! "chat_history" = Some (Json (PyList [])) ∧
    session_state w' !! "show_answer" = Some (Json (PyBool false)).
Proof.
  intros Hn Hc. split; [apply run_show_answer; lia|].
  intros b Hb. cbn zeta. unfold after.
  apply elem_of_cons in Hb as [->|Hb]; [|apply elem_of_cons in Hb as [->|Hb]].
  - rewrite (run_next _ c) by (done || lia). cbn. by simplify_map_eq.
  - rewrite (run_previous _ c) by (done || lia). cbn. by simplify_map_eq.
  - apply list_elem_of_singleton in Hb as ->.
    destruct (run_shuffle n w Hn) as (p & g & _ & ->). cbn. by simplify_map_eq.
Qed.

(** ** The flashcard store *)



Section store.
Context `{!JsonLib}.


Lemma run_load_missing w :
  disk w !! main_page.FLASHCARDS_FILE = None →
  run main_page.load_flashcard_sets w = (Done (PyDict []), w).
Proof.
  intros Hnone. unfold main_page.load_flashcard_sets. run_simpl.
  rewrite Hnone. rewrite bool_decide_false by (by intros [??]). done.
Qed.

Lemma run_load_present w text :
  disk w !! main_page.FLASHCARDS_FILE = Some text →
  run main_page.load_flashcard_sets w =
  match json_loads text with
  | inr v => (Done v, w)
  | inl e =>
      (Done (PyDict []),
       add_shown (StError ("Error loading flashcard sets from "
                           +:+ main_page.FLASHCARDS_FILE +:+ ": " +:+ e)) w)
  end.
Proof.
  intros Hsome. unfold main_page.load_flashcard_sets, json_load. run_simpl.
  rewrite Hsome. rewrite bool_decide_true by eauto. run_simpl.
  rewrite Hsome. run_simpl. by destruct (json_loads text).
Qed.

Lemma run_viewer_load_missing w :
  disk w !! flashcard_viewer.FLASHCARDS_FILE = None →
  run flashcard_viewer.load_flashcard_sets w = (Done (PyDict []), w).
Proof.
  intros Hnone. unfold flashcard_viewer.load_flashcard_sets. run_simpl.
  rewrite Hnone. rewrite bool_decide_false by (by intros [??]). done.
Qed.

Lemma run_viewer_load_present w text :
  disk w !! flashcard_viewer.FLASHCARDS_FILE = Some text →
  run flashcard_viewer.load_flashcard_sets w =
  match json_loads text with
  | inr v => (Done v, w)
  | inl e =>
      (Done (PyDict []),
       add_shown (StError ("Failed to load flashcard sets: " +:+ e)) w)
  end.
Proof.
  intros Hsome. unfold flashcard_viewer.load_flashcard_sets, json_load.
  run_simpl. rewrite Hsome. rewrite bool_decide_true by eauto. run_simpl.
  rewrite Hsome. run_simpl. by destruct (json_loads text).
Qed.


(** C6. [load_flashcard_sets] returns an empty mapping when the file does
    not exist; when the file exists and its text is no JSON document, it
    shows an error, returns an empty mapping and raises nothing.  The same
    holds for the load of the viewer page, with its own message. *)
Theorem C6_load_missing_or_malformed_gives_empty (w : World) :
  (disk w !! main_page.FLASHCARDS_FILE = None →
   run main_page.load_flashcard_sets w = (Done (PyDict []), w) ∧
   run flashcard_viewer.load_flashcard_sets w = (Done (PyDict []), w)) ∧
  (∀ text e,
     disk w !! main_page.FLASHCARDS_FILE = Some text →
     json_loads text = inl e →
     run main_page.load_flashcard_sets w =
       (Done (PyDict []),
        add_shown (StError ("Error loading flashcard sets from flashcards.json: "
                            +:+ e)) w) ∧
     run flashcard_viewer.load_flashcard_sets w =
       (Done (PyDict []),
        add_shown (StError ("Failed to load flashcard sets: " +:+ e)) w)).
Proof.
  split.
  - intros Hnone. split; [by apply run_load_missing|].
    by apply run_viewer_load_missing.
  - intros text e Hsome Hbad. split.
    + by rewrite (run_load_present _ _ Hsome), Hbad.
    + by rewrite (run_viewer_load_present _ _ Hsome), Hbad.
Qed.
End store.

(** ** Generation *)



Section generation.
Context `{!JsonLib}.
Variable instruction_prefix : string.

(** A request that Gemini answers with [reply]. *)
Lemma run_generate q a w key reply :
  secrets w = inr key →
  gemini w (length (requests w))
    (main_page.prompt_message instruction_prefix q a) = reply →
  run (main_page.generate_flashcards_gemini instruction_prefix q a) w =
  let w' :=
    add_request (main_page.prompt_message instruction_prefix q a) w in
  match reply with
  | ReplyFails e =>
      (Done (PyList []),
       add_shown (StError ("An error occurred during Gemini flashcard generation: "
                           +:+ e)) w')
  | ReplyText json_string =>
      match json_loads json_string with
      | inr cards => (Done cards, w')
      | inl e =>
          (Done (PyList []),
           add_shown
             (StError ("Error decoding JSON from Gemini response. Ensure Gemini generated valid JSON. Error: "
                       +:+ e +:+ nl +:+ "Raw response (first 500 chars): "
                       +:+ str_take 500 json_string +:+ "...")) w')
      end
  end.
Proof.
  intros Hkey Hreply. unfold main_page.generate_flashcards_gemini.
  rewrite run_bind. cbn [run main_page.read_api_key]. rewrite Hkey.
  run_simpl. rewrite Hreply. destruct reply as [e|json_string]; [done|].
  by destruct (json_loads json_string).
Qed.

End generation.

(** ** The main page *)

Lemma same_outside_refl w : same_outside w w.
Proof. by repeat split. Qed.

Lemma same_outside_trans w1 w2 w3 :
  same_outside w1 w2 → same_outside w2 w3 → same_outside w1 w3.
Proof.
  intros (? & ? & ? & ? & ?) (? & ? & ? & ? & ?).
  repeat split; congruence.
Qed.

Lemma same_outside_default_world k o w : same_outside w (default_world k o w).
Proof. unfold default_world. case_bool_decide; by repeat split. Qed.

Lemma lookup_default_world_ne k k' o w :
  k ≠ k' →
  session_state (default_world k o w) !! k' = session_state w !! k'.
Proof.
  intros Hne. unfold default_world. case_bool_decide; [done|].
  cbn. by rewrite lookup_insert_ne.
Qed.

Lemma lookup_default_world_eq k o w :
  is_Some (session_state (default_world k o w) !! k).
Proof.
  unfold default_world. case_bool_decide; [done|].
  cbn. rewrite lookup_insert_eq. eauto.
Qed.

Section main_page_runs.
Context `{!JsonLib}.
Variable instruction_prefix : string.

Lemma run_session_default_ret k o w :
  run (main_page.session_default k (mret o)) w = (Done (), default_world k o w).
Proof.
  unfold main_page.session_default, default_world. run_simpl.
  by case_bool_decide.
Qed.

(** [load_flashcard_sets] always returns, and changes at most the messages. *)
Lemma run_load_total w :
  ∃ v w', run main_page.load_flashcard_sets w = (Done v, w') ∧
          same_outside w w' ∧ session_state w' = session_state w.
Proof.
  destruct (disk w !! main_page.FLASHCARDS_FILE) as [text|] eqn:Hfile.
  - rewrite (run_load_present _ _ Hfile).
    destruct (json_loads text) as [e|v]; eexists _, _;
      (split; [done|]); by repeat split.
  - rewrite (run_load_missing _ Hfile). eexists _, _.
    split; [done|]. by repeat split.
Qed.

Lemma run_default_flashcard_sets w :
  ∃ w', run (main_page.session_default "flashcard_sets"
               (sets ← main_page.load_flashcard_sets; mret (Json sets))) w
        = (Done (), w') ∧
        same_outside w w' ∧
        (∀ k, k ≠ "flashcard_sets" →
              session_state w' !! k = session_state w !! k) ∧
        (∀ o, session_state w !! "flashcard_sets" = Some o →
              session_state w' !! "flashcard_sets" = Some o).
Proof.
  unfold main_page.session_default. run_simpl.
  destruct (session_state w !! "flashcard_sets") as [o|] eqn:Hsets.
  - rewrite bool_decide_true by eauto. exists w. run_simpl.
    split_and!; [done|apply same_outside_refl|done|]. by intros ? [= <-].
  - rewrite bool_decide_false by (by intros [??]). run_simpl.
    destruct (run_load_total w) as (v & w' & -> & Hout & Hsess).
    run_simpl. eexists. split_and!; [done| |..].
    + destruct Hout as (? & ? & ? & ? & ?). by repeat split.
    + intros k Hk. cbn. rewrite lookup_insert_ne by done. by rewrite Hsess.
    + done.
Qed.

(** What [render_widgets] leaves: the disk, the generator and Gemini as
    they were, the set mapping of the session kept when there was one, and
    the uploaded documents in their slots. *)
Lemma run_render_widgets ui w :
  ∃ w', run (main_page.render_widgets ui) w = (Done (), w') ∧
        same_outside w w' ∧
        (∀ o, session_state w !! "flashcard_sets" = Some o →
              session_state w' !! "flashcard_sets" = Some o) ∧
        session_state w' !! "uploaded_question_pdf" =
          match main_page.uploaded_question_file ui with
          | Some f => Some (Upload f)
          | None => session_state w !! "uploaded_question_pdf"
          end ∧
        session_state w' !! "uploaded_answer_pdf" =
          match main_page.uploaded_answer_file ui with
          | Some f => Some (Upload f)
          | None => session_state w !! "uploaded_answer_pdf"
          end.
Proof.
  unfold main_page.render_widgets. rewrite run_bind.
  destruct (run_default_flashcard_sets w) as (w1 & -> & Hout & Hother & Hsets).
  rewrite run_bind, run_session_default_ret.
  rewrite run_bind, run_session_default_ret.
  rewrite run_bind, run_session_default_ret.
  set (w4 := default_world "last_set_name" _ _).
  assert (same_outside w w4) as Hout4.
  { eapply same_outside_trans; [done|].
    repeat (eapply same_outside_trans; [|apply same_outside_default_world]).
    apply same_outside_refl. }
  assert (∀ k, k ≠ "flashcard_sets" → k ≠ "question_text" →
               k ≠ "answer_text" → k ≠ "last_set_name" →
               session_state w4 !! k = session_state w !! k) as Hother4.
  { intros k ????. unfold w4.
    rewrite !lookup_default_world_ne by done. by apply Hother. }
  assert (∀ o, session_state w !! "flashcard_sets" = Some o →
               session_state w4 !! "flashcard_sets" = Some o) as Hsets4.
  { intros o Ho. unfold w4.
    rewrite !lookup_default_world_ne by done. by apply Hsets. }
  destruct (lookup_default_world_eq "last_set_name" (Json (PyStr ""))
              (default_world "answer_text" (Json (PyStr ""))
                 (default_world "question_text" (Json (PyStr "")) w1)))
    as [name Hname].
  fold w4 in Hname. clearbody w4. clear Hout Hother Hsets w1.
  destruct Hout4 as (Hd & Hr & Hq & Hs & Hg).
  destruct ui as [[qf|] [af|] name' g l c];
    cbn [main_page.uploaded_question_file main_page.uploaded_answer_file
         main_page.set_name];
    run_simpl; world_simpl; rewrite ?Hname; run_simpl;
    (destruct (truthy (PyStr name')); run_simpl;
     eexists; (split; [reflexivity|]);
     world_simpl; rewrite ?Hother4 by done;
     unfold same_outside; world_simpl; split_and!;
     world_simpl; rewrite ?Hother4 by done; auto).
Qed.

Lemma run_extract (f : UploadedFile) w :
  ∃ w', run (main_page.extract_text_from_pdf (Upload f)) w
        = (Done (extracted f), w') ∧
        same_outside w w' ∧ session_state w' = session_state w.
Proof.
  destruct f as [e|texts]; eexists; (split; [reflexivity|]);
    by repeat split.
Qed.

(** [generate_pressed] when the text of one of the documents is missing or
    empty: it returns, and the disk, the requests sent and the set mapping
    of the session are as before. *)
Lemma run_generate_pressed_failed (q a : UploadedFile) name w :
  session_state w !! "uploaded_question_pdf" = Some (Upload q) →
  session_state w !! "uploaded_answer_pdf" = Some (Upload a) →
  truthy_text (extracted q) = false ∨ truthy_text (extracted a) = false →
  ∃ w', run (main_page.generate_pressed instruction_prefix name) w
        = (Done (), w') ∧
        same_outside w w' ∧
        session_state w' !! "flashcard_sets" = session_state w !! "flashcard_sets".
Proof.
  intros Hq Ha Hfail. unfold main_page.generate_pressed.
  destruct (truthy (PyStr name)); cbn [negb];
    [|eexists; split; [reflexivity|]; by repeat split].
  assert (∀ t, truthy (PyStr t) = truthy_text (Some t)) as Htruthy by done.
  destruct q as [eq|qs], a as [ea|as_];
    cbn [extracted] in Hfail;
    repeat (first
      [ progress run_simpl
      | progress world_simpl
      | progress cbn [main_page.extract_text_from_pdf andb]
      | rewrite Hq | rewrite Ha
      | rewrite bool_decide_true by eauto
      | rewrite Htruthy
      | match goal with
        | |- context [truthy_text (Some ?t)] =>
            destruct (truthy_text (Some t)) eqn:?
        end ]);
    try (fold (document_text qs) in *); try (fold (document_text as_) in *);
    try (destruct Hfail; congruence);
    (eexists; split; [reflexivity|]; unfold same_outside; world_simpl;
     by repeat split).
Qed.

(** C8. When the extraction of text fails for one of the two uploaded
    documents, or for both (the extraction raised, or gave no text), the
    run in which Generate was pressed sends no request to Gemini, leaves
    the disk as it was, and leaves in the session the set mapping that
    rendering the widgets alone leaves there: the one the session had,
    when it had one. *)
Theorem C8_failed_extraction_skips_generation
    (q a : UploadedFile) (name : string) (w : World) :
  truthy_text (extracted q) = false ∨ truthy_text (extracted a) = false →
  let ui := press_generate q a name in
  let w' := after (main_page.main instruction_prefix ui) w in
  run (main_page.main instruction_prefix ui) w = (Done (), w') ∧
  requests w' = requests w ∧
  disk w' = disk w ∧
  session_state w' !! "flashcard_sets"
    = session_state (after (main_page.render_widgets ui) w) !! "flashcard_sets" ∧
  (∀ o, session_state w !! "flashcard_sets" = Some o →
        session_state w' !! "flashcard_sets" = Some o).
Proof.
  intros Hfail. cbn zeta. unfold after, main_page.main.
  destruct (run_render_widgets (press_generate q a name) w)
    as (w1 & Hrun & Hout & Hsets & Hq & Ha).
  cbn [press_generate main_page.uploaded_question_file
       main_page.uploaded_answer_file] in Hq, Ha.
  destruct (run_generate_pressed_failed q a name w1 Hq Ha Hfail)
    as (w2 & Hgen & Hout2 & Hsets2).
  rewrite run_bind, Hrun.
  cbn [press_generate main_page.generate_button_pressed
       main_page.load_button_pressed main_page.clear_button_pressed
       main_page.set_name when].
  rewrite run_bind, Hgen. run_simpl. cbn [snd].
  destruct Hout as (Hd1 & _ & Hr1 & _), Hout2 as (Hd2 & _ & Hr2 & _).
  split_and!; [done|by rewrite Hr2|by rewrite Hd2|done|].
  intros o Ho. rewrite Hsets2. by apply Hsets.
Qed.

Lemma run_session_discard k w :
  run (main_page.session_discard k) w
  = (Done (), set_session_state (delete k) w).
Proof.
  unfold main_page.session_discard. run_simpl.
  destruct (session_state w !! k) as [o|] eqn:Hk.
  - rewrite bool_decide_true by eauto. run_simpl. by rewrite Hk.
  - rewrite bool_decide_false by (by intros [??]). run_simpl.
    unfold set_session_state. rewrite delete_id by done. by destruct w.
Qed.

(** [clear_pressed] ends in a rerun with the file removed. *)
Lemma run_clear_pressed w :
  ∃ w', run main_page.clear_pressed w = (Rerun, w') ∧
        disk w' = delete main_page.FLASHCARDS_FILE (disk w) ∧
        session_state w' !! "flashcard_sets" = Some (Json (PyDict [])).
Proof.
  unfold main_page.clear_pressed.
  do 3 (rewrite run_bind; cbn [run session_set]).
  do 3 rewrite run_bind, run_session_discard.
  run_simpl. world_simpl.
  destruct (disk w !! main_page.FLASHCARDS_FILE) as [text|] eqn:Hfile.
  - rewrite bool_decide_true by eauto. run_simpl.
    eexists. split; [reflexivity|]. world_simpl. split; [done|].
    rewrite !lookup_delete_ne by done. by world_simpl.
  - rewrite bool_decide_false by (by intros [??]). run_simpl.
    eexists. split; [reflexivity|]. world_simpl. split.
    + symmetry. by apply delete_id.
    + rewrite !lookup_delete_ne by done. by world_simpl.
Qed.

(** C9. Clear All Data removes the flashcards file when it exists and
    leaves the disk as it is when it does not; no other file is touched;
    a load after it returns an empty mapping, on either page. *)
Theorem C9_clear_removes_file_load_gives_empty
    (q a : option UploadedFile) (name : string) (w : World) :
  let ui := press_clear q a name in
  let w' := after (main_page.main instruction_prefix ui) w in
  run (main_page.main instruction_prefix ui) w = (Rerun, w') ∧
  disk w' = delete main_page.FLASHCARDS_FILE (disk w) ∧
  (disk w !! main_page.FLASHCARDS_FILE = None → disk w' = disk w) ∧
  run main_page.load_flashcard_sets w' = (Done (PyDict []), w') ∧
  run flashcard_viewer.load_flashcard_sets w' = (Done (PyDict []), w').
Proof.
  cbn zeta. unfold after, main_page.main.
  destruct (run_render_widgets (press_clear q a name) w)
    as (w1 & Hrun & Hout & _).
  destruct (run_clear_pressed w1) as (w2 & Hclear & Hdisk & _).
  rewrite run_bind, Hrun.
  cbn [press_clear main_page.generate_button_pressed
       main_page.load_button_pressed main_page.clear_button_pressed when].
  run_simpl. rewrite Hclear. cbn [snd].
  destruct Hout as (Hd & _). rewrite Hd in Hdisk.
  assert (disk w2 !! main_page.FLASHCARDS_FILE = None) as Hgone.
  { rewrite Hdisk. apply lookup_delete_eq. }
  split_and!; [done|done| | |].
  - intros Hnone. rewrite Hdisk. by apply delete_id.
  - by apply run_load_missing.
  - by apply run_viewer_load_missing.
Qed.
End main_page_runs.

(** ** Storing a generated set *)






Lemma run_session_get_value k w :
  run (session_get_value k) w =
  match session_state w !! k with
  | Some (Json v) => (Done v, w)
  | Some (Upload _) => (Raised TypeError, w)
  | None => (Raised (KeyError k), w)
  end.
Proof.
  unfold session_get_value. run_simpl.
  by destruct (session_state w !! k) as [[v|f]|].
Qed.

Section stored.
Context `{!JsonLib}.
Variable instruction_prefix : string.

End stored.

Section generation_flow.
Context `{!JsonLib}.
Variable instruction_prefix : string.



End generation_flow.

(** ** The properties at concrete inputs *)


Lemma C2_witness :
  (0 < 3)%nat ∧
  (∃ p, session_state
          (after (navigation_controls 3 press_shuffle)
                 (example_world (ReplyFails "")))
          !! "shuffled_cards" = Some (Json (PyList (PyInt <$> p))) ∧
        permutation_of_range p 3) ∧
  (∀ content_hash cards,
     length cards = 3%nat →
     (∀ o, session_state (example_world (ReplyFails "")) !! "current_set_hash"
           = Some o →
           differs_from_int o (content_hash (PyList cards)) = true) →
     ∃ p, session_state
            (after (initialize_flashcard_viewer_state content_hash (PyList cards))
                   (example_world (ReplyFails "")))
            !! "shuffled_cards" = Some (Json (PyList (PyInt <$> p))) ∧
          permutation_of_range p 3).
Proof.
  split; [lia|].
  apply (C2_shuffle_is_permutation 3 (example_world (ReplyFails ""))). lia.
Defined.

Lemma C3_witness :
  0 < 3 ∧ cursor (example_world (ReplyFails "")) = Some 2 ∧
  cursor (after (navigation_controls 3 press_next)
                (example_world (ReplyFails ""))) = Some ((2 + 1) `mod` 3) ∧
  cursor (after (navigation_controls 3 press_previous)
                (example_world (ReplyFails ""))) = Some ((2 - 1) `mod` 3) ∧
  (2 = 3 - 1 →
   cursor (after (navigation_controls 3 press_next)
                 (example_world (ReplyFails ""))) = Some 0) ∧
  (2 = 0 →
   cursor (after (navigation_controls 3 press_previous)
                 (example_world (ReplyFails ""))) = Some (3 - 1)).
Proof.
  split; [lia|]. split; [reflexivity|].
  apply (C3_next_previous_wrap 3 2 (example_world (ReplyFails "")));
    [lia|reflexivity].
Defined.

Lemma C4_witness :
  (0 < 3)%nat ∧ cursor (example_world (ReplyFails "")) = Some 2 ∧
  run (navigation_controls (Z.of_nat 3) press_show_answer)
      (example_world (ReplyFails "")) =
    (Done (),
     set_session_state (insert "show_answer" (Json (PyBool true)))
       (example_world (ReplyFails ""))) ∧
  ∀ b, b ∈ [press_next; press_previous; press_shuffle] →
    let w' := after (navigation_controls (Z.of_nat 3) b)
                    (example_world (ReplyFails "")) in
    session_state w' !! "chat_history" = Some (Json (PyList [])) ∧
    session_state w' !! "show_answer" = Some (Json (PyBool false)).
Proof.
  split; [lia|]. split; [reflexivity|].
  apply (C4_reveal_keeps_rest_card_change_resets 3 2
           (example_world (ReplyFails ""))); [lia|reflexivity].
Defined.



Lemma C8_witness :
  (truthy_text (extracted (Unreadable "cannot open broken document")) = false ∨
   truthy_text (extracted example_answers) = false) ∧
  let ui := press_generate (Unreadable "cannot open broken document")
                           example_answers "Chapter 3" in
  let w' := after (main_page.main "Make flashcards." ui)
                  (example_world (ReplyText example_response)) in
  run (main_page.main "Make flashcards." ui)
      (example_world (ReplyText example_response)) = (Done (), w') ∧
  requests w' = requests (example_world (ReplyText example_response)) ∧
  disk w' = disk (example_world (ReplyText example_response)) ∧
  session_state w' !! "flashcard_sets"
    = session_state (after (main_page.render_widgets ui)
                           (example_world (ReplyText example_response)))
        !! "flashcard_sets" ∧
  (∀ o, session_state (example_world (ReplyText example_response))
          !! "flashcard_sets" = Some o →
        session_state w' !! "flashcard_sets" = Some o).
Proof.
  split; [by left|].
  apply (C8_failed_extraction_skips_generation "Make flashcards."
           (Unreadable "cannot open broken document") example_answers
           "Chapter 3" (example_world (ReplyText example_response))).
  by left.
Defined.



(** ** The model at work *)

(** The decoder on a few documents. *)
Example loads_array :
  RefJson.loads " [1, -20, true, null, [], {}] "
  = inr (PyList [PyInt 1; PyInt (-20); PyBool true; PyNone; PyList []; PyDict []]).
Proof. reflexivity. Qed.

Example loads_unclosed : RefJson.loads "[1, 2" = inl "Expecting value".
Proof. reflexivity. Qed.

Example loads_two_values : RefJson.loads "[] []" = inl "Extra data".
Proof. reflexivity. Qed.

Example loads_what_dumps_wrote :
  RefJson.loads (RefJson.dumps (PyDict example_sets)) = inr (PyDict example_sets).
Proof. by vm_compute. Qed.

(** The first lines the encoder writes for the example mapping. *)
Example dumps_first_lines :
  str_prefix
    ("{" +:+ nl +:+ "    " +:+ String RefJson.quote "Biology"
     +:+ String RefJson.quote ": [" +:+ nl +:+ "        {" +:+ nl)
    (RefJson.dumps (PyDict example_sets)) = true.
Proof. by vm_compute. Qed.

(** Shuffling three cards with the draws 3, 10, 17 of the example
    generator, and walking from the last position. *)
Example shuffle_three :
  session_state (after (navigation_controls 3 press_shuffle)
                       (example_world (ReplyFails "")))
    !! "shuffled_cards" = Some (Json (PyList [PyInt 0; PyInt 2; PyInt 1])).
Proof. by vm_compute. Qed.

Example next_from_last :
  cursor (after (navigation_controls 3 press_next)
                (example_world (ReplyFails ""))) = Some 0.
Proof. by vm_compute. Qed.

Example previous_twice_from_last :
  cursor (after (navigation_controls 3 press_previous)
           (after (navigation_controls 3 press_previous)
              (example_world (ReplyFails "")))) = Some 0.
Proof. by vm_compute. Qed.

(** With no cards there are no controls. *)
Example no_controls_without_cards (w : World) :
  run (navigation_controls 0 press_shuffle) w = (Done (), w).
Proof. reflexivity. Qed.

(** A file that holds no JSON document, and a file that is missing. *)
Example load_malformed_file :
  let w := set_disk (insert "flashcards.json" "{ oops")
                    (example_world (ReplyFails "")) in
  run main_page.load_flashcard_sets w =
  (Done (PyDict []),
   add_shown (StError "Error loading flashcard sets from flashcards.json: Expecting value") w).
Proof. by vm_compute. Qed.

Example load_missing_file :
  run main_page.load_flashcard_sets (example_world (ReplyFails ""))
  = (Done (PyDict []), example_world (ReplyFails "")).
Proof. by vm_compute. Qed.

(** Generate, then Clear All Data: the file is written, then removed. *)
Example generate_then_clear :
  let w1 := after (main_page.main "Make flashcards."
                     (press_generate example_questions example_answers "Chapter 3"))
                  (example_world (ReplyText example_response)) in
  let w2 := after (main_page.main "Make flashcards."
                     (press_clear (Some example_questions) (Some example_answers) ""))
                  w1 in
  disk w1 !! "flashcards.json"
    = Some (RefJson.dumps
              (PyDict [("Biology", PyList [example_card; example_steps]);
                       ("Chapter 3", PyList [example_card])])) ∧
  disk w2 !! "flashcards.json" = None ∧
  session_state w2 !! "flashcard_sets" = Some (Json (PyDict [])) ∧
  session_state w2 !! "last_set_name" = None.
Proof. by vm_compute. Qed.

(** A response that is a number is stored and saved, and the message that
    counts the cards then raises: [len] of an [int]. *)
Example number_for_cards :
  let w := example_world (ReplyText "7") in
  let r := run (main_page.main "Make flashcards."
                  (press_generate example_questions example_answers "Chapter 3")) w in
  r.1 = Raised TypeError ∧
  (session_state r.2 !! "flashcard_sets"
   = Some (Json (PyDict [("Biology", PyList [example_card; example_steps]);
                         ("Chapter 3", PyInt 7)]))).
Proof. by vm_compute. Qed.

(** * Further properties *)

(** ** Generation: what is required, what is stored, what is reported *)

Section generation_more.
Context `{!JsonLib}.
Variable instruction_prefix : string.

(** What [main] does after the widgets when only Generate was pressed. *)
Lemma run_main_generate ui w w1 :
  main_page.generate_button_pressed ui = true →
  main_page.load_button_pressed ui = false →
  main_page.clear_button_pressed ui = false →
  run (main_page.render_widgets ui) w = (Done (), w1) →
  run (main_page.main instruction_prefix ui) w =
  run (main_page.generate_pressed instruction_prefix (main_page.set_name ui)) w1.
Proof.
  intros Hg Hl Hc Hrun. unfold main_page.main.
  rewrite run_bind, Hrun, Hg, Hl, Hc. cbn [when].
  rewrite run_bind.
  destruct (run (main_page.generate_pressed _ _) w1) as [[[]| |e] w2]; done.
Qed.

(** X1. Generate needs a set name and both documents: without a name, or with
    a document that was never uploaded, the run does what rendering the
    widgets does and shows one warning. *)
Theorem generate_without_name_or_document_only_warns
    (ui : main_page.Widgets) (w : World) :
  main_page.generate_button_pressed ui = true →
  main_page.load_button_pressed ui = false →
  main_page.clear_button_pressed ui = false →
  main_page.set_name ui = "" ∨
  (main_page.uploaded_question_file ui = None ∧
   session_state w !! "uploaded_question_pdf" = None) ∨
  (main_page.uploaded_answer_file ui = None ∧
   session_state w !! "uploaded_answer_pdf" = None) →
  run (main_page.main instruction_prefix ui) w =
  (Done (),
   add_shown
     (StWarning
        (if bool_decide (main_page.set_name ui = "")
         then "Please enter a name for the flashcard set before generating."
         else "Please upload both the Question Paper and Scheme Answer PDFs."))
     (after (main_page.render_widgets ui) w)).
Proof.
  intros Hg Hl Hc Hmissing.
  destruct (run_render_widgets ui w) as (w1 & Hrun & _ & _ & Hq & Ha).
  rewrite (run_main_generate ui w w1) by done.
  unfold after. rewrite Hrun. cbn [snd].
  unfold main_page.generate_pressed.
  change (truthy (PyStr (main_page.set_name ui)))
    with (negb (bool_decide (main_page.set_name ui = ""))).
  case_bool_decide as Hname; cbn [negb]; [done|].
  destruct Hmissing as [?|[[Hui Hw]|[Hui Hw]]]; [done|..].
  - rewrite Hui, Hw in Hq. run_simpl. rewrite Hq.
    rewrite bool_decide_false by (by intros [??]). by run_simpl.
  - rewrite Hui, Hw in Ha. run_simpl.
    destruct (session_state w1 !! "uploaded_question_pdf");
      [rewrite bool_decide_true by eauto|
       rewrite bool_decide_false by (by intros [??])];
      run_simpl; rewrite ?Ha; rewrite ?bool_decide_false by (by intros [??]);
      by run_simpl.
Qed.

(** With both documents giving text, [generate_pressed] calls Gemini in the
    world [texts_extracted] and goes on with [store_and_report]. *)
Lemma run_generate_pressed_texts (qs as_ : list string) (name : string) w :
  session_state w !! "uploaded_question_pdf" = Some (Upload (Pages qs)) →
  session_state w !! "uploaded_answer_pdf" = Some (Upload (Pages as_)) →
  name ≠ "" → document_text qs ≠ "" → document_text as_ ≠ "" →
  run (main_page.generate_pressed instruction_prefix name) w =
  run (cards ← main_page.generate_flashcards_gemini instruction_prefix
                 (document_text qs) (document_text as_);
       store_and_report name cards)
      (texts_extracted (document_text qs) (document_text as_) w).
Proof.
  intros Hq Ha Hname Hqt Hat. unfold main_page.generate_pressed.
  assert (∀ t, t ≠ "" → truthy (PyStr t) = true) as Htruthy.
  { intros t Ht. cbn. by rewrite bool_decide_false. }
  rewrite (Htruthy name) by done. cbn [negb].
  repeat first
    [ rewrite run_bind
    | progress cbn [run mret script_ret st_info st_success session_has
                    session_get session_set]
    | progress world_simpl
    | progress cbn [main_page.extract_text_from_pdf andb]
    | progress fold (document_text qs)
    | progress fold (document_text as_)
    | rewrite Hq | rewrite Ha
    | rewrite bool_decide_true by eauto
    | rewrite (Htruthy (document_text qs)) by done
    | rewrite (Htruthy (document_text as_)) by done ].
  reflexivity.
Qed.

(** The same for [main], from the world the user pressed Generate in. *)
Lemma run_main_texts (qs as_ : list string) (name : string) w w1 :
  name ≠ "" → document_text qs ≠ "" → document_text as_ ≠ "" →
  run (main_page.render_widgets (press_generate (Pages qs) (Pages as_) name)) w
    = (Done (), w1) →
  run (main_page.main instruction_prefix
         (press_generate (Pages qs) (Pages as_) name)) w =
  run (cards ← main_page.generate_flashcards_gemini instruction_prefix
                 (document_text qs) (document_text as_);
       store_and_report name cards)
      (texts_extracted (document_text qs) (document_text as_) w1).
Proof.
  intros Hname Hqt Hat Hrun.
  destruct (run_render_widgets (press_generate (Pages qs) (Pages as_) name) w)
    as (w1' & Hrun' & _ & _ & Hq & Ha).
  rewrite Hrun in Hrun'. injection Hrun' as <-.
  rewrite (run_main_generate _ _ w1) by done.
  by apply run_generate_pressed_texts.
Qed.

(** What Gemini is asked and what comes back, with a key in the secrets. *)
Lemma run_generate_reply q a w key :
  secrets w = inr key →
  ∃ w', run (main_page.generate_flashcards_gemini instruction_prefix q a) w
        = (Done (generated
                   (gemini w (length (requests w))
                      (main_page.prompt_message instruction_prefix q a))), w') ∧
        session_state w' = session_state w ∧ disk w' = disk w ∧
        requests w' = requests w ++
                      [main_page.prompt_message instruction_prefix q a] ∧
        ∃ errors, shown w' = shown w ++ errors.
Proof.
  intros Hkey.
  rewrite (run_generate instruction_prefix q a w key _ Hkey eq_refl). cbn zeta.
  destruct (gemini w _ _) as [e|json_string]; cbn [generated].
  - eexists. split; [reflexivity|]. world_simpl. split_and!; [done..|].
    by eexists.
  - destruct (json_loads json_string) as [e|v];
      (eexists; split; [reflexivity|]; world_simpl; split_and!; [done..|]).
    + by eexists.
    + exists []. by rewrite app_nil_r.
Qed.

Lemma dict_get_is_Some k (d : list (string * value)) :
  k ∈ d.*1 ↔ is_Some (dict_get k d).
Proof.
  induction d as [|[k' v'] d IH]; cbn [dict_get fmap list_fmap fst].
  - split; [by intros ?%elem_of_nil|by intros [??]].
  - destruct (decide (k = k')) as [->|Hne].
    + split; [eauto|]. intros _. by left.
    + rewrite elem_of_cons. fold (fmap (M:=list) (@fst string value)).
      rewrite <- IH. split; [intros [?|?]; done|by right].
Qed.


(** [store_and_report] for a value that counts as false: a warning, and
    the report is on what the mapping holds under the name already. *)
Lemma run_store_falsy name v d w :
  truthy v = false →
  session_state w !! "flashcard_sets" = Some (Json (PyDict d)) →
  run (store_and_report name v) w =
  let w' := add_shown no_cards_warning w in
  match dict_get name d with
  | Some old =>
      if truthy old then
        match py_len old with
        | Some n =>
            (Done (), add_shown go_to_viewer_info
                        (add_shown (generated_success n name) w'))
        | None => (Raised TypeError, w')
        end
      else (Done (), add_shown nothing_generated_warning w')
  | None => (Done (), add_shown nothing_generated_warning w')
  end.
Proof.
  intros Hv Hsets. unfold store_and_report. rewrite Hv.
  repeat first
    [ progress run_simpl
    | progress world_simpl
    | progress cbn [py_contains py_getitem]
    | rewrite Hsets
    | rewrite run_session_get_value ].
  cbn zeta. destruct (dict_get name d) as [old|] eqn:Hold.
  - rewrite bool_decide_true by (apply dict_get_is_Some; rewrite Hold; eauto).
    run_simpl. destruct (truthy old); [|done].
    run_simpl. by destruct (py_len old).
  - rewrite bool_decide_false; [done|].
    rewrite dict_get_is_Some, Hold. by intros [??].
Qed.

(** The run of the page up to the point where the cards are there. *)
Lemma run_main_cards (qs as_ : list string) (name key : string) (o : PyObj) w :
  name ≠ "" → document_text qs ≠ "" → document_text as_ ≠ "" →
  secrets w = inr key →
  session_state w !! "flashcard_sets" = Some o →
  ∃ w3,
    run (main_page.main instruction_prefix
           (press_generate (Pages qs) (Pages as_) name)) w =
    run (store_and_report name
           (generated (gemini w (length (requests w))
                         (main_page.prompt_message instruction_prefix
                            (document_text qs) (document_text as_))))) w3 ∧
    session_state w3 !! "flashcard_sets" = Some o ∧
    disk w3 = disk w.
Proof.
  intros Hname Hqt Hat Hkey Hsets.
  destruct (run_render_widgets (press_generate (Pages qs) (Pages as_) name) w)
    as (w1 & Hrun & (Hd & _ & Hr & Hs & Hg) & Hkept & _).
  rewrite (run_main_texts qs as_ name w w1) by done.
  set (w2 := texts_extracted _ _ w1).
  assert (secrets w2 = inr key) as Hkey2 by (by rewrite <- Hkey, <- Hs).
  assert (gemini w2 (length (requests w2)) = gemini w (length (requests w)))
    as Hreply by (unfold w2, texts_extracted; world_simpl; by rewrite Hr, Hg).
  destruct (run_generate_reply (document_text qs) (document_text as_) w2 key Hkey2)
    as (w3 & Hgen & Hsess3 & Hdisk3 & _).
  exists w3. rewrite run_bind, Hgen, Hreply. split_and!; [done| |].
  - rewrite Hsess3. unfold w2, texts_extracted. world_simpl. by apply Hkept.
  - by rewrite Hdisk3, <- Hd.
Qed.


(** X3. When nothing comes of the generation (Gemini fails, its response is no
    JSON document, or it parses to a value that counts as false), the
    mapping and the disk stay as they are, and the report is on what the
    mapping holds already: with a set of [n > 0] cards under the name, the
    page says that [n] flashcards were generated. *)
Theorem failed_generation_reports_old_set
    (qs as_ : list string) (name key : string)
    (d : list (string * value)) (old : list value) (w : World) :
  name ≠ "" → document_text qs ≠ "" → document_text as_ ≠ "" →
  secrets w = inr key →
  session_state w !! "flashcard_sets" = Some (Json (PyDict d)) →
  truthy (generated (gemini w (length (requests w))
                       (main_page.prompt_message instruction_prefix
                          (document_text qs) (document_text as_)))) = false →
  dict_get name d = Some (PyList old) → old ≠ [] →
  let r := run (main_page.main instruction_prefix
                  (press_generate (Pages qs) (Pages as_) name)) w in
  r.1 = Done () ∧
  session_state r.2 !! "flashcard_sets" = Some (Json (PyDict d)) ∧
  disk r.2 = disk w ∧
  ∃ earlier,
    shown r.2 = earlier ++ [no_cards_warning;
                            generated_success (length old) name;
                            go_to_viewer_info].
Proof.
  intros Hname Hqt Hat Hkey Hsets Hcards Hold Hne. cbn zeta.
  destruct (run_main_cards qs as_ name key _ w Hname Hqt Hat Hkey Hsets)
    as (w3 & -> & Hsets3 & Hdisk3).
  rewrite (run_store_falsy name _ d w3) by done.
  cbn zeta. rewrite Hold.
  assert (truthy (PyList old) = true) as -> by (by destruct old).
  cbn [py_len]. world_simpl. split_and!; [done..|].
  exists (shown w3). by rewrite <- !app_assoc.
Qed.

(** X4. The same run when the mapping has nothing under the name: two
    warnings, and nothing else changes. *)
Theorem failed_generation_changes_nothing
    (qs as_ : list string) (name key : string)
    (d : list (string * value)) (w : World) :
  name ≠ "" → document_text qs ≠ "" → document_text as_ ≠ "" →
  secrets w = inr key →
  session_state w !! "flashcard_sets" = Some (Json (PyDict d)) →
  truthy (generated (gemini w (length (requests w))
                       (main_page.prompt_message instruction_prefix
                          (document_text qs) (document_text as_)))) = false →
  dict_get name d = None →
  let r := run (main_page.main instruction_prefix
                  (press_generate (Pages qs) (Pages as_) name)) w in
  r.1 = Done () ∧
  session_state r.2 !! "flashcard_sets" = Some (Json (PyDict d)) ∧
  disk r.2 = disk w ∧
  ∃ earlier,
    shown r.2 = earlier ++ [no_cards_warning; nothing_generated_warning].
Proof.
  intros Hname Hqt Hat Hkey Hsets Hcards Hold. cbn zeta.
  destruct (run_main_cards qs as_ name key _ w Hname Hqt Hat Hkey Hsets)
    as (w3 & -> & Hsets3 & Hdisk3).
  rewrite (run_store_falsy name _ d w3) by done.
  cbn zeta. rewrite Hold. world_simpl. split_and!; [done..|].
  exists (shown w3). by rewrite <- !app_assoc.
Qed.
End generation_more.

(** ** The Load and Clear buttons, and the start of a session *)

Section buttons_more.
Context `{!JsonLib}.
Variable instruction_prefix : string.

(** [render_widgets] writes to six slots of the session at most. *)
Lemma run_render_widgets_other ui w k :
  k ≠ "flashcard_sets" → k ≠ "question_text" → k ≠ "answer_text" →
  k ≠ "last_set_name" → k ≠ "uploaded_question_pdf" →
  k ≠ "uploaded_answer_pdf" →
  session_state (after (main_page.render_widgets ui) w) !! k
  = session_state w !! k.
Proof.
  intros ? ? ? ? ? ?. unfold after, main_page.render_widgets. rewrite run_bind.
  destruct (run_default_flashcard_sets w) as (w1 & -> & _ & Hother & _).
  rewrite run_bind, run_session_default_ret.
  rewrite run_bind, run_session_default_ret.
  rewrite run_bind, run_session_default_ret.
  set (w4 := default_world "last_set_name" _ _).
  assert (session_state w4 !! k = session_state w !! k) as Hother4.
  { unfold w4. rewrite !lookup_default_world_ne by done. by apply Hother. }
  destruct (lookup_default_world_eq "last_set_name" (Json (PyStr ""))
              (default_world "answer_text" (Json (PyStr ""))
                 (default_world "question_text" (Json (PyStr "")) w1)))
    as [name Hname].
  fold w4 in Hname. clearbody w4.
  destruct ui as [[qf|] [af|] name' g l c];
    cbn [main_page.uploaded_question_file main_page.uploaded_answer_file
         main_page.set_name];
    run_simpl; world_simpl; rewrite ?Hname; run_simpl;
    (destruct (truthy (PyStr name')); run_simpl; by world_simpl).
Qed.

(** After its first line, [render_widgets] leaves the set mapping alone. *)
Lemma keeps_sets_after_default ui w :
  session_state (after (main_page.render_widgets ui) w) !! "flashcard_sets"
  = session_state
      (after (main_page.session_default "flashcard_sets"
                (sets ← main_page.load_flashcard_sets; mret (Json sets))) w)
      !! "flashcard_sets".
Proof.
  unfold after, main_page.render_widgets. rewrite run_bind.
  destruct (run_default_flashcard_sets w) as (w1 & -> & _).
  rewrite run_bind, run_session_default_ret.
  rewrite run_bind, run_session_default_ret.
  rewrite run_bind, run_session_default_ret.
  set (w4 := default_world "last_set_name" _ _).
  assert (session_state w4 !! "flashcard_sets"
          = session_state w1 !! "flashcard_sets") as Hsets4.
  { unfold w4. by rewrite !lookup_default_world_ne by done. }
  destruct (lookup_default_world_eq "last_set_name" (Json (PyStr ""))
              (default_world "answer_text" (Json (PyStr ""))
                 (default_world "question_text" (Json (PyStr "")) w1)))
    as [name Hname].
  fold w4 in Hname. clearbody w4.
  destruct ui as [[qf|] [af|] name' g l c];
    cbn [main_page.uploaded_question_file main_page.uploaded_answer_file
         main_page.set_name];
    run_simpl; world_simpl; rewrite ?Hname; run_simpl;
    (destruct (truthy (PyStr name')); run_simpl; by world_simpl).
Qed.

(** What [load_pressed] does with what [load_flashcard_sets] returns. *)
Lemma run_load_pressed w sets w1 :
  run main_page.load_flashcard_sets w = (Done sets, w1) →
  run main_page.load_pressed w =
  let w2 := set_session_state (insert "flashcard_sets" (Json sets)) w1 in
  if truthy sets then
    match py_len sets with
    | Some n =>
        (Rerun,
         add_shown (StInfo "Navigate to the **'Flashcard viewer'** page in the sidebar to review them.")
           (add_shown (StSuccess ("Loaded " +:+ pretty n
                                  +:+ " flashcard sets from file!")) w2))
    | None => (Raised TypeError, w2)
    end
  else
    (Rerun,
     add_shown (StInfo "No saved flashcard sets found or an error occurred during loading.")
       w2).
Proof.
  intros Hload. unfold main_page.load_pressed. rewrite run_bind, Hload.
  run_simpl. rewrite run_session_get_value. world_simpl. run_simpl.
  cbn zeta. destruct (truthy sets); run_simpl; [|done].
  by destruct (py_len sets).
Qed.

(** What [main] does after the widgets when Load was pressed and Generate
    was not: [load_pressed] never returns, so nothing follows it. *)
Lemma run_main_load ui w w1 :
  main_page.generate_button_pressed ui = false →
  main_page.load_button_pressed ui = true →
  run (main_page.render_widgets ui) w = (Done (), w1) →
  run (main_page.main instruction_prefix ui) w = run main_page.load_pressed w1.
Proof.
  intros Hg Hl Hrun. unfold main_page.main.
  rewrite run_bind, Hrun, Hg, Hl. cbn [when]. run_simpl.
  destruct (run_load_total w1) as (sets & w2 & Hload & _).
  rewrite (run_load_pressed w1 sets w2 Hload). cbn zeta.
  destruct (truthy sets); [|done]. by destruct (py_len sets).
Qed.

(** X5. Load Saved Flashcards with a file that holds a mapping with at least
    one set: the session holds that mapping afterwards, whatever it held
    before, the number of sets is reported, and the run ends in a rerun. *)
Theorem load_button_takes_mapping_from_file
    (q a : option UploadedFile) (name text : string)
    (d : list (string * value)) (w : World) :
  disk w !! main_page.FLASHCARDS_FILE = Some text →
  json_loads text = inr (PyDict d) → d ≠ [] →
  let r := run (main_page.main instruction_prefix (press_load q a name)) w in
  r.1 = Rerun ∧
  session_state r.2 !! "flashcard_sets" = Some (Json (PyDict d)) ∧
  disk r.2 = disk w ∧
  ∃ earlier,
    shown r.2 = earlier ++
      [StSuccess ("Loaded " +:+ pretty (length d) +:+ " flashcard sets from file!");
       StInfo "Navigate to the **'Flashcard viewer'** page in the sidebar to review them."].
Proof.
  intros Hfile Hjson Hd. cbn zeta.
  destruct (run_render_widgets (press_load q a name) w)
    as (w1 & Hrun & (Hdisk & _) & _).
  rewrite (run_main_load _ w w1) by done.
  assert (run main_page.load_flashcard_sets w1 = (Done (PyDict d), w1)) as Hload.
  { rewrite (run_load_present w1 text) by (by rewrite Hdisk). by rewrite Hjson. }
  rewrite (run_load_pressed w1 _ w1 Hload). cbn zeta.
  assert (truthy (PyDict d) = true) as -> by (by destruct d).
  cbn [py_len]. world_simpl. split_and!; [done..|].
  exists (shown w1). by rewrite <- app_assoc.
Qed.

(** X6. Load Saved Flashcards without a readable file: when the file is
    missing, or its text is no JSON document, the sets of the session are
    replaced by an empty mapping. *)
Theorem load_button_without_file_empties_session
    (q a : option UploadedFile) (name : string) (w : World) :
  disk w !! main_page.FLASHCARDS_FILE = None ∨
  (∃ text e, disk w !! main_page.FLASHCARDS_FILE = Some text ∧
             json_loads text = inl e) →
  let r := run (main_page.main instruction_prefix (press_load q a name)) w in
  r.1 = Rerun ∧
  session_state r.2 !! "flashcard_sets" = Some (Json (PyDict [])) ∧
  disk r.2 = disk w ∧
  ∃ earlier,
    shown r.2 = earlier ++
      [StInfo "No saved flashcard sets found or an error occurred during loading."].
Proof.
  intros Hfile. cbn zeta.
  destruct (run_render_widgets (press_load q a name) w)
    as (w1 & Hrun & (Hdisk & _) & _).
  rewrite (run_main_load _ w w1) by done.
  destruct Hfile as [Hnone|(text & e & Hsome & Hjson)].
  - assert (run main_page.load_flashcard_sets w1 = (Done (PyDict []), w1))
      as Hload by (apply run_load_missing; by rewrite Hdisk).
    rewrite (run_load_pressed w1 _ w1 Hload). cbn zeta. cbn [truthy fmap list_fmap].
    rewrite bool_decide_true by done. cbn [negb]. world_simpl.
    split_and!; [done..|]. by eexists.
  - pose proof (run_load_present w1 text) as Hload.
    rewrite Hdisk, Hjson in Hload. specialize (Hload Hsome).
    rewrite (run_load_pressed w1 _ _ Hload). cbn zeta. cbn [truthy fmap list_fmap].
    rewrite bool_decide_true by done. cbn [negb]. world_simpl.
    split_and!; [done..|]. by eexists.
Qed.

(** X7. Load Saved Flashcards with a file that holds a number other than zero,
    or [true]: the value is put into the session, and the report on its
    length ends the run with a [TypeError]. *)
Theorem load_button_raises_on_number
    (q a : option UploadedFile) (name text : string) (v : value) (w : World) :
  disk w !! main_page.FLASHCARDS_FILE = Some text →
  json_loads text = inr v → truthy v = true → py_len v = None →
  let r := run (main_page.main instruction_prefix (press_load q a name)) w in
  r.1 = Raised TypeError ∧
  session_state r.2 !! "flashcard_sets" = Some (Json v).
Proof.
  intros Hfile Hjson Hv Hlen. cbn zeta.
  destruct (run_render_widgets (press_load q a name) w)
    as (w1 & Hrun & (Hdisk & _) & _).
  rewrite (run_main_load _ w w1) by done.
  assert (run main_page.load_flashcard_sets w1 = (Done v, w1)) as Hload.
  { rewrite (run_load_present w1 text) by (by rewrite Hdisk). by rewrite Hjson. }
  rewrite (run_load_pressed w1 _ w1 Hload). cbn zeta. rewrite Hv, Hlen.
  by world_simpl.
Qed.

(** The world [clear_pressed] leaves. *)
Lemma run_clear_world w :
  run main_page.clear_pressed w =
  let w1 :=
    add_shown (StSuccess "All current flashcards and session data cleared.")
      (set_session_state
         (λ s, delete "last_set_name"
                 (delete "uploaded_answer_pdf"
                    (delete "uploaded_question_pdf"
                       (<["answer_text" := Json (PyStr "")]>
                          (<["question_text" := Json (PyStr "")]>
                             (<["flashcard_sets" := Json (PyDict [])]> s))))))
         w) in
  (Rerun,
   if bool_decide (is_Some (disk w !! main_page.FLASHCARDS_FILE)) then
     add_shown (StInfo ("Removed saved flashcards file: "
                        +:+ main_page.FLASHCARDS_FILE))
       (set_disk (delete main_page.FLASHCARDS_FILE) w1)
   else w1).
Proof.
  unfold main_page.clear_pressed.
  do 3 (rewrite run_bind; cbn [run session_set]).
  do 3 rewrite run_bind, run_session_discard.
  run_simpl. world_simpl. cbn zeta.
  by case_bool_decide; run_simpl.
Qed.

(** The session [clear_pressed] leaves. *)
Lemma clear_pressed_session w :
  session_state (after main_page.clear_pressed w) =
  delete "last_set_name"
    (delete "uploaded_answer_pdf"
       (delete "uploaded_question_pdf"
          (<["answer_text" := Json (PyStr "")]>
             (<["question_text" := Json (PyStr "")]>
                (<["flashcard_sets" := Json (PyDict [])]> (session_state w)))))).
Proof.
  unfold after. rewrite run_clear_world. cbn zeta. by case_bool_decide.
Qed.

(** X8. Clear All Data resets six slots of the session: the set mapping is
    empty, the two texts are empty, the two documents and the remembered
    set name are gone.  Every other slot, so all that the viewer page
    keeps of the set under review, stays as it was. *)
Theorem clear_button_resets_six_slots
    (q a : option UploadedFile) (name : string) (w : World) :
  let w' := after (main_page.main instruction_prefix (press_clear q a name)) w in
  session_state w' !! "flashcard_sets" = Some (Json (PyDict [])) ∧
  session_state w' !! "question_text" = Some (Json (PyStr "")) ∧
  session_state w' !! "answer_text" = Some (Json (PyStr "")) ∧
  session_state w' !! "uploaded_question_pdf" = None ∧
  session_state w' !! "uploaded_answer_pdf" = None ∧
  session_state w' !! "last_set_name" = None ∧
  ∀ k, k ∉ ["flashcard_sets"; "question_text"; "answer_text";
            "uploaded_question_pdf"; "uploaded_answer_pdf"; "last_set_name"] →
       session_state w' !! k = session_state w !! k.
Proof.
  cbn zeta.
  pose proof (run_render_widgets_other (press_clear q a name) w) as Hother.
  destruct (run_render_widgets (press_clear q a name) w) as (w1 & Hrun & _).
  assert (after (main_page.main instruction_prefix (press_clear q a name)) w
          = after main_page.clear_pressed w1) as ->.
  { unfold after, main_page.main. rewrite run_bind, Hrun.
    cbn [press_clear main_page.generate_button_pressed
         main_page.load_button_pressed main_page.clear_button_pressed when].
    run_simpl. by rewrite run_clear_world. }
  unfold after in Hother. rewrite Hrun in Hother. cbn [snd] in Hother.
  rewrite clear_pressed_session.
  split_and!; [by simplify_map_eq..|].
  intros k Hk. repeat (apply not_elem_of_cons in Hk as [? Hk]).
  rewrite !lookup_delete_ne, !lookup_insert_ne by done. by apply Hother.
Qed.
End buttons_more.

(** ** What the pages leave alone *)

Lemma keeps_bind {A B C} (f : World → C) (m : Script A) (k : A → Script B) :
  keeps f m → (∀ a, keeps f (k a)) → keeps f (m ≫= k).
Proof.
  intros Hm Hk w. unfold after. rewrite run_bind.
  specialize (Hm w). unfold after in Hm.
  destruct (run m w) as [[a| |e] w1]; cbn [snd] in *; [|done..].
  rewrite <- Hm. apply Hk.
Qed.

Lemma keeps_ret {A B} (f : World → B) (a : A) : keeps f (mret a).
Proof. done. Qed.

Lemma keeps_when {B} (f : World → B) c m : keeps f m → keeps f (when c m).
Proof. by destruct c. Qed.

Lemma keeps_session_get {B} (f : World → B) k : keeps f (session_get k).
Proof. intros w. unfold after. cbn. by destruct (session_state w !! k). Qed.

Lemma keeps_session_get_value {B} (f : World → B) k :
  keeps f (session_get_value k).
Proof.
  intros w. unfold after. rewrite run_session_get_value.
  by destruct (session_state w !! k) as [[]|].
Qed.

Lemma keeps_lift_exn {A B} (f : World → B) (r : Exn + A) : keeps f (lift_exn r).
Proof. by destruct r. Qed.

Lemma keeps_lift_type_error {A B} (f : World → B) (r : option A) :
  keeps f (lift_type_error r).
Proof. by destruct r. Qed.

Lemma keeps_sample_pool {A B} (f : World → B) steps :
  (∀ g w, f (set_rng g w) = f w) →
  ∀ i n (pool result : list A), keeps f (sample_pool steps i n pool result).
Proof.
  intros Hf. induction steps as [|steps IH]; intros i n pool result;
    cbn [sample_pool]; [done|].
  apply keeps_bind; [intros w; apply Hf|]. intros j.
  destruct (pool !! j); [|done]. destruct (pool !! _); [|done]. apply IH.
Qed.

Lemma keeps_random_sample {A B} (f : World → B) (population : list A) k :
  (∀ g w, f (set_rng g w) = f w) → keeps f (random_sample population k).
Proof.
  intros Hf. unfold random_sample. cbn zeta.
  case_bool_decide; [by apply keeps_sample_pool|done].
Qed.

(** One step of a proof that a script keeps something: through a bind or
    a branch, or a primitive whose effect on the world is computed. *)
Ltac keeps_step :=
  lazymatch goal with
  | |- keeps _ (_ ≫= _) => apply keeps_bind; [|intros ?]
  | |- keeps _ (mret _) => apply keeps_ret
  | |- keeps _ (when ?c _) => apply keeps_when
  | |- keeps _ (session_get _) => apply keeps_session_get
  | |- keeps _ (session_get_value _) => apply keeps_session_get_value
  | |- keeps _ (lift_exn _) => apply keeps_lift_exn
  | |- keeps _ (lift_type_error _) => apply keeps_lift_type_error
  | |- keeps _ (random_sample _ _) =>
      apply keeps_random_sample; intros ??; reflexivity
  | |- keeps _ (if ?c then _ else _) => destruct c
  | |- keeps _ (match ?x with _ => _ end) => destruct x
  | |- keeps _ _ =>
      let w := fresh "w" in
      intros w; unfold after, slot; cbn; world_simpl;
      repeat case_match; world_simpl;
      first [ reflexivity | by rewrite ?lookup_insert_ne, ?lookup_delete_ne by done ]
  end.

(** [main] with all it calls unfolded. *)
Ltac unfold_main :=
  unfold main_page.main, main_page.render_widgets, main_page.session_default,
    main_page.generate_pressed, main_page.load_pressed, main_page.clear_pressed,
    main_page.session_discard, main_page.load_flashcard_sets,
    main_page.save_flashcard_sets, main_page.generate_flashcards_gemini,
    main_page.extract_text_from_pdf, json_load, json_dump.

Section keeps_more.
Context `{!JsonLib}.
Variable instruction_prefix : string.
Variable content_hash : value → Z.

Lemma keeps_store_and_report_requests name cards :
  keeps requests (store_and_report name cards).
Proof.
  unfold store_and_report, main_page.save_flashcard_sets, json_dump.
  repeat keeps_step.
Qed.


Lemma keeps_main_rng ui : keeps rng (main_page.main instruction_prefix ui).
Proof. unfold_main. repeat keeps_step. Qed.

Lemma keeps_main_secrets ui : keeps secrets (main_page.main instruction_prefix ui).
Proof. unfold_main. repeat keeps_step. Qed.

Lemma keeps_main_slot ui k :
  k ∉ main_page_slots → keeps (slot k) (main_page.main instruction_prefix ui).
Proof.
  intros Hk. unfold main_page_slots in Hk.
  repeat (apply not_elem_of_cons in Hk as [? Hk]).
  unfold_main. repeat keeps_step.
Qed.

Lemma keeps_navigation_slot n b k :
  k ∉ review_slots → keeps (slot k) (navigation_controls n b).
Proof.
  intros Hk. unfold review_slots in Hk.
  repeat (apply not_elem_of_cons in Hk as [? Hk]).
  unfold navigation_controls. repeat keeps_step.
Qed.

Lemma keeps_navigation_outside n b :
  keeps (λ w, (disk w, shown w, requests w)) (navigation_controls n b).
Proof. unfold navigation_controls. repeat keeps_step. Qed.

Lemma keeps_navigation_order n b :
  shuffle_cards b = false →
  keeps (λ w, (slot "shuffled_cards" w, rng w)) (navigation_controls n b).
Proof.
  intros Hb. unfold navigation_controls. rewrite Hb. cbn [when].
  repeat keeps_step.
Qed.

(** X10. The main page writes to six slots of the session and to no other,
    whatever was pressed and however the run ends; and it draws no random
    number.  So nothing it does disturbs a review that is under way on the
    other page. *)
Theorem main_page_keeps_other_slots
    (ui : main_page.Widgets) (k : string) (w : World) :
  k ∉ main_page_slots →
  let w' := after (main_page.main instruction_prefix ui) w in
  session_state w' !! k = session_state w !! k ∧ rng w' = rng w.
Proof.
  intros Hk. split.
  - by apply keeps_main_slot.
  - apply keeps_main_rng.
Qed.

(** X11. The controls of the review view write to four slots of the session
    and to no other; they read and write no file, show no message and send
    nothing to Gemini; and unless Shuffle was pressed, the order of the
    cards and the random generator stay as they are.  This holds for every
    combination of buttons and however the run ends. *)
Theorem navigation_keeps_the_rest (n : Z) (b : NavButtons) (w : World) :
  let w' := after (navigation_controls n b) w in
  (∀ k, k ∉ review_slots → session_state w' !! k = session_state w !! k) ∧
  disk w' = disk w ∧ shown w' = shown w ∧ requests w' = requests w ∧
  (shuffle_cards b = false →
   session_state w' !! "shuffled_cards" = session_state w !! "shuffled_cards" ∧
   rng w' = rng w).
Proof.
  cbn zeta. split_and!.
  - intros k Hk. by apply keeps_navigation_slot.
  - by pose proof (keeps_navigation_outside n b w) as [= ? ? ?].
  - by pose proof (keeps_navigation_outside n b w) as [= ? ? ?].
  - by pose proof (keeps_navigation_outside n b w) as [= ? ? ?].
  - intros Hb. by pose proof (keeps_navigation_order n b Hb w) as [= ? ?].
Qed.

(** Without a key in the secrets, [generate_flashcards_gemini] shows the
    error and returns an empty list. *)
Lemma run_generate_no_key q a w err :
  secrets w = inl err →
  run (main_page.generate_flashcards_gemini instruction_prefix q a) w =
  (Done (PyList []),
   add_shown (StError ("An error occurred during Gemini flashcard generation: "
                       +:+ err)) w).
Proof.
  intros Hkey. unfold main_page.generate_flashcards_gemini.
  rewrite run_bind. cbn [run main_page.read_api_key]. by rewrite Hkey.
Qed.

Lemma keeps_store_nothing name :
  keeps (λ w, (session_state w, disk w, requests w))
        (store_and_report name (PyList [])).
Proof.
  unfold store_and_report. change (truthy (PyList [])) with false.
  repeat keeps_step.
Qed.

Lemma shown_store_nothing name w :
  shown w `prefix_of` shown (after (store_and_report name (PyList [])) w).
Proof.
  unfold store_and_report, after. change (truthy (PyList [])) with false.
  run_simpl. rewrite run_session_get_value. world_simpl.
  destruct (session_state w !! "flashcard_sets") as [[v|f]|];
    [|by apply prefix_app_r..].
  destruct (py_contains name v) as [[]|]; run_simpl;
    [| |by apply prefix_app_r].
  - destruct (py_getitem v name) as [e|x]; run_simpl; [by apply prefix_app_r|].
    destruct (truthy x); run_simpl.
    + destruct (py_len x); run_simpl; world_simpl;
        [rewrite <- !app_assoc|]; by apply prefix_app_r.
    + world_simpl. rewrite <- !app_assoc. by apply prefix_app_r.
  - world_simpl. rewrite <- !app_assoc. by apply prefix_app_r.
Qed.

(** X12. A generation sends one request to Gemini, with the texts of the two
    documents in its prompt, whatever becomes of the response. *)
Theorem generation_sends_one_request
    (qs as_ : list string) (name key : string) (w : World) :
  name ≠ "" → document_text qs ≠ "" → document_text as_ ≠ "" →
  secrets w = inr key →
  requests (after (main_page.main instruction_prefix
                     (press_generate (Pages qs) (Pages as_) name)) w)
  = requests w ++ [main_page.prompt_message instruction_prefix
                     (document_text qs) (document_text as_)].
Proof.
  intros Hname Hqt Hat Hkey. unfold after.
  destruct (run_render_widgets (press_generate (Pages qs) (Pages as_) name) w)
    as (w1 & Hrun & (_ & _ & Hr & Hs & _) & _).
  rewrite (run_main_texts instruction_prefix qs as_ name w w1) by done.
  set (w2 := texts_extracted _ _ w1).
  assert (secrets w2 = inr key) as Hkey2 by (by rewrite <- Hkey, <- Hs).
  destruct (run_generate_reply instruction_prefix
              (document_text qs) (document_text as_) w2 key Hkey2)
    as (w3 & Hgen & _ & _ & Hreq & _).
  rewrite run_bind, Hgen.
  pose proof (keeps_store_and_report_requests name
                (generated (gemini w2 (length (requests w2))
                   (main_page.prompt_message instruction_prefix
                      (document_text qs) (document_text as_)))) w3) as Hkeeps.
  unfold after in Hkeeps. rewrite Hkeeps, Hreq.
  by rewrite <- Hr.
Qed.

(** X13. Without an API key in the secrets, Generate shows the error of the
    look-up, sends nothing to Gemini, and leaves the file and the set
    mapping of the session as they are. *)
Theorem missing_api_key_sends_and_stores_nothing
    (qs as_ : list string) (name err : string) (w : World) :
  name ≠ "" → document_text qs ≠ "" → document_text as_ ≠ "" →
  secrets w = inl err →
  let w' := after (main_page.main instruction_prefix
                     (press_generate (Pages qs) (Pages as_) name)) w in
  requests w' = requests w ∧ disk w' = disk w ∧
  (∀ o, session_state w !! "flashcard_sets" = Some o →
        session_state w' !! "flashcard_sets" = Some o) ∧
  StError ("An error occurred during Gemini flashcard generation: " +:+ err)
    ∈ shown w'.
Proof.
  intros Hname Hqt Hat Hkey. cbn zeta. unfold after.
  destruct (run_render_widgets (press_generate (Pages qs) (Pages as_) name) w)
    as (w1 & Hrun & (Hd & _ & Hr & Hs & _) & Hkept & _).
  rewrite (run_main_texts instruction_prefix qs as_ name w w1) by done.
  set (w2 := texts_extracted _ _ w1).
  rewrite run_bind, (run_generate_no_key _ _ w2 err) by (by rewrite <- Hkey, <- Hs).
  set (w3 := add_shown _ w2).
  pose proof (keeps_store_nothing name w3) as [= Hsess Hdisk Hreq].
  unfold after in *. split_and!.
  - by rewrite Hreq, <- Hr.
  - by rewrite Hdisk, <- Hd.
  - intros o Ho. rewrite Hsess. world_simpl. by apply Hkept.
  - destruct (shown_store_nothing name w3) as [more Hmore].
    unfold after in Hmore. rewrite Hmore. unfold w3. world_simpl. rewrite !elem_of_app.
    left; right. by left.
Qed.
End keeps_more.

(** ** The start of a session *)

Section session_start.
Context `{!JsonLib}.
Variable instruction_prefix : string.

(** X9. A run of the main page with no button pressed returns.  A session
    that has a set mapping keeps it, whatever the file holds by now; a
    session that has none, as a new one, takes what was saved to the
    file. *)
Theorem session_start_takes_saved_sets
    (q a : option UploadedFile) (name : string) (w : World) :
  let ui := press_nothing q a name in
  let w' := after (main_page.main instruction_prefix ui) w in
  run (main_page.main instruction_prefix ui) w = (Done (), w') ∧
  disk w' = disk w ∧
  (∀ o, session_state w !! "flashcard_sets" = Some o →
        session_state w' !! "flashcard_sets" = Some o) ∧
  (∀ m, session_state w !! "flashcard_sets" = None →
        wf_value m →
        disk w !! main_page.FLASHCARDS_FILE = Some (json_dumps m) →
        session_state w' !! "flashcard_sets" = Some (Json m)).
Proof.
  cbn zeta. unfold after, main_page.main.
  destruct (run_render_widgets (press_nothing q a name) w)
    as (w1 & Hrun & (Hd & _) & Hkept & _).
  rewrite run_bind, Hrun.
  cbn [press_nothing main_page.generate_button_pressed
       main_page.load_button_pressed main_page.clear_button_pressed when].
  run_simpl. cbn [snd]. split_and!; [done..|].
  intros m Hnone Hwf Hfile.
  pose proof (keeps_sets_after_default (press_nothing q a name) w) as Hdef.
  unfold after in Hdef. rewrite Hrun in Hdef. cbn [snd] in Hdef.
  rewrite Hdef. unfold main_page.session_default.
  rewrite run_bind. cbn [run session_has].
  rewrite Hnone, bool_decide_false by (by intros [??]).
  rewrite !run_bind, (run_load_present w _ Hfile), json_loads_dumps by done.
  run_simpl. by world_simpl.
Qed.
End session_start.

(** ** The review view: opening a set, walking through it *)

(** X14. When the set changed, [initialize_flashcard_viewer_state] keeps the
    set and its hash, puts the cursor on the first position, hides the
    answer, empties the transcript and the context, and ends in a rerun.
    In the run that follows it does nothing: so the reruns come to an end.
    It does nothing either for any other set with the same hash, the hash
    being all it compares. *)
Theorem initialize_resets_then_settles
    (content_hash : value → Z) (cards : list value) (w : World) :
  cards ≠ [] →
  (∀ o, session_state w !! "current_set_hash" = Some o →
        differs_from_int o (content_hash (PyList cards)) = true) →
  let w' := after (initialize_flashcard_viewer_state content_hash (PyList cards)) w in
  run (initialize_flashcard_viewer_state content_hash (PyList cards)) w
    = (Rerun, w') ∧
  session_state w' !! "flashcards_current_set" = Some (Json (PyList cards)) ∧
  cursor w' = Some 0 ∧
  session_state w' !! "show_answer" = Some (Json (PyBool false)) ∧
  session_state w' !! "chat_history" = Some (Json (PyList [])) ∧
  session_state w' !! "current_flashcard_context" = Some (Json (PyStr "")) ∧
  ∀ other, content_hash other = content_hash (PyList cards) →
           run (initialize_flashcard_viewer_state content_hash other) w'
           = (Done (), w').
Proof.
  intros Hne Hhash. cbn zeta. unfold after, cursor.
  destruct (run_initialize content_hash cards w Hne Hhash) as (p & g & _ & ->).
  cbn [snd]. split_and!; [done|by world_simpl..|].
  intros other Hother. unfold initialize_flashcard_viewer_state. cbn zeta.
  run_simpl. world_simpl. rewrite bool_decide_true by eauto.
  run_simpl. world_simpl. unfold differs_from_int. cbn [as_int].
  rewrite Hother, Z.eqb_refl. by run_simpl.
Qed.

(** X15. Previous undoes Next and Next undoes Previous, for a cursor in range:
    the run that follows the rerun shows the card it started from. *)
Theorem next_and_previous_undo_each_other (n c : Z) (w : World) :
  cursor w = Some c → 0 ≤ c < n →
  cursor (after (navigation_controls n press_previous)
            (after (navigation_controls n press_next) w)) = Some c ∧
  cursor (after (navigation_controls n press_next)
            (after (navigation_controls n press_previous) w)) = Some c.
Proof.
  intros Hc Hrange. unfold after.
  rewrite (run_next n c w), (run_previous n c w) by (done || lia). cbn [snd].
  rewrite (run_previous n ((c + 1) `mod` n)), (run_next n ((c - 1) `mod` n));
    [|lia|by unfold cursor; world_simpl|lia|by unfold cursor; world_simpl].
  unfold cursor. world_simpl. cbn [mbind option_bind as_int]. split; f_equal.
  - rewrite Zminus_mod_idemp_l. replace (c + 1 - 1) with c by lia.
    by apply Z.mod_small.
  - rewrite Zplus_mod_idemp_l. replace (c - 1 + 1) with c by lia.
    by apply Z.mod_small.
Qed.

(** X16. [k] presses of Next move the cursor [k] positions on, round the end of
    the set; so as many presses as there are cards show every position
    once and end where they began. *)
Theorem next_walks_round_the_set (n c : Z) (k : nat) (w : World) :
  cursor w = Some c → 0 ≤ c < n →
  cursor (Nat.iter k (after (navigation_controls n press_next)) w)
    = Some ((c + Z.of_nat k) `mod` n) ∧
  cursor (Nat.iter (Z.to_nat n) (after (navigation_controls n press_next)) w)
    = Some c.
Proof.
  intros Hc Hrange.
  assert (∀ k, cursor (Nat.iter k (after (navigation_controls n press_next)) w)
               = Some ((c + Z.of_nat k) `mod` n)) as Hwalk.
  { clear k. induction k as [|k IH].
    - change (Nat.iter 0 _ w) with w. rewrite Hc, Z.add_0_r. f_equal. symmetry.
      by apply Z.mod_small.
    - rewrite Nat.iter_succ. unfold after at 1.
      rewrite (run_next n _ _ ltac:(lia) IH). cbn [snd].
      unfold cursor. world_simpl. cbn [mbind option_bind as_int]. f_equal.
      rewrite Zplus_mod_idemp_l. f_equal. lia. }
  split; [apply Hwalk|]. rewrite Hwalk, Z2Nat.id by lia. f_equal.
  rewrite <- (Z.mul_1_l n) at 1. rewrite Z_mod_plus_full.
  by apply Z.mod_small.
Qed.

(** ** The viewer page *)

Lemma run_page_bind {A B} (m : Page A) (f : A → Page B) b :
  run_page (m ≫= f) b =
  match run_page m b with
  | (Returned a, b') => run_page (f a) b'
  | (Reran, b') => (Reran, b')
  | (Stopped, b') => (Stopped, b')
  | (Failed e, b') => (Failed e, b')
  | (Unmodelled, b') => (Unmodelled, b')
  end.
Proof. reflexivity. Qed.

Lemma run_page_lift {A} (m : Script A) b :
  run_page (lift m) b =
  match run m (world b) with
  | (Done a, w) => (Returned a, set_world w b)
  | (Rerun, w) => (Reran, set_world w b)
  | (Raised e, w) => (Failed (Uncaught e), set_world w b)
  end.
Proof. reflexivity. Qed.

(** The fields of a browser that was changed. *)
Lemma set_world_id b : set_world (world b) b = b.
Proof. by destruct b. Qed.

Lemma set_world_twice w w' b : set_world w (set_world w' b) = set_world w b.
Proof. reflexivity. Qed.

Lemma world_set_world w b : world (set_world w b) = w.
Proof. reflexivity. Qed.

Lemma world_add_drawn d b : world (add_drawn d b) = world b.
Proof. reflexivity. Qed.

Lemma world_set_gemini_model m b : world (set_gemini_model m b) = world b.
Proof. reflexivity. Qed.

Lemma drawn_set_world w b : drawn (set_world w b) = drawn b.
Proof. reflexivity. Qed.

Lemma drawn_add_drawn d b : drawn (add_drawn d b) = drawn b ++ [d].
Proof. reflexivity. Qed.

Lemma drawn_set_gemini_model m b : drawn (set_gemini_model m b) = drawn b.
Proof. reflexivity. Qed.

Lemma gemini_model_set_world w b : gemini_model (set_world w b) = gemini_model b.
Proof. reflexivity. Qed.

Lemma gemini_model_add_drawn d b :
  gemini_model (add_drawn d b) = gemini_model b.
Proof. reflexivity. Qed.

Lemma gemini_model_set_gemini_model m b :
  gemini_model (set_gemini_model m b) = m.
Proof. reflexivity. Qed.

Lemma set_world_add_drawn w d b :
  set_world w (add_drawn d b) = add_drawn d (set_world w b).
Proof. reflexivity. Qed.

Lemma draw_all_nil b : draw_all [] b = b.
Proof. unfold draw_all. rewrite app_nil_r. by destruct b. Qed.

Lemma draw_all_app ds ds' b : draw_all ds' (draw_all ds b) = draw_all (ds ++ ds') b.
Proof. unfold draw_all. cbn. by rewrite app_assoc. Qed.

Lemma add_drawn_draw_all d b : add_drawn d b = draw_all [d] b.
Proof. reflexivity. Qed.

Lemma set_world_draw_all w ds b :
  set_world w (draw_all ds b) = draw_all ds (set_world w b).
Proof. reflexivity. Qed.

Lemma world_draw_all ds b : world (draw_all ds b) = world b.
Proof. reflexivity. Qed.

Lemma drawn_draw_all ds b : drawn (draw_all ds b) = drawn b ++ ds.
Proof. reflexivity. Qed.

Lemma gemini_model_draw_all ds b : gemini_model (draw_all ds b) = gemini_model b.
Proof. reflexivity. Qed.

(** All that was drawn in a run, gathered in one list. *)
Ltac drawn_simpl :=
  rewrite ?add_drawn_draw_all, ?set_world_draw_all, ?draw_all_app,
    ?world_draw_all, ?gemini_model_draw_all;
  cbn [app].

Ltac browser_simpl :=
  repeat first
    [ rewrite set_world_id | rewrite set_world_twice | rewrite world_set_world
    | rewrite world_add_drawn | rewrite world_set_gemini_model
    | rewrite drawn_set_world | rewrite drawn_add_drawn
    | rewrite drawn_set_gemini_model | rewrite gemini_model_set_world
    | rewrite gemini_model_add_drawn | rewrite gemini_model_set_gemini_model
    | rewrite set_world_add_drawn | rewrite world_draw_all
    | rewrite gemini_model_draw_all | rewrite drawn_draw_all ].

Lemma run_page_get k b :
  run_page (page_get k) b =
  match session_state (world b) !! k with
  | Some (Json v) => (Returned v, b)
  | Some (Upload _) => (Unmodelled, b)
  | None => (Failed (Uncaught (KeyError k)), b)
  end.
Proof.
  unfold page_get. rewrite run_page_bind, run_page_lift. cbn [run session_get].
  destruct (session_state (world b) !! k) as [[v|f]|]; cbn [run_page];
    by rewrite ?set_world_id.
Qed.

(** Running a page one step further. *)
Ltac page_simpl :=
  repeat first
    [ rewrite run_page_bind
    | rewrite run_page_get
    | rewrite run_page_lift
    | progress cbn [run_page mret page_ret fail st_stop unmodelled draw
                    lift_page page_get get_gemini_model put_gemini_model
                    page_when]
    | progress run_simpl
    | progress browser_simpl
    | progress world_simpl ].

Section viewer_page_runs.
Context `{!JsonLib}.
Variable content_hash : value → Z.
Variable str_repr : string → string.

(** X17. Without a model in the session and without a key in the secrets, the
    viewer page shows its title and the error of the configuration and
    stops: no view is drawn, whatever the session and the file hold. *)
Theorem viewer_page_without_key_stops (ui : ViewerWidgets) (b : Browser) (err : string) :
  gemini_model b = None → secrets (world b) = inl err →
  run_page (viewer_page.flashcard_viewer_page content_hash str_repr ui) b =
  (Stopped,
   set_world
     (add_shown
        (StError ("Gemini API configuration failed. Check .streamlit/secrets.toml. Error: "
                  +:+ err))
        (world b))
     (add_drawn (StTitle "✨ Interactive Flashcard Viewer") b)).
Proof.
  intros Hmodel Hkey. unfold viewer_page.flashcard_viewer_page.
  page_simpl. rewrite Hmodel. unfold viewer_page.configure_gemini.
  page_simpl. cbn [run main_page.read_api_key]. rewrite Hkey. by page_simpl.
Qed.
End viewer_page_runs.

(** *** Loops *)

Lemma for_each_app {A} (l1 l2 : list A) (body : A → Page unit) b :
  run_page (for_each (l1 ++ l2) body) b
  = run_page (for_each l1 body;; for_each l2 body) b.
Proof.
  revert b. induction l1 as [|x l1 IH]; intros b; cbn [for_each app].
  - done.
  - rewrite !run_page_bind.
    destruct (run_page (body x) b) as [[[]| | |e|] b1]; [|done..].
    rewrite IH. by rewrite run_page_bind.
Qed.

Lemma for_each_ext {A} (l : list A) (f g : A → Page unit) b :
  (∀ x b, x ∈ l → run_page (f x) b = run_page (g x) b) →
  run_page (for_each l f) b = run_page (for_each l g) b.
Proof.
  revert b. induction l as [|x l IH]; intros b Hfg; cbn [for_each]; [done|].
  rewrite !run_page_bind, Hfg by (by left).
  destruct (run_page (g x) b) as [[[]| | |e|] b1]; [|done..].
  apply IH. intros y b' Hy. apply Hfg. by right.
Qed.

Lemma for_each_fmap {A B} (h : A → B) (l : list A) (body : B → Page unit) b :
  run_page (for_each (h <$> l) body) b
  = run_page (for_each l (λ x, body (h x))) b.
Proof.
  revert b. induction l as [|x l IH]; intros b; cbn [for_each fmap list_fmap];
    [done|].
  rewrite !run_page_bind.
  destruct (run_page (body (h x)) b) as [[[]| | |e|] b1]; [|done..].
  apply IH.
Qed.

(** Rows of [c] columns, gone through row by row, are the indices in
    order. *)
Lemma for_each_rows (rows c : nat) (body : nat → Page unit) b :
  run_page (for_each (seq 0 rows) (λ i,
              for_each (seq 0 c) (λ j, body (i * c + j)%nat))) b
  = run_page (for_each (seq 0 (rows * c)) body) b.
Proof.
  revert b. induction rows as [|rows IH]; intros b; [done|].
  rewrite seq_S, for_each_app, run_page_bind, IH.
  replace (S rows * c)%nat with (rows * c + c)%nat by lia.
  rewrite seq_app, for_each_app, run_page_bind.
  destruct (run_page (for_each (seq 0 (rows * c)) body) b)
    as [[[]| | |e|] b1]; [|done..].
  cbn [for_each app]. rewrite run_page_bind.
  replace (seq (0 + rows * c) c) with (Nat.add (rows * c) <$> seq 0 c)
    by (rewrite fmap_add_seq; f_equal; lia).
  rewrite for_each_fmap.
  destruct (run_page (for_each (seq 0 c) _) b1) as [[[]| | |e|] b2]; done.
Qed.

Lemma for_each_nothing {A} (l : list A) b :
  run_page (for_each l (λ _, mret ())) b = (Returned (), b).
Proof. induction l as [|x l IH]; cbn [for_each]; [done|]. by rewrite run_page_bind. Qed.

(** Indices beyond [n] that are skipped do not count. *)
Lemma for_each_below (m n : nat) (body : nat → Page unit) b :
  (n ≤ m)%nat →
  run_page (for_each (seq 0 m) (λ k,
              page_when (bool_decide (k < n)%nat) (body k))) b
  = run_page (for_each (seq 0 n) body) b.
Proof.
  intros Hle. replace m with (n + (m - n))%nat by lia.
  rewrite seq_app, for_each_app, run_page_bind.
  rewrite (for_each_ext (seq 0 n) _ body).
  2:{ intros k b' [_ Hk]%elem_of_seq. by rewrite bool_decide_true by lia. }
  destruct (run_page (for_each (seq 0 n) body) b) as [[[]| | |e|] b1]; [|done..].
  rewrite (for_each_ext _ _ (λ _, mret ())).
  2:{ intros k b' [Hk _]%elem_of_seq. by rewrite bool_decide_false by lia. }
  apply for_each_nothing.
Qed.

(** Going through the indices of a list and looking each one up is going
    through the list. *)
Lemma for_each_lookup {A} (pre l : list A) (body : option A → Page unit) b :
  run_page (for_each (seq (length pre) (length l))
              (λ k, body ((pre ++ l) !! k))) b
  = run_page (for_each l (λ x, body (Some x))) b.
Proof.
  revert pre b. induction l as [|x l IH]; intros pre b; [done|].
  cbn [length seq for_each]. rewrite !run_page_bind.
  rewrite lookup_app_r, Nat.sub_diag by done. cbn [lookup list_lookup].
  destruct (run_page (body (Some x)) b) as [[[]| | |e|] b1]; [|done..].
  specialize (IH (pre ++ [x]) b1).
  rewrite length_app, Nat.add_1_r, <- app_assoc in IH. apply IH.
Qed.

Section dashboard_runs.
Context `{!JsonLib}.

(** The dashboard goes through the sets in the order of the mapping, one
    card for each. *)
Lemma run_dashboard ui (d : list (string * value)) b :
  d ≠ [] →
  run_page (viewer_page.display_dashboard_view ui (PyDict d)) b =
  run_page (for_each (dict_keys d) (dashboard_card ui (PyDict d)))
           (add_drawn (StWrite "Select a flashcard set to start reviewing:") b).
Proof.
  intros Hd. unfold viewer_page.display_dashboard_view.
  rewrite run_page_bind. cbn [run_page draw].
  assert (truthy (PyDict d) = true) as -> by (by destruct d).
  cbn [negb]. cbn zeta.
  pose (body := λ set_index : nat,
          set_name ← lift (match dict_keys d !! set_index with
                           | Some name => mret name
                           | None => raise IndexError
                           end);
          dashboard_card ui (PyDict d) set_name).
  set (b1 := add_drawn _ b).
  set (rows := ((length (dict_keys d) + 3 - 1) / 3)%nat).
  transitivity
    (run_page (for_each (seq 0 (rows * 3))
                 (λ k, page_when (bool_decide (k < length (dict_keys d))%nat)
                         (body k))) b1);
    [exact (for_each_rows rows 3
              (λ k, page_when (bool_decide (k < length (dict_keys d))%nat)
                      (body k)) b1)|].
  rewrite for_each_below.
  2:{ pose proof (Nat.div_mod_eq (length (dict_keys d) + 3 - 1) 3).
      pose proof (Nat.mod_upper_bound (length (dict_keys d) + 3 - 1) 3).
      unfold rows. lia. }
  transitivity
    (run_page (for_each (dict_keys d)
                 (λ name, set_name ← lift (mret name);
                          dashboard_card ui (PyDict d) set_name)) b1).
  - exact (for_each_lookup [] (dict_keys d)
             (λ o, set_name ← lift (match o with
                                     | Some name => mret name
                                     | None => raise IndexError
                                     end);
                   dashboard_card ui (PyDict d) set_name) b1).
  - apply for_each_ext. intros name b' _.
    rewrite run_page_bind, run_page_lift. cbn [run mret script_ret].
    by rewrite set_world_id.
Qed.

(** One card of the dashboard whose button was not pressed. *)
Lemma run_dashboard_card ui d name cards n b :
  dict_get name d = Some cards → py_len cards = Some n →
  run_page (dashboard_card ui (PyDict d) name) b =
  if open_set ui name then
    (Reran,
     set_world
       (set_session_state
          (insert "viewer_current_view" (Json (PyStr "flashcard_review")))
          (set_session_state
             (insert "selected_set_name" (Json (PyStr name))) (world b)))
       (draw_all (card_of_set name n) b))
  else (Returned (), draw_all (card_of_set name n) b).
Proof.
  intros Hget Hlen. unfold dashboard_card.
  rewrite run_page_bind, run_page_lift. cbn [py_getitem]. rewrite Hget.
  cbn [lift_exn run mret script_ret]. rewrite set_world_id.
  rewrite run_page_bind, run_page_lift, Hlen.
  cbn [lift_type_error run mret script_ret]. rewrite set_world_id.
  destruct (open_set ui name); page_simpl; by drawn_simpl.
Qed.

Lemma run_dashboard_cards ui d (part : list (string * value)) b :
  (∀ kv, kv ∈ part → dict_get kv.1 d = Some kv.2) →
  Forall (λ kv, is_Some (py_len kv.2)) part →
  (∀ kv, kv ∈ part → open_set ui kv.1 = false) →
  run_page (for_each (dict_keys part) (dashboard_card ui (PyDict d))) b =
  (Returned (),
   draw_all (concat ((λ kv, card_of_set kv.1 (set_size kv.2)) <$> part)) b).
Proof.
  revert b. induction part as [|[name cards] part IH]; intros b Hget Hlen Hopen.
  - cbn. by rewrite draw_all_nil.
  - apply Forall_cons in Hlen as [[n Hn] Hlen].
    cbn [dict_keys fmap list_fmap for_each fst concat].
    rewrite run_page_bind.
    rewrite (run_dashboard_card ui d name cards n) by
      (done || by apply (Hget (name, cards)); left).
    pose proof (Hopen (name, cards) ltac:(by left)) as Hclosed.
    cbn [fst] in Hclosed. rewrite Hclosed.
    fold (dict_keys part). rewrite IH; [|intros; apply Hget; by right|done|
                                         intros; apply Hopen; by right].
    rewrite draw_all_app. cbn [fmap list_fmap concat fst snd].
    assert (set_size cards = n) as ->; [|done].
    unfold set_size. cbn [snd] in Hn. by rewrite Hn.
Qed.

Lemma dict_get_NoDup (d : list (string * value)) kv :
  NoDup d.*1 → kv ∈ d → dict_get kv.1 d = Some kv.2.
Proof.
  induction d as [|[k v] d IH]; intros Hnd Hin; [by apply elem_of_nil in Hin|].
  cbn in Hnd. apply NoDup_cons in Hnd as [Hk Hnd]. cbn [dict_get].
  apply elem_of_cons in Hin as [->|Hin].
  - cbn. by rewrite decide_True.
  - destruct (decide (kv.1 = k)) as [Heq|Hne]; [|by apply IH].
    exfalso. apply Hk. rewrite <- Heq. apply list_elem_of_fmap. by exists kv.
Qed.

(** X18. The dashboard draws a card for every set of the mapping, in the order
    of the mapping, with the name of the set and the number of its cards;
    with no Open Set button pressed it changes nothing and returns. *)
Theorem dashboard_draws_a_card_for_every_set
    (ui : ViewerWidgets) (d : list (string * value)) (b : Browser) :
  d ≠ [] → NoDup d.*1 →
  Forall (λ kv, is_Some (py_len kv.2)) d →
  (∀ kv, kv ∈ d → open_set ui kv.1 = false) →
  run_page (viewer_page.display_dashboard_view ui (PyDict d)) b =
  (Returned (),
   draw_all (StWrite "Select a flashcard set to start reviewing:"
             :: concat ((λ kv, card_of_set kv.1 (set_size kv.2)) <$> d)) b).
Proof.
  intros Hd Hnd Hlen Hopen. rewrite run_dashboard by done.
  rewrite (run_dashboard_cards ui d d); [|by intros; apply dict_get_NoDup|done..].
  by rewrite add_drawn_draw_all, draw_all_app.
Qed.

(** X19. Open Set on a set: the sets before it in the mapping are drawn, then
    its own card; its name becomes the selected set, the view becomes the
    review, and the run ends in a rerun.  Nothing else changes. *)
Theorem open_set_selects_the_set
    (ui : ViewerWidgets) (before rest : list (string * value))
    (name : string) (cards : value) (b : Browser) :
  NoDup (before ++ (name, cards) :: rest).*1 →
  Forall (λ kv, is_Some (py_len kv.2)) before → is_Some (py_len cards) →
  (∀ kv, kv ∈ before → open_set ui kv.1 = false) →
  open_set ui name = true →
  run_page (viewer_page.display_dashboard_view ui
              (PyDict (before ++ (name, cards) :: rest))) b =
  (Reran,
   set_world
     (set_session_state
        (insert "viewer_current_view" (Json (PyStr "flashcard_review")))
        (set_session_state
           (insert "selected_set_name" (Json (PyStr name))) (world b)))
     (draw_all (StWrite "Select a flashcard set to start reviewing:"
                :: concat ((λ kv, card_of_set kv.1 (set_size kv.2))
                             <$> before ++ [(name, cards)])) b)).
Proof.
  intros Hnd Hlen [n Hn] Hclosed Hopen.
  set (d := before ++ (name, cards) :: rest) in *.
  rewrite run_dashboard by (unfold d; by destruct before).
  unfold d at 1. unfold dict_keys. rewrite fmap_app.
  rewrite for_each_app, run_page_bind.
  rewrite (run_dashboard_cards ui d before); [|intros kv Hkv|done..].
  2:{ apply dict_get_NoDup; [done|]. unfold d. apply elem_of_app. by left. }
  cbn [fmap list_fmap for_each fst]. rewrite run_page_bind.
  rewrite (run_dashboard_card ui d name cards n), Hopen; [|
    apply (dict_get_NoDup d (name, cards)); [done|];
    unfold d; apply elem_of_app; right; by left|done].
  rewrite add_drawn_draw_all, !draw_all_app.
  rewrite fmap_app, concat_app. cbn [fmap list_fmap concat fst snd].
  assert (set_size cards = n) as -> by (unfold set_size; by rewrite Hn).
  by rewrite app_nil_r.
Qed.
End dashboard_runs.

(** *** The review view *)

Section review_runs.
Context `{!JsonLib}.
Variable content_hash : value → Z.
Variable str_repr : string → string.

(** With the hash of the set in the session,
    [initialize_flashcard_viewer_state] does nothing. *)
Lemma run_initialize_settled (v : value) w :
  session_state w !! "current_set_hash" = Some (Json (PyInt (content_hash v))) →
  run (initialize_flashcard_viewer_state content_hash v) w = (Done (), w).
Proof.
  intros Hhash. unfold initialize_flashcard_viewer_state. cbn zeta.
  run_simpl. rewrite Hhash, bool_decide_true by eauto. run_simpl.
  rewrite Hhash. run_simpl. unfold differs_from_int. cbn [as_int].
  rewrite Z.eqb_refl. by run_simpl.
Qed.

Lemma list_index_Some {A} (l : list A) (i : Z) x :
  0 ≤ i → l !! Z.to_nat i = Some x → list_index l i = Some x.
Proof. intros Hi Hx. unfold list_index. by rewrite bool_decide_true. Qed.

(** The review of a set under way, up to the current card. *)
Lemma run_review_to_card ui d name cards order c i card b :
  reviewing content_hash name cards order c (world b) →
  dict_get name d = Some (PyList cards) →
  back_to_all_sets ui = false →
  0 ≤ c → order !! Z.to_nat c = Some i →
  0 ≤ i → cards !! Z.to_nat i = Some card →
  run_page (viewer_page.display_flashcard_review_view content_hash str_repr ui
              (PyDict d)) b =
  run_page (review_card str_repr ui (PyStr name) card (length cards) (PyInt c))
           (draw_all [StHeader ("Set: " +:+ name);
                      StWrite "Review your flashcards below."] b).
Proof.
  intros (Hname & Hhash & Hset & Horder & Hlen & Hcursor) Hget Hback
         Hc Hi Hi0 Hcard.
  assert (cards ≠ []) as Hne by (intros ->; by rewrite lookup_nil in Hcard).
  unfold viewer_page.display_flashcard_review_view.
  page_simpl. rewrite Hname. page_simpl. rewrite Hback. page_simpl.
  cbn [py_get_key py_str]. rewrite Hget. cbn [default from_option id]. page_simpl.
  assert (truthy (PyList cards) = true) as -> by (by destruct cards).
  cbn [negb]. rewrite run_page_bind, run_page_lift.
  rewrite run_initialize_settled by (by browser_simpl).
  page_simpl. rewrite Hset. page_simpl. cbn [py_len lift_type_error].
  page_simpl. rewrite Horder, bool_decide_true by eauto. page_simpl.
  rewrite Horder. page_simpl. cbn [py_len lift_type_error]. page_simpl.
  rewrite length_fmap, Hlen, bool_decide_true by done. cbn [negb]. page_simpl.
  rewrite Hcursor. page_simpl. rewrite Horder. page_simpl.
  cbn [py_index as_int].
  rewrite (list_index_Some _ c (PyInt i))
    by (done || by rewrite list_lookup_fmap, Hi).
  page_simpl. cbn [py_index as_int].
  rewrite (list_index_Some _ i card) by done.
  page_simpl. unfold review_card. by drawn_simpl.
Qed.

Lemma run_draw_each {A} (items : list A) (f : A → Drawn) b :
  run_page (for_each items (λ item, draw (f item))) b
  = (Returned (), draw_all (f <$> items) b).
Proof.
  revert b. induction items as [|x items IH]; intros b; cbn [for_each].
  - cbn. by rewrite draw_all_nil.
  - page_simpl. rewrite IH. by drawn_simpl.
Qed.

Lemma getitem_turn_role role content :
  py_getitem (turn role content) "role" = inr (PyStr role).
Proof. reflexivity. Qed.

Lemma getitem_turn_content role content :
  py_getitem (turn role content) "content" = inr content.
Proof. reflexivity. Qed.

(** The first loop of [render_ai_chat] on a transcript of turns. *)
Lemma run_draw_transcript (turns : list (string * value)) b :
  run_page (for_each ((λ t, turn t.1 t.2) <$> turns) (λ message,
              role ← lift (lift_exn (py_getitem message "role"));
              match role with
              | PyStr name =>
                  draw (StChatMessage name);;
                  content ← lift (lift_exn (py_getitem message "content"));
                  draw (StMarkdown content)
              | _ => unmodelled
              end)) b
  = (Returned (), draw_all (transcript_drawn turns) b).
Proof.
  revert b. induction turns as [|[role content] turns IH]; intros b;
    cbn [for_each fmap list_fmap].
  - cbn. by rewrite draw_all_nil.
  - rewrite run_page_bind. cbn [fst snd].
    rewrite run_page_bind, run_page_lift, getitem_turn_role.
    cbn [lift_exn]. page_simpl. rewrite getitem_turn_content.
    cbn [lift_exn]. page_simpl.
    fold (fmap (M:=list) (λ t : string * value, turn t.1 t.2)).
    rewrite IH. unfold transcript_drawn. by drawn_simpl.
Qed.

(** The second loop of [render_ai_chat] on a transcript of turns. *)
Lemma run_conversation (turns : list (string * value)) history b :
  run_page (viewer_page.conversation str_repr ((λ t, turn t.1 t.2) <$> turns)
              history) b
  = (Returned (fold_left (λ history t,
                 history +:+ (if bool_decide (t.1 = "user") then "User"
                              else "Assistant")
                 +:+ ": " +:+ py_str str_repr t.2 +:+ nl) turns history), b).
Proof.
  revert history b. induction turns as [|[role content] turns IH];
    intros history b; cbn [viewer_page.conversation fmap list_fmap fold_left];
    [done|].
  cbn [fst snd]. rewrite run_page_bind, run_page_lift, getitem_turn_role.
  cbn [lift_exn]. page_simpl. rewrite getitem_turn_content.
  cbn [lift_exn]. page_simpl. cbn zeta.
  fold (fmap (M:=list) (λ t : string * value, turn t.1 t.2)).
  by rewrite IH.
Qed.

(** [render_ai_chat] when nothing was sent: the transcript is drawn. *)
Lemma run_render_ai_chat_idle ui card back turns context b :
  session_state (world b) !! "chat_history"
    = Some (Json (PyList ((λ t, turn t.1 t.2) <$> turns))) →
  session_state (world b) !! "current_flashcard_context" = Some (Json context) →
  chat_input ui = None →
  run_page (viewer_page.render_ai_chat str_repr ui card back) b =
  (Returned (),
   set_world
     (add_shown (StInfo "Ask AI for more detail about this question/answer.")
        (world b))
     (draw_all (chat_drawn turns) b)).
Proof.
  intros Hchat Hcontext Hinput. unfold viewer_page.render_ai_chat.
  page_simpl. rewrite Hchat. page_simpl. cbn [py_iter]. page_simpl.
  rewrite run_draw_transcript. page_simpl. rewrite Hcontext. page_simpl.
  rewrite Hinput. page_simpl. unfold chat_drawn. by drawn_simpl.
Qed.

(** [render_flashcard] with the answer hidden, and with the answer shown:
    then the chat follows. *)
Lemma run_render_flashcard_hidden ui fields n c flag b :
  session_state (world b) !! "show_answer" = Some (Json flag) →
  truthy flag = false →
  run_page (viewer_page.render_flashcard str_repr ui (PyDict fields) n (PyInt c)) b
  = (Returned (), draw_all (question_drawn str_repr fields c n) b).
Proof.
  intros Hshow Hflag. unfold viewer_page.render_flashcard.
  cbn [as_int lift_type_error py_get]. page_simpl.
  rewrite Hshow. page_simpl. rewrite Hflag. page_simpl.
  unfold question_drawn. by drawn_simpl.
Qed.

Lemma run_render_flashcard_shown ui fields n c flag b :
  session_state (world b) !! "show_answer" = Some (Json flag) →
  truthy flag = true →
  run_page (viewer_page.render_flashcard str_repr ui (PyDict fields) n (PyInt c)) b
  = run_page (viewer_page.render_ai_chat str_repr ui (PyDict fields)
                (default (PyStr "N/A") (dict_get "back" fields)))
             (draw_all (question_drawn str_repr fields c n
                        ++ answer_drawn str_repr fields) b).
Proof.
  intros Hshow Hflag. unfold viewer_page.render_flashcard.
  cbn [as_int lift_type_error py_get]. page_simpl.
  rewrite Hshow. page_simpl. rewrite Hflag. page_simpl.
  unfold question_drawn, answer_drawn.
  destruct (default (PyStr "N/A") (dict_get "back" fields)) as [| | | |items|];
    page_simpl; rewrite ?run_draw_each; by drawn_simpl.
Qed.

Lemma run_no_control n w :
  run (navigation_controls n press_no_control) w = (Done (), w).
Proof.
  unfold navigation_controls, press_no_control.
  cbn [previous_card shuffle_cards show_answer next_card].
  by case_bool_decide.
Qed.

(** X20. With a review under way, the answer hidden and nothing pressed, the
    review view draws the name of the set and the question of the card
    the shuffle order has at the cursor, numbered by the cursor, and
    changes nothing. *)
Theorem review_shows_the_card_under_the_cursor
    (ui : ViewerWidgets) (d : list (string * value)) (name : string)
    (cards : list value) (order : list Z) (c i : Z)
    (fields : list (string * value)) (b : Browser) :
  reviewing content_hash name cards order c (world b) →
  dict_get name d = Some (PyList cards) →
  back_to_all_sets ui = false → controls ui = press_no_control →
  0 ≤ c → order !! Z.to_nat c = Some i →
  0 ≤ i → cards !! Z.to_nat i = Some (PyDict fields) →
  session_state (world b) !! "current_flashcard_context"
    = Some (Json (PyStr (context_key str_repr name (PyDict fields)))) →
  session_state (world b) !! "show_answer" = Some (Json (PyBool false)) →
  run_page (viewer_page.display_flashcard_review_view content_hash str_repr ui
              (PyDict d)) b =
  (Returned (),
   draw_all ([StHeader ("Set: " +:+ name);
              StWrite "Review your flashcards below.";
              StMarkdown (PyStr "---")]
             ++ question_drawn str_repr fields c (length cards)
             ++ [StMarkdown (PyStr "---")]) b).
Proof.
  intros Hrev Hget Hback Hcontrols Hc Hi Hi0 Hcard Hcontext Hshow.
  rewrite (run_review_to_card ui d name cards order c i (PyDict fields))
    by done.
  unfold review_card. cbn [py_get py_str]. page_simpl.
  rewrite Hcontext. page_simpl. cbn [eq_str].
  rewrite bool_decide_true by done. cbn [negb]. page_simpl.
  rewrite (run_render_flashcard_hidden ui fields _ c (PyBool false))
    by (done || by browser_simpl).
  page_simpl. rewrite Hcontrols, run_no_control. page_simpl.
  by drawn_simpl.
Qed.

Lemma reviewing_show_answer name cards order c flag w :
  reviewing content_hash name cards order c w →
  reviewing content_hash name cards order c
    (set_session_state (insert "show_answer" flag) w).
Proof.
  intros (? & ? & ? & ? & ? & ?). unfold reviewing. by world_simpl.
Qed.

(** X21. Show Answer sets the flag after the card was drawn, and ends the run
    without a rerun: the run in which the button is pressed draws the
    question only, as if nothing was pressed.  The answer and the chat are
    drawn by the run that follows, whatever starts it. *)
Theorem show_answer_is_drawn_by_the_next_run
    (ui next_ui : ViewerWidgets) (d : list (string * value)) (name : string)
    (cards : list value) (order : list Z) (c i : Z)
    (fields : list (string * value)) (turns : list (string * value))
    (b : Browser) :
  reviewing content_hash name cards order c (world b) →
  dict_get name d = Some (PyList cards) →
  0 ≤ c → order !! Z.to_nat c = Some i →
  0 ≤ i → cards !! Z.to_nat i = Some (PyDict fields) →
  session_state (world b) !! "current_flashcard_context"
    = Some (Json (PyStr (context_key str_repr name (PyDict fields)))) →
  session_state (world b) !! "show_answer" = Some (Json (PyBool false)) →
  session_state (world b) !! "chat_history"
    = Some (Json (PyList ((λ t, turn t.1 t.2) <$> turns))) →
  back_to_all_sets ui = false → controls ui = press_show_answer →
  back_to_all_sets next_ui = false → controls next_ui = press_no_control →
  chat_input next_ui = None →
  let view ui := viewer_page.display_flashcard_review_view content_hash
                   str_repr ui (PyDict d) in
  let b1 := set_world
              (set_session_state (insert "show_answer" (Json (PyBool true)))
                 (world b)) b in
  run_page (view ui) b =
    (Returned (),
     draw_all ([StHeader ("Set: " +:+ name);
                StWrite "Review your flashcards below.";
                StMarkdown (PyStr "---")]
               ++ question_drawn str_repr fields c (length cards)
               ++ [StMarkdown (PyStr "---")]) b1) ∧
  run_page (view next_ui) b1 =
    (Returned (),
     set_world
       (add_shown (StInfo "Ask AI for more detail about this question/answer.")
          (world b1))
       (draw_all ([StHeader ("Set: " +:+ name);
                   StWrite "Review your flashcards below.";
                   StMarkdown (PyStr "---")]
                  ++ question_drawn str_repr fields c (length cards)
                  ++ answer_drawn str_repr fields
                  ++ chat_drawn turns
                  ++ [StMarkdown (PyStr "---")]) b1)).
Proof.
  intros Hrev Hget Hc Hi Hi0 Hcard Hcontext Hshow Hchat Hback Hcontrols
         Hback' Hcontrols' Hinput. cbn zeta.
  assert (Z.of_nat (length cards) ≠ 0) as Hn
    by (apply lookup_lt_Some in Hcard; lia).
  split.
  - rewrite (run_review_to_card ui d name cards order c i (PyDict fields))
      by done.
    unfold review_card. cbn [py_get py_str]. page_simpl.
    rewrite Hcontext. page_simpl. cbn [eq_str].
    rewrite bool_decide_true by done. cbn [negb]. page_simpl.
    rewrite (run_render_flashcard_hidden ui fields _ c (PyBool false))
      by (done || by browser_simpl).
    page_simpl. rewrite Hcontrols, run_show_answer by done. page_simpl.
    by drawn_simpl.
  - rewrite (run_review_to_card next_ui d name cards order c i (PyDict fields));
      [|by apply reviewing_show_answer|done..].
    unfold review_card. cbn [py_get py_str]. page_simpl.
    rewrite Hcontext. page_simpl. cbn [eq_str].
    rewrite bool_decide_true by done. cbn [negb]. page_simpl.
    rewrite (run_render_flashcard_shown next_ui fields _ c (PyBool true))
      by (done || by page_simpl).
    rewrite (run_render_ai_chat_idle next_ui _ _ turns
               (PyStr (context_key str_repr name (PyDict fields))))
      by (done || by page_simpl).
    page_simpl. rewrite Hcontrols', run_no_control. page_simpl.
    drawn_simpl. by rewrite <- !app_assoc.
Qed.

(** X22. When the card under the cursor is not the one the chat context was
    kept for (after Next, Previous or Shuffle, or in a newly opened set),
    the view takes the context of the new card, empties the transcript and
    hides the answer before it draws: the new card is drawn without its
    answer, whatever the flag was. *)
Theorem another_card_resets_the_chat
    (ui : ViewerWidgets) (d : list (string * value)) (name : string)
    (cards : list value) (order : list Z) (c i : Z)
    (fields : list (string * value)) (context : value) (b : Browser) :
  reviewing content_hash name cards order c (world b) →
  dict_get name d = Some (PyList cards) →
  back_to_all_sets ui = false → controls ui = press_no_control →
  0 ≤ c → order !! Z.to_nat c = Some i →
  0 ≤ i → cards !! Z.to_nat i = Some (PyDict fields) →
  session_state (world b) !! "current_flashcard_context" = Some (Json context) →
  context ≠ PyStr (context_key str_repr name (PyDict fields)) →
  run_page (viewer_page.display_flashcard_review_view content_hash str_repr ui
              (PyDict d)) b =
  (Returned (),
   set_world
     (set_session_state (insert "show_answer" (Json (PyBool false)))
        (set_session_state (insert "chat_history" (Json (PyList [])))
           (set_session_state
              (insert "current_flashcard_context"
                 (Json (PyStr (context_key str_repr name (PyDict fields)))))
              (world b))))
     (draw_all ([StHeader ("Set: " +:+ name);
                 StWrite "Review your flashcards below.";
                 StMarkdown (PyStr "---")]
                ++ question_drawn str_repr fields c (length cards)
                ++ [StMarkdown (PyStr "---")]) b)).
Proof.
  intros Hrev Hget Hback Hcontrols Hc Hi Hi0 Hcard Hcontext Hother.
  rewrite (run_review_to_card ui d name cards order c i (PyDict fields))
    by done.
  unfold review_card. cbn [py_get py_str]. page_simpl.
  rewrite Hcontext. page_simpl.
  assert (eq_str context (context_key str_repr name (PyDict fields)) = false)
    as Hne.
  { destruct context; try done. cbn [eq_str]. apply bool_decide_false.
    by intros ->. }
  unfold context_key in Hne at 1. rewrite Hne. cbn [negb]. page_simpl.
  rewrite (run_render_flashcard_hidden ui fields _ c (PyBool false))
    by (done || by page_simpl).
  page_simpl. rewrite Hcontrols, run_no_control. page_simpl.
  by drawn_simpl.
Qed.

(** X23. A question sent in the chat: whatever Gemini does, the run raises
    nothing and ends in a rerun; the transcript grows by the question and
    by one turn of the assistant, which is the response or, when the
    request failed, the text of the failure; one request was sent, made of
    the transcript with the question, the two sides of the card and the
    instruction. *)
Theorem chat_adds_question_and_reply
    (ui : ViewerWidgets) (fields : list (string * value)) (back_content : value)
    (turns : list (string * value)) (context : value)
    (prompt model : string) (b : Browser) :
  session_state (world b) !! "chat_history"
    = Some (Json (PyList ((λ t, turn t.1 t.2) <$> turns))) →
  session_state (world b) !! "current_flashcard_context" = Some (Json context) →
  chat_input ui = Some prompt → prompt ≠ "" →
  gemini_model b = Some model →
  let request := chat_request str_repr turns prompt fields back_content in
  let answer := chat_answer (gemini (world b) (length (requests (world b))) request) in
  let r := run_page (viewer_page.render_ai_chat str_repr ui (PyDict fields)
                       back_content) b in
  r.1 = Reran ∧
  session_state (world r.2) !! "chat_history"
    = Some (Json (PyList ((λ t, turn t.1 t.2)
                            <$> turns ++ [("user", PyStr prompt);
                                          ("assistant", PyStr answer)]))) ∧
  requests (world r.2) = requests (world b) ++ [request] ∧
  drawn r.2 = drawn b ++ chat_drawn turns
              ++ [StChatMessage "user"; StMarkdown (PyStr prompt);
                  StChatMessage "assistant"; StMarkdown (PyStr answer)].
Proof.
  intros Hchat Hcontext Hinput Hprompt Hmodel. cbn zeta.
  unfold viewer_page.render_ai_chat.
  page_simpl. rewrite Hchat. page_simpl. cbn [py_iter]. page_simpl.
  rewrite run_draw_transcript. page_simpl. rewrite Hcontext. page_simpl.
  rewrite Hinput. cbn [truthy]. rewrite bool_decide_false by done.
  cbn [negb]. page_simpl. cbn zeta.
  change (PyDict [("role", PyStr "user"); ("content", PyStr prompt)])
    with (turn ("user", PyStr prompt).1 ("user", PyStr prompt).2).
  rewrite <- (fmap_snoc (λ t : string * value, turn t.1 t.2)).
  rewrite run_conversation. page_simpl. cbn [py_get]. page_simpl.
  rewrite Hmodel. page_simpl.
  fold (transcript_text str_repr (turns ++ [("user", PyStr prompt)])).
  fold (chat_request str_repr turns prompt fields back_content).
  destruct (gemini (world b) (length (requests (world b)))
              (chat_request str_repr turns prompt fields back_content))
    as [e|response]; page_simpl; cbn [chat_answer fst];
    (split_and!; [done| |done|]).
  - rewrite !fmap_app. cbn [fmap list_fmap]. by rewrite <- app_assoc.
  - unfold chat_drawn. by rewrite <- !app_assoc.
  - rewrite !fmap_app. cbn [fmap list_fmap]. by rewrite <- app_assoc.
  - unfold chat_drawn. by rewrite <- !app_assoc.
Qed.

(** The review view for a set that the mapping does not have, or has
    with no cards. *)
Lemma run_review_missing ui (d : list (string * value)) name b :
  session_state (world b) !! "selected_set_name" = Some (Json (PyStr name)) →
  back_to_all_sets ui = false →
  (∀ cards, dict_get name d = Some cards → truthy cards = false) →
  run_page (viewer_page.display_flashcard_review_view content_hash str_repr ui
              (PyDict d)) b =
  (Returned (),
   set_world
     (add_shown
        (StWarning ("The selected set '" +:+ name
                    +:+ "' is empty or not found. Please go back and select another set or generate new flashcards."))
        (world b))
     (draw_all [StHeader ("Set: " +:+ name);
                StWrite "Review your flashcards below."] b)).
Proof.
  intros Hname Hback Hmissing.
  unfold viewer_page.display_flashcard_review_view.
  page_simpl. rewrite Hname. page_simpl. rewrite Hback. page_simpl.
  cbn [py_get_key py_str].
  destruct (dict_get name d) as [cards|] eqn:Hget; cbn [default from_option id].
  - page_simpl. rewrite (Hmissing cards) by done. cbn [negb]. page_simpl.
    by drawn_simpl.
  - page_simpl. cbn [truthy]. rewrite bool_decide_true by done. cbn [negb].
    page_simpl. by drawn_simpl.
Qed.

(** X24. The review of a set that the mapping does not have, or has with no
    cards: the name is drawn, the warning is shown, and the run returns
    with nothing else changed, whatever the session keeps of an earlier
    review; no card is drawn and no control. *)
Theorem review_of_missing_set_only_warns
    (ui : ViewerWidgets) (d : list (string * value)) (name : string)
    (b : Browser) :
  session_state (world b) !! "selected_set_name" = Some (Json (PyStr name)) →
  back_to_all_sets ui = false →
  dict_get name d = None ∨ dict_get name d = Some (PyList []) →
  let r := run_page (viewer_page.display_flashcard_review_view content_hash
                       str_repr ui (PyDict d)) b in
  r.1 = Returned () ∧
  session_state (world r.2) = session_state (world b) ∧
  disk (world r.2) = disk (world b) ∧
  shown (world r.2) = shown (world b) ++
    [StWarning ("The selected set '" +:+ name
                +:+ "' is empty or not found. Please go back and select another set or generate new flashcards.")] ∧
  drawn r.2 = drawn b ++ [StHeader ("Set: " +:+ name);
                          StWrite "Review your flashcards below."].
Proof.
  intros Hname Hback Hmissing. cbn zeta.
  rewrite (run_review_missing ui d name b); [by page_simpl|done..|].
  intros cards Hget. by destruct Hmissing as [Hm|Hm]; rewrite Hm in Hget;
    [|injection Hget as <-].
Qed.

(** X25. Back to All Sets: the view becomes the dashboard, the selection and
    the kept hash become [None], the kept cards an empty list, and the
    run ends in a rerun before anything is drawn.  With [None] for the
    hash, whatever set is opened next is initialised anew. *)
Theorem back_button_leaves_the_review
    (ui : ViewerWidgets) (all_flashcard_sets selected : value) (b : Browser) :
  session_state (world b) !! "selected_set_name" = Some (Json selected) →
  back_to_all_sets ui = true →
  let r := run_page (viewer_page.display_flashcard_review_view content_hash
                       str_repr ui all_flashcard_sets) b in
  r = (Reran,
       set_world
         (set_session_state (insert "current_set_hash" (Json PyNone))
            (set_session_state (insert "flashcards_current_set" (Json (PyList [])))
               (set_session_state (insert "selected_set_name" (Json PyNone))
                  (set_session_state
                     (insert "viewer_current_view" (Json (PyStr "dashboard")))
                     (world b)))))
         b) ∧
  ∀ cards : list value,
    cards ≠ [] →
    (run (initialize_flashcard_viewer_state content_hash (PyList cards))
         (world r.2)).1 = Rerun.
Proof.
  intros Hname Hback. cbn zeta.
  unfold viewer_page.display_flashcard_review_view.
  page_simpl. rewrite Hname. page_simpl. rewrite Hback. page_simpl.
  split; [done|]. intros cards Hne. cbn [snd]. browser_simpl.
  destruct (run_initialize content_hash cards
              (set_session_state (insert "current_set_hash" (Json PyNone))
                 (set_session_state (insert "flashcards_current_set" (Json (PyList [])))
                    (set_session_state (insert "selected_set_name" (Json PyNone))
                       (set_session_state
                          (insert "viewer_current_view" (Json (PyStr "dashboard")))
                          (world b))))) Hne)
    as (p & g & _ & ->); [|done].
  intros o. world_simpl. by intros [= <-].
Qed.

(** X26. A card that is no JSON object, as a response that was stored without
    a check can hold: the review draws the name of the set and fails with
    an [AttributeError], since the card has no [get]. *)
Theorem review_fails_on_card_that_is_no_object
    (ui : ViewerWidgets) (d : list (string * value)) (name : string)
    (cards : list value) (order : list Z) (c i : Z) (card : value)
    (b : Browser) :
  reviewing content_hash name cards order c (world b) →
  dict_get name d = Some (PyList cards) →
  back_to_all_sets ui = false →
  0 ≤ c → order !! Z.to_nat c = Some i →
  0 ≤ i → cards !! Z.to_nat i = Some card →
  (∀ fields, card ≠ PyDict fields) →
  run_page (viewer_page.display_flashcard_review_view content_hash str_repr ui
              (PyDict d)) b =
  (Failed (AttributeError (type_name card) "get"),
   draw_all [StHeader ("Set: " +:+ name);
             StWrite "Review your flashcards below."] b).
Proof.
  intros Hrev Hget Hback Hc Hi Hi0 Hcard Hnot.
  rewrite (run_review_to_card ui d name cards order c i card) by done.
  unfold review_card.
  destruct card as [| | | | |fields]; try (by page_simpl).
  by destruct (Hnot fields).
Qed.

(** X27. The safeguard of the review view: when the session has no shuffle
    order, or one whose length is not the number of cards kept, the view
    draws a new order, a permutation of the indices of the cards, puts the
    cursor on its first position, and goes on to draw the card there. *)
Theorem stale_shuffle_order_is_replaced
    (ui : ViewerWidgets) (d : list (string * value)) (name : string)
    (cards : list value) (context : value) (b : Browser) :
  session_state (world b) !! "selected_set_name" = Some (Json (PyStr name)) →
  session_state (world b) !! "current_set_hash"
    = Some (Json (PyInt (content_hash (PyList cards)))) →
  session_state (world b) !! "flashcards_current_set" = Some (Json (PyList cards)) →
  (session_state (world b) !! "shuffled_cards" = None ∨
   ∃ old, session_state (world b) !! "shuffled_cards" = Some (Json (PyList old)) ∧
          length old ≠ length cards) →
  dict_get name d = Some (PyList cards) → cards ≠ [] →
  Forall (λ card, ∃ fields, card = PyDict fields) cards →
  session_state (world b) !! "current_flashcard_context" = Some (Json context) →
  session_state (world b) !! "show_answer" = Some (Json (PyBool false)) →
  back_to_all_sets ui = false → controls ui = press_no_control →
  let r := run_page (viewer_page.display_flashcard_review_view content_hash
                       str_repr ui (PyDict d)) b in
  ∃ order i fields,
    permutation_of_range order (length cards) ∧
    order !! 0%nat = Some i ∧ cards !! Z.to_nat i = Some (PyDict fields) ∧
    r.1 = Returned () ∧
    session_state (world r.2) !! "shuffled_cards"
      = Some (Json (PyList (PyInt <$> order))) ∧
    cursor (world r.2) = Some 0 ∧
    drawn r.2 = drawn b ++
      [StHeader ("Set: " +:+ name); StWrite "Review your flashcards below.";
       StMarkdown (PyStr "---")]
      ++ question_drawn str_repr fields 0 (length cards)
      ++ [StMarkdown (PyStr "---")].
Proof.
  intros Hname Hhash Hset Hstale Hget Hne Hobjects Hcontext Hshow Hback
         Hcontrols. cbn zeta.
  destruct (random_sample_all (py_range (Z.of_nat (length cards))) (world b))
    as (order & g & Hsample & Hperm).
  unfold py_range in Hsample at 2. rewrite length_seqZ, Nat2Z.id in Hsample.
  pose proof (permutation_of_range_intro _ _ Hperm) as Hrange.
  destruct order as [|i order'].
  { apply Permutation_nil_l in Hperm. unfold py_range in Hperm.
    apply (f_equal length) in Hperm. rewrite length_seqZ in Hperm.
    destruct cards; [done|]. cbn in Hperm. lia. }
  assert (0 ≤ i < Z.of_nat (length cards)) as Hi.
  { destruct Hrange as (_ & _ & _ & Hin). apply Hin. by left. }
  destruct (lookup_lt_is_Some_2 cards (Z.to_nat i)) as [card Hcard]; [lia|].
  rewrite Forall_forall in Hobjects.
  destruct (Hobjects card) as [fields ->];
    [by apply (list_elem_of_lookup_2 _ (Z.to_nat i))|].
  exists (i :: order'), i, fields.
  split; [done|]. split; [done|]. split; [done|].
  assert (∃ w',
    run_page (viewer_page.display_flashcard_review_view content_hash str_repr
                ui (PyDict d)) b =
    (Returned (),
     set_world w'
       (draw_all ([StHeader ("Set: " +:+ name);
                   StWrite "Review your flashcards below.";
                   StMarkdown (PyStr "---")]
                  ++ question_drawn str_repr fields 0 (length cards)
                  ++ [StMarkdown (PyStr "---")]) b)) ∧
    session_state w' !! "shuffled_cards"
      = Some (Json (PyList (PyInt <$> i :: order'))) ∧
    session_state w' !! "current_card_index" = Some (Json (PyInt 0)))
    as (w' & -> & Horder' & Hcursor').
  2:{ cbn [fst snd]. browser_simpl. unfold cursor. rewrite Hcursor'.
      split_and!; [done..|]. by rewrite <- ?app_assoc. }
  unfold viewer_page.display_flashcard_review_view.
  page_simpl. rewrite Hname. page_simpl. rewrite Hback. page_simpl.
  cbn [py_get_key py_str]. rewrite Hget. cbn [default from_option id].
  page_simpl.
  assert (truthy (PyList cards) = true) as -> by (by destruct cards).
  cbn [negb]. rewrite run_page_bind, run_page_lift.
  rewrite run_initialize_settled by (by browser_simpl).
  page_simpl. rewrite Hset. page_simpl. cbn [py_len lift_type_error].
  page_simpl.
  destruct Hstale as [Hnone|(old & Hold & Hlen)];
    [rewrite Hnone, bool_decide_false by (by intros [??])
    |rewrite Hold, bool_decide_true by eauto; page_simpl; rewrite Hold;
     page_simpl; cbn [py_len lift_type_error]; page_simpl;
     rewrite (bool_decide_false (length old = length cards)) by done;
     cbn [negb]].
  all: page_simpl; rewrite Hsample; page_simpl.
  all: cbn [py_index as_int]; unfold list_index at 1;
    rewrite bool_decide_true by done;
    change (Z.to_nat 0) with 0%nat;
    cbn [lookup list_lookup fmap list_fmap]; page_simpl.
  all: cbn [py_index as_int]; rewrite (list_index_Some _ i (PyDict fields))
      by (lia || done).
  all: page_simpl; cbn [py_get py_str]; page_simpl; rewrite Hcontext; page_simpl.
  all: destruct (eq_str context _); cbn [negb]; page_simpl.
  all: rewrite (run_render_flashcard_hidden ui fields _ 0 (PyBool false))
       by (done || by page_simpl).
  all: page_simpl; rewrite Hcontrols, run_no_control; page_simpl.
  all: eexists; (split; [drawn_simpl; reflexivity|]); by world_simpl.
Qed.

End review_runs.

(** *** What the viewer page leaves alone *)

Lemma page_keeps_bind {A B C} (f : World → C) (p : Page A) (k : A → Page B) :
  page_keeps f p → (∀ a, page_keeps f (k a)) → page_keeps f (p ≫= k).
Proof.
  intros Hp Hk b. unfold page_after. rewrite run_page_bind.
  specialize (Hp b). unfold page_after in Hp.
  destruct (run_page p b) as [[a| | |e|] b1]; cbn [snd] in *; [|done..].
  rewrite <- Hp. apply Hk.
Qed.

Lemma page_keeps_lift {A B} (f : World → B) (m : Script A) :
  keeps f m → page_keeps f (lift m).
Proof.
  intros Hm b. unfold page_after. rewrite run_page_lift.
  specialize (Hm (world b)). unfold after in Hm.
  by destruct (run m (world b)) as [[a| |e] w].
Qed.

Lemma page_keeps_for_each {A B} (f : World → B) (l : list A) body :
  (∀ x, page_keeps f (body x)) → page_keeps f (for_each l body).
Proof.
  intros Hbody. induction l as [|x l IH]; cbn [for_each]; [done|].
  apply page_keeps_bind; [apply Hbody|done].
Qed.

Lemma page_keeps_get {B} (f : World → B) k : page_keeps f (page_get k).
Proof.
  intros b. unfold page_after. rewrite run_page_get.
  by destruct (session_state (world b) !! k) as [[]|].
Qed.

Lemma page_keeps_here {A B} (f : World → B) (p : Page A) :
  (∀ b, world (run_page p b).2 = world b) → page_keeps f p.
Proof. intros Hp b. unfold page_after. by rewrite Hp. Qed.

(** One step of a proof that a page keeps something. *)
Ltac page_keeps_step :=
  lazymatch goal with
  | |- page_keeps _ (_ ≫= _) => apply page_keeps_bind; [|intros ?]
  | |- page_keeps _ (lift _) => apply page_keeps_lift; repeat keeps_step
  | |- page_keeps _ (for_each _ _) => apply page_keeps_for_each; intros ?
  | |- page_keeps _ (page_get _) => apply page_keeps_get
  | |- page_keeps _ (page_when ?c _) => destruct c; cbn [page_when]
  | |- page_keeps _ (lift_page ?r) => destruct r; cbn [lift_page]
  | |- page_keeps _ (if ?c then _ else _) => destruct c
  | |- page_keeps _ (match ?x with _ => _ end) => destruct x
  | |- page_keeps _ _ => apply page_keeps_here; intros ?; reflexivity
  end.

Section page_keeps_more.
Context `{!JsonLib}.
Variable content_hash : value → Z.
Variable str_repr : string → string.

Lemma page_keeps_conversation {B} (f : World → B) messages history :
  page_keeps f (viewer_page.conversation str_repr messages history).
Proof.
  revert history. induction messages as [|msg rest IH]; intros history;
    cbn [viewer_page.conversation]; repeat page_keeps_step. apply IH.
Qed.

Lemma page_keeps_viewer_page ui :
  page_keeps saved_sets
    (viewer_page.flashcard_viewer_page content_hash str_repr ui).
Proof.
  unfold viewer_page.flashcard_viewer_page, viewer_page.configure_gemini,
    viewer_page.display_dashboard_view,
    viewer_page.display_flashcard_review_view,
    viewer_page.render_flashcard, viewer_page.render_ai_chat,
    main_page.session_default, flashcard_viewer.load_flashcard_sets,
    initialize_flashcard_viewer_state, navigation_controls, json_load,
    saved_sets.
  repeat first [ apply page_keeps_conversation | page_keeps_step ].
Qed.

(** X28. The viewer page reads the file and never writes it, and it writes to
    none of the slots of the main page, whatever is pressed or sent and
    however the run ends: reviewing cards and chatting about them cannot
    change or lose a saved set. *)
Theorem viewer_page_never_writes_saved_sets (ui : ViewerWidgets) (b : Browser) :
  let b' := page_after (viewer_page.flashcard_viewer_page content_hash
                          str_repr ui) b in
  disk (world b') = disk (world b) ∧
  ∀ k, k ∈ main_page_slots →
       session_state (world b') !! k = session_state (world b) !! k.
Proof.
  cbn zeta. pose proof (page_keeps_viewer_page ui b) as Hkeeps.
  unfold saved_sets, slot in Hkeeps.
  injection Hkeeps as Hdisk Hsets Hq Ha Hqf Haf Hname.
  split; [done|]. intros k Hk. unfold main_page_slots in Hk.
  repeat (apply elem_of_cons in Hk as [->|Hk]; [done|]).
  by apply elem_of_nil in Hk.
Qed.
End page_keeps_more.

(** *** The two pages of the application *)

Section app_runs.
Context `{!JsonLib}.
Variable instruction_prefix : string.
Variable content_hash : value → Z.
Variable str_repr : string → string.

Lemma lookup_default_world_same k o w :
  session_state (default_world k o w) !! k
  = Some (default o (session_state w !! k)).
Proof.
  unfold default_world. destruct (session_state w !! k) as [x|] eqn:Hk.
  - rewrite bool_decide_true by eauto. by rewrite Hk.
  - rewrite bool_decide_false by (by intros [??]). cbn. by rewrite lookup_insert_eq.
Qed.

Lemma default_world_outside k o w :
  disk (default_world k o w) = disk w ∧ shown (default_world k o w) = shown w ∧
  secrets (default_world k o w) = secrets w.
Proof. unfold default_world. by case_bool_decide. Qed.

(** The viewer page up to the choice of the view: the model is in its
    slot, the two defaults are set, the title is drawn. *)
Lemma run_viewer_page_start ui b key :
  secrets (world b) = inr key →
  run_page (viewer_page.flashcard_viewer_page content_hash str_repr ui) b =
  run_page
    (all_flashcard_sets ← lift flashcard_viewer.load_flashcard_sets;
     view ← page_get "viewer_current_view";
     (if eq_str view "dashboard"
      then viewer_page.display_dashboard_view ui all_flashcard_sets
      else if eq_str view "flashcard_review"
           then viewer_page.display_flashcard_review_view content_hash
                  str_repr ui all_flashcard_sets
           else mret ());;
     draw (StMarkdown (PyStr "---")))
    {| world := default_world "selected_set_name" (Json PyNone)
                  (default_world "viewer_current_view" (Json (PyStr "dashboard"))
                     (world b));
       gemini_model := Some (default "gemini-2.0-flash" (gemini_model b));
       drawn := drawn b ++ [StTitle "✨ Interactive Flashcard Viewer"] |}.
Proof.
  intros Hkey. unfold viewer_page.flashcard_viewer_page.
  rewrite run_page_bind. cbn [run_page draw].
  rewrite run_page_bind. cbn [run_page get_gemini_model].
  rewrite gemini_model_add_drawn.
  destruct (gemini_model b) as [model|] eqn:Hmodel.
  - rewrite run_page_bind. cbn [run_page mret page_ret].
    rewrite run_page_bind, run_page_lift, run_session_default_ret.
    rewrite run_page_bind, run_page_lift, world_set_world,
      run_session_default_ret.
    cbn [default from_option id]. rewrite <- Hmodel. by browser_simpl.
  - unfold viewer_page.configure_gemini.
    rewrite !run_page_bind, run_page_lift. cbn [run main_page.read_api_key].
    browser_simpl. rewrite Hkey. cbn [run_page mret page_ret put_gemini_model].
    rewrite run_page_bind, run_page_lift. browser_simpl.
    rewrite run_session_default_ret.
    rewrite run_page_bind, run_page_lift, world_set_world,
      run_session_default_ret.
    done.
Qed.





(** [main] with Clear pressed. *)
Lemma run_main_clear (q a : option UploadedFile) (name : string) w :
  ∃ w', run (main_page.main instruction_prefix (press_clear q a name)) w
        = (Rerun, w') ∧
        disk w' = delete main_page.FLASHCARDS_FILE (disk w).
Proof.
  unfold main_page.main.
  destruct (run_render_widgets (press_clear q a name) w)
    as (w1 & Hrun & (Hd & _) & _).
  destruct (run_clear_pressed w1) as (w2 & Hclear & Hdisk & _).
  rewrite run_bind, Hrun.
  cbn [press_clear main_page.generate_button_pressed
       main_page.load_button_pressed main_page.clear_button_pressed when].
  run_simpl. rewrite Hclear. exists w2. split; [done|]. by rewrite Hdisk, Hd.
Qed.

(** X30. Clear All Data while a review is under way: the session still names
    the set and still keeps its cards, but the viewer page goes by the
    file, which is gone.  The run of the viewer that follows draws the
    name of the set and shows the warning that the set is empty or not
    found: no card is drawn. *)
Theorem clear_ends_a_review
    (q a : option UploadedFile) (set_name name key : string)
    (main_ui : main_page.Widgets) (viewer_ui viewer_ui' : ViewerWidgets)
    (b : Browser) :
  secrets (world b) = inr key →
  session_state (world b) !! "viewer_current_view"
    = Some (Json (PyStr "flashcard_review")) →
  session_state (world b) !! "selected_set_name" = Some (Json (PyStr name)) →
  back_to_all_sets viewer_ui = false →
  let b1 := page_after (app.script instruction_prefix content_hash str_repr
                          "Main page" (press_clear q a set_name) viewer_ui') b in
  let r := run_page (app.script instruction_prefix content_hash str_repr
                       "Flashcard viewer" main_ui viewer_ui) b1 in
  r.1 = Returned () ∧
  drawn r.2 = drawn b1 ++
    [StMarkdown (PyStr "### Flashcard App");
     StTitle "✨ Interactive Flashcard Viewer";
     StHeader ("Set: " +:+ name);
     StWrite "Review your flashcards below.";
     StMarkdown (PyStr "---"); StMarkdown (PyStr "---")] ∧
  shown (world r.2) = shown (world b1) ++
    [StWarning ("The selected set '" +:+ name
                +:+ "' is empty or not found. Please go back and select another set or generate new flashcards.");
     StInfo "Built with Streamlit and Google Gemini"].
Proof.
  intros Hkey Hview Hname Hback. cbn zeta.
  destruct (run_main_clear q a set_name (world b)) as (w' & Hrun & Hdisk).
  pose proof (keeps_main_secrets instruction_prefix
                (press_clear q a set_name) (world b)) as Hsecrets.
  assert (∀ k, k ∉ main_page_slots →
               session_state w' !! k = session_state (world b) !! k) as Hslot.
  { intros k Hk.
    pose proof (keeps_main_slot instruction_prefix (press_clear q a set_name)
                  k Hk (world b)) as Hkeeps.
    unfold after, slot in Hkeeps. by rewrite Hrun in Hkeeps. }
  unfold after in Hsecrets. rewrite Hrun in Hsecrets. cbn [snd] in Hsecrets.
  assert (page_after (app.script instruction_prefix content_hash str_repr
                        "Main page" (press_clear q a set_name) viewer_ui') b
          = set_world w' (draw_all [StMarkdown (PyStr "### Flashcard App")] b))
    as ->.
  { unfold page_after, app.script. rewrite run_page_bind. cbn [run_page draw].
    rewrite bool_decide_true by done.
    rewrite !run_page_bind, run_page_lift, world_add_drawn, Hrun.
    by drawn_simpl. }
  set (b1 := set_world _ _).
  assert (∀ k, k ∉ main_page_slots →
               session_state
                 (default_world "selected_set_name" (Json PyNone)
                    (default_world "viewer_current_view"
                       (Json (PyStr "dashboard")) w')) !! k
               = session_state (world b) !! k) as Hslot1.
  { intros k Hk. rewrite <- (Hslot k Hk).
    destruct (decide (k = "selected_set_name")) as [->|?];
      [|rewrite lookup_default_world_ne by done;
        destruct (decide (k = "viewer_current_view")) as [->|?];
          [|by rewrite lookup_default_world_ne by done]].
    - rewrite lookup_default_world_same, lookup_default_world_ne by done.
      by rewrite (Hslot _ Hk), Hname.
    - rewrite lookup_default_world_same. by rewrite (Hslot _ Hk), Hview. }
  assert (∀ k, k = "selected_set_name" ∨ k = "viewer_current_view" →
               k ∉ main_page_slots) as Hout.
  { intros k [-> | ->]; unfold main_page_slots;
      repeat (apply not_elem_of_cons; split; [done|]); apply not_elem_of_nil. }
  unfold app.script. rewrite run_page_bind. cbn [run_page draw].
  rewrite bool_decide_false, bool_decide_true by done.
  rewrite !run_page_bind.
  rewrite (run_viewer_page_start _ _ key)
    by (unfold b1; browser_simpl; by rewrite Hsecrets).
  unfold b1. browser_simpl.
  set (w1 := default_world "selected_set_name" _ _) in *.
  assert (disk w1 = disk w' ∧ shown w1 = shown w') as [Hd1 Hs1].
  { unfold w1.
    destruct (default_world_outside "selected_set_name" (Json PyNone)
                (default_world "viewer_current_view" (Json (PyStr "dashboard"))
                   w')) as (-> & -> & _).
    by destruct (default_world_outside "viewer_current_view"
                   (Json (PyStr "dashboard")) w') as (-> & -> & _). }
  rewrite run_page_bind, run_page_lift. cbn [world].
  rewrite run_viewer_load_missing
    by (rewrite Hd1, Hdisk; apply lookup_delete_eq).
  rewrite run_page_bind, run_page_get. cbn [world set_world].
  rewrite (Hslot1 "viewer_current_view"), Hview by (apply Hout; by right).
  cbn [eq_str]. rewrite bool_decide_false, bool_decide_true by done.
  rewrite run_page_bind, (run_review_missing _ _ _ [] name);
    [|browser_simpl; cbn [world];
      by rewrite (Hslot1 "selected_set_name"), Hname by (apply Hout; by left)
     |done|done].
  page_simpl. rewrite Hs1. cbn [drawn].
  split_and!; [done|..]; by rewrite <- ?app_assoc.
Qed.
End app_runs.

(** ** The further properties at work *)

Lemma generate_without_name_witness :
  run (main_page.main "Make flashcards."
         (press_generate example_questions example_answers ""))
      (example_world (ReplyText example_response)) =
  (Done (),
   add_shown
     (StWarning
        (if bool_decide
              (main_page.set_name
                 (press_generate example_questions example_answers "") = "")
         then "Please enter a name for the flashcard set before generating."
         else "Please upload both the Question Paper and Scheme Answer PDFs."))
     (after (main_page.render_widgets
               (press_generate example_questions example_answers ""))
            (example_world (ReplyText example_response)))).
Proof.
  apply (generate_without_name_or_document_only_warns "Make flashcards."
           (press_generate example_questions example_answers "")
           (example_world (ReplyText example_response)));
    [reflexivity..|by left].
Defined.


Lemma failed_generation_old_set_witness :
  let r := run (main_page.main "Make flashcards."
                  (press_generate (Pages ["Q1. "; "Q2."]) (Pages ["A1."])
                                  "Biology"))
               (example_world (ReplyText "Sorry, no cards.")) in
  r.1 = Done () ∧
  session_state r.2 !! "flashcard_sets" = Some (Json (PyDict example_sets)) ∧
  disk r.2 = disk (example_world (ReplyText "Sorry, no cards.")) ∧
  ∃ earlier,
    shown r.2 = earlier ++ [no_cards_warning;
                            generated_success 2 "Biology";
                            go_to_viewer_info].
Proof.
  apply (failed_generation_reports_old_set "Make flashcards."
           ["Q1. "; "Q2."] ["A1."] "Biology" "secret" example_sets
           [example_card; example_steps]
           (example_world (ReplyText "Sorry, no cards.")));
    first [ done | reflexivity | by vm_compute ].
Defined.

Lemma failed_generation_nothing_witness :
  let r := run (main_page.main "Make flashcards."
                  (press_generate (Pages ["Q1. "; "Q2."]) (Pages ["A1."])
                                  "Chapter 3"))
               (example_world (ReplyFails "no network")) in
  r.1 = Done () ∧
  session_state r.2 !! "flashcard_sets" = Some (Json (PyDict example_sets)) ∧
  disk r.2 = disk (example_world (ReplyFails "no network")) ∧
  ∃ earlier,
    shown r.2 = earlier ++ [no_cards_warning; nothing_generated_warning].
Proof.
  apply (failed_generation_changes_nothing "Make flashcards."
           ["Q1. "; "Q2."] ["A1."] "Chapter 3" "secret" example_sets
           (example_world (ReplyFails "no network")));
    first [ done | reflexivity | by vm_compute ].
Defined.

Lemma load_button_mapping_witness :
  let r := run (main_page.main "Make flashcards." (press_load None None ""))
               (example_world_with_file
                  (RefJson.dumps (PyDict [("Physics", PyList [example_card])]))) in
  r.1 = Rerun ∧
  session_state r.2 !! "flashcard_sets"
    = Some (Json (PyDict [("Physics", PyList [example_card])])) ∧
  disk r.2 = disk (example_world_with_file
                     (RefJson.dumps (PyDict [("Physics", PyList [example_card])]))) ∧
  ∃ earlier,
    shown r.2 = earlier ++
      [StSuccess ("Loaded " +:+ pretty 1%nat +:+ " flashcard sets from file!");
       StInfo "Navigate to the **'Flashcard viewer'** page in the sidebar to review them."].
Proof.
  apply (load_button_takes_mapping_from_file "Make flashcards." None None ""
           (RefJson.dumps (PyDict [("Physics", PyList [example_card])]))
           [("Physics", PyList [example_card])]
           (example_world_with_file
              (RefJson.dumps (PyDict [("Physics", PyList [example_card])]))));
    first [ done | reflexivity | by vm_compute ].
Defined.

Lemma load_button_without_file_witness :
  let r := run (main_page.main "Make flashcards." (press_load None None ""))
               (example_world (ReplyFails "no network")) in
  r.1 = Rerun ∧
  session_state r.2 !! "flashcard_sets" = Some (Json (PyDict [])) ∧
  disk r.2 = disk (example_world (ReplyFails "no network")) ∧
  ∃ earlier,
    shown r.2 = earlier ++
      [StInfo "No saved flashcard sets found or an error occurred during loading."].
Proof.
  apply (load_button_without_file_empties_session "Make flashcards." None None ""
           (example_world (ReplyFails "no network"))).
  left. reflexivity.
Defined.

Lemma load_button_number_witness :
  let r := run (main_page.main "Make flashcards." (press_load None None ""))
               (example_world_with_file "7") in
  r.1 = Raised TypeError ∧
  session_state r.2 !! "flashcard_sets" = Some (Json (PyInt 7)).
Proof.
  apply (load_button_raises_on_number "Make flashcards." None None "" "7"
           (PyInt 7) (example_world_with_file "7"));
    first [ done | reflexivity | by vm_compute ].
Defined.

Lemma main_page_keeps_other_slots_witness :
  let w' := after (main_page.main "Make flashcards."
                     (press_clear None None "Chapter 3"))
                  (example_world (ReplyFails "no network")) in
  session_state w' !! "chat_history"
    = session_state (example_world (ReplyFails "no network")) !! "chat_history" ∧
  rng w' = rng (example_world (ReplyFails "no network")).
Proof.
  apply (main_page_keeps_other_slots "Make flashcards."
           (press_clear None None "Chapter 3") "chat_history"
           (example_world (ReplyFails "no network"))).
  unfold main_page_slots.
  repeat (apply not_elem_of_cons; split; [done|]). apply not_elem_of_nil.
Defined.

Lemma generation_sends_one_request_witness :
  requests (after (main_page.main "Make flashcards."
                     (press_generate (Pages ["Q1. "; "Q2."]) (Pages ["A1."])
                                     "Chapter 3"))
                  (example_world (ReplyText "Sorry, no cards.")))
  = requests (example_world (ReplyText "Sorry, no cards.")) ++
    [main_page.prompt_message "Make flashcards."
       (document_text ["Q1. "; "Q2."]) (document_text ["A1."])].
Proof.
  apply (generation_sends_one_request "Make flashcards."
           ["Q1. "; "Q2."] ["A1."] "Chapter 3" "secret"
           (example_world (ReplyText "Sorry, no cards.")));
    first [ done | reflexivity | by vm_compute ].
Defined.

Lemma missing_api_key_witness :
  let w' := after (main_page.main "Make flashcards."
                     (press_generate (Pages ["Q1. "; "Q2."]) (Pages ["A1."])
                                     "Chapter 3"))
                  example_world_without_key in
  requests w' = requests example_world_without_key ∧
  disk w' = disk example_world_without_key ∧
  (∀ o, session_state example_world_without_key !! "flashcard_sets" = Some o →
        session_state w' !! "flashcard_sets" = Some o) ∧
  StError ("An error occurred during Gemini flashcard generation: " +:+ "'gemini'")
    ∈ shown w'.
Proof.
  apply (missing_api_key_sends_and_stores_nothing "Make flashcards."
           ["Q1. "; "Q2."] ["A1."] "Chapter 3" "'gemini'"
           example_world_without_key);
    first [ done | reflexivity | by vm_compute ].
Defined.

Lemma initialize_resets_witness :
  let w' := after (initialize_flashcard_viewer_state example_hash
                     (PyList [example_card; example_steps]))
                  (example_world (ReplyFails "no network")) in
  run (initialize_flashcard_viewer_state example_hash
         (PyList [example_card; example_steps]))
      (example_world (ReplyFails "no network")) = (Rerun, w') ∧
  session_state w' !! "flashcards_current_set"
    = Some (Json (PyList [example_card; example_steps])) ∧
  cursor w' = Some 0 ∧
  session_state w' !! "show_answer" = Some (Json (PyBool false)) ∧
  session_state w' !! "chat_history" = Some (Json (PyList [])) ∧
  session_state w' !! "current_flashcard_context" = Some (Json (PyStr "")) ∧
  ∀ other, example_hash other = example_hash (PyList [example_card; example_steps]) →
           run (initialize_flashcard_viewer_state example_hash other) w'
           = (Done (), w').
Proof.
  apply (initialize_resets_then_settles example_hash
           [example_card; example_steps]
           (example_world (ReplyFails "no network"))).
  - done.
  - intros o Ho. by vm_compute in Ho.
Defined.

Lemma next_and_previous_witness :
  cursor (after (navigation_controls 3 press_previous)
            (after (navigation_controls 3 press_next)
                   (example_world (ReplyFails "no network")))) = Some 2 ∧
  cursor (after (navigation_controls 3 press_next)
            (after (navigation_controls 3 press_previous)
                   (example_world (ReplyFails "no network")))) = Some 2.
Proof.
  apply (next_and_previous_undo_each_other 3 2
           (example_world (ReplyFails "no network"))); [reflexivity|lia].
Defined.

Lemma next_walks_witness :
  cursor (Nat.iter 5 (after (navigation_controls 3 press_next))
            (example_world (ReplyFails "no network")))
    = Some ((2 + Z.of_nat 5) `mod` 3) ∧
  cursor (Nat.iter (Z.to_nat 3) (after (navigation_controls 3 press_next))
            (example_world (ReplyFails "no network")))
    = Some 2.
Proof.
  apply (next_walks_round_the_set 3 2 5
           (example_world (ReplyFails "no network"))); [reflexivity|lia].
Defined.

(** ** The properties of the viewer page at work *)

Lemma viewer_page_without_key_witness :
  run_page (viewer_page.flashcard_viewer_page example_hash example_repr
              nothing_pressed)
           {| world := example_world_without_key; gemini_model := None;
              drawn := [] |} =
  (Stopped,
   set_world
     (add_shown
        (StError ("Gemini API configuration failed. Check .streamlit/secrets.toml. Error: "
                  +:+ "'gemini'"))
        (world {| world := example_world_without_key; gemini_model := None;
                  drawn := [] |}))
     (add_drawn (StTitle "✨ Interactive Flashcard Viewer")
        {| world := example_world_without_key; gemini_model := None;
           drawn := [] |})).
Proof.
  apply (viewer_page_without_key_stops example_hash example_repr
           nothing_pressed
           {| world := example_world_without_key; gemini_model := None;
              drawn := [] |} "'gemini'"); reflexivity.
Defined.

Lemma dashboard_draws_witness :
  run_page (viewer_page.display_dashboard_view nothing_pressed
              (PyDict example_two_sets))
           (browser_of (example_world (ReplyFails "no network"))) =
  (Returned (),
   draw_all (StWrite "Select a flashcard set to start reviewing:"
             :: concat ((λ kv, card_of_set kv.1 (set_size kv.2))
                          <$> example_two_sets))
            (browser_of (example_world (ReplyFails "no network")))).
Proof.
  apply (dashboard_draws_a_card_for_every_set nothing_pressed example_two_sets
           (browser_of (example_world (ReplyFails "no network")))).
  - done.
  - apply (bool_decide_unpack _). by vm_compute.
  - repeat constructor; by eexists.
  - done.
Defined.

Lemma open_set_witness :
  run_page (viewer_page.display_dashboard_view (press_open "Biology")
              (PyDict ([("Physics", PyList [example_card])]
                       ++ ("Biology", PyList [example_card; example_steps]) :: [])))
           (browser_of (example_world (ReplyFails "no network"))) =
  (Reran,
   set_world
     (set_session_state
        (insert "viewer_current_view" (Json (PyStr "flashcard_review")))
        (set_session_state
           (insert "selected_set_name" (Json (PyStr "Biology")))
           (world (browser_of (example_world (ReplyFails "no network"))))))
     (draw_all (StWrite "Select a flashcard set to start reviewing:"
                :: concat ((λ kv, card_of_set kv.1 (set_size kv.2))
                             <$> [("Physics", PyList [example_card])]
                                 ++ [("Biology", PyList [example_card; example_steps])]))
               (browser_of (example_world (ReplyFails "no network"))))).
Proof.
  apply (open_set_selects_the_set (press_open "Biology")
           [("Physics", PyList [example_card])] [] "Biology"
           (PyList [example_card; example_steps])
           (browser_of (example_world (ReplyFails "no network")))).
  - apply (bool_decide_unpack _). by vm_compute.
  - repeat constructor; by eexists.
  - by eexists.
  - intros kv Hkv. apply list_elem_of_singleton in Hkv as ->. reflexivity.
  - reflexivity.
Defined.

Lemma review_shows_card_witness :
  run_page (viewer_page.display_flashcard_review_view example_hash example_repr
              nothing_pressed (PyDict example_two_sets))
           (browser_of (example_steps_review false [] (ReplyFails "no network"))) =
  (Returned (),
   draw_all ([StHeader ("Set: " +:+ "Biology");
              StWrite "Review your flashcards below.";
              StMarkdown (PyStr "---")]
             ++ question_drawn example_repr example_steps_fields 0
                  (length [example_card; example_steps])
             ++ [StMarkdown (PyStr "---")])
            (browser_of (example_steps_review false [] (ReplyFails "no network")))).
Proof.
  apply (review_shows_the_card_under_the_cursor example_hash example_repr
           nothing_pressed example_two_sets "Biology"
           [example_card; example_steps] [1; 0] 0 1 example_steps_fields
           (browser_of (example_steps_review false [] (ReplyFails "no network"))));
    first [ reflexivity | lia | by repeat split ].
Defined.

Lemma show_answer_witness :
  let view ui := viewer_page.display_flashcard_review_view example_hash
                   example_repr ui (PyDict example_two_sets) in
  let b := browser_of (example_steps_review false [("user", PyStr "Why?")]
                         (ReplyFails "no network")) in
  let b1 := set_world
              (set_session_state (insert "show_answer" (Json (PyBool true)))
                 (world b)) b in
  run_page (view (press_control press_show_answer)) b =
    (Returned (),
     draw_all ([StHeader ("Set: " +:+ "Biology");
                StWrite "Review your flashcards below.";
                StMarkdown (PyStr "---")]
               ++ question_drawn example_repr example_steps_fields 0
                    (length [example_card; example_steps])
               ++ [StMarkdown (PyStr "---")]) b1) ∧
  run_page (view nothing_pressed) b1 =
    (Returned (),
     set_world
       (add_shown (StInfo "Ask AI for more detail about this question/answer.")
          (world b1))
       (draw_all ([StHeader ("Set: " +:+ "Biology");
                   StWrite "Review your flashcards below.";
                   StMarkdown (PyStr "---")]
                  ++ question_drawn example_repr example_steps_fields 0
                       (length [example_card; example_steps])
                  ++ answer_drawn example_repr example_steps_fields
                  ++ chat_drawn [("user", PyStr "Why?")]
                  ++ [StMarkdown (PyStr "---")]) b1)).
Proof.
  apply (show_answer_is_drawn_by_the_next_run example_hash example_repr
           (press_control press_show_answer) nothing_pressed
           example_two_sets "Biology"
           [example_card; example_steps] [1; 0] 0 1 example_steps_fields
           [("user", PyStr "Why?")]
           (browser_of (example_steps_review false [("user", PyStr "Why?")]
                          (ReplyFails "no network"))));
    first [ reflexivity | lia | by repeat split ].
Defined.

Lemma another_card_witness :
  run_page (viewer_page.display_flashcard_review_view example_hash example_repr
              nothing_pressed (PyDict example_two_sets))
           (browser_of (example_review [example_card; example_steps] [1; 0] 0
                          (PyStr "") (PyBool true)
                          (PyList [turn "user" (PyStr "Why?")])
                          (ReplyFails "no network"))) =
  (Returned (),
   set_world
     (set_session_state (insert "show_answer" (Json (PyBool false)))
        (set_session_state (insert "chat_history" (Json (PyList [])))
           (set_session_state
              (insert "current_flashcard_context"
                 (Json (PyStr (context_key example_repr "Biology"
                                 (PyDict example_steps_fields)))))
              (world
                 (browser_of
                    (example_review [example_card; example_steps] [1; 0] 0
                       (PyStr "") (PyBool true)
                       (PyList [turn "user" (PyStr "Why?")])
                       (ReplyFails "no network")))))))
     (draw_all ([StHeader ("Set: " +:+ "Biology");
                 StWrite "Review your flashcards below.";
                 StMarkdown (PyStr "---")]
                ++ question_drawn example_repr example_steps_fields 0
                     (length [example_card; example_steps])
                ++ [StMarkdown (PyStr "---")])
        (browser_of
           (example_review [example_card; example_steps] [1; 0] 0
              (PyStr "") (PyBool true)
              (PyList [turn "user" (PyStr "Why?")])
              (ReplyFails "no network"))))).
Proof.
  apply (another_card_resets_the_chat example_hash example_repr
           nothing_pressed example_two_sets "Biology"
           [example_card; example_steps] [1; 0] 0 1 example_steps_fields
           (PyStr "")
           (browser_of
              (example_review [example_card; example_steps] [1; 0] 0
                 (PyStr "") (PyBool true)
                 (PyList [turn "user" (PyStr "Why?")])
                 (ReplyFails "no network"))));
    first [ reflexivity | lia | by repeat split | by vm_compute ].
Defined.

Lemma chat_witness :
  let b := browser_of (example_steps_review true [("user", PyStr "Why?")]
                         (ReplyFails "no network")) in
  let request := chat_request example_repr [("user", PyStr "Why?")] "How?"
                   example_steps_fields (PyStr "It dissolves salts.") in
  let answer := chat_answer (gemini (world b) (length (requests (world b))) request) in
  let r := run_page (viewer_page.render_ai_chat example_repr (send_chat "How?")
                       (PyDict example_steps_fields)
                       (PyStr "It dissolves salts.")) b in
  r.1 = Reran ∧
  session_state (world r.2) !! "chat_history"
    = Some (Json (PyList ((λ t, turn t.1 t.2)
                            <$> [("user", PyStr "Why?")]
                                ++ [("user", PyStr "How?");
                                    ("assistant", PyStr answer)]))) ∧
  requests (world r.2) = requests (world b) ++ [request] ∧
  drawn r.2 = drawn b ++ chat_drawn [("user", PyStr "Why?")]
              ++ [StChatMessage "user"; StMarkdown (PyStr "How?");
                  StChatMessage "assistant"; StMarkdown (PyStr answer)].
Proof.
  apply (chat_adds_question_and_reply example_repr (send_chat "How?")
           example_steps_fields (PyStr "It dissolves salts.")
           [("user", PyStr "Why?")]
           (PyStr (context_key example_repr "Biology" example_steps))
           "How?" "gemini-2.0-flash"
           (browser_of (example_steps_review true [("user", PyStr "Why?")]
                          (ReplyFails "no network"))));
    first [ reflexivity | done ].
Defined.

Lemma review_of_missing_set_witness :
  let r := run_page (viewer_page.display_flashcard_review_view example_hash
                       example_repr nothing_pressed
                       (PyDict [("Physics", PyList [example_card])]))
                    (browser_of (example_steps_review false []
                                   (ReplyFails "no network"))) in
  r.1 = Returned () ∧
  session_state (world r.2)
    = session_state (world (browser_of (example_steps_review false []
                                          (ReplyFails "no network")))) ∧
  disk (world r.2)
    = disk (world (browser_of (example_steps_review false []
                                 (ReplyFails "no network")))) ∧
  shown (world r.2)
    = shown (world (browser_of (example_steps_review false []
                                  (ReplyFails "no network")))) ++
      [StWarning ("The selected set '" +:+ "Biology"
                  +:+ "' is empty or not found. Please go back and select another set or generate new flashcards.")] ∧
  drawn r.2
    = drawn (browser_of (example_steps_review false [] (ReplyFails "no network")))
      ++ [StHeader ("Set: " +:+ "Biology");
          StWrite "Review your flashcards below."].
Proof.
  apply (review_of_missing_set_only_warns example_hash example_repr
           nothing_pressed [("Physics", PyList [example_card])] "Biology"
           (browser_of (example_steps_review false [] (ReplyFails "no network"))));
    first [ reflexivity | by left ].
Defined.

Lemma back_button_witness :
  let b := browser_of (example_steps_review true [] (ReplyFails "no network")) in
  let r := run_page (viewer_page.display_flashcard_review_view example_hash
                       example_repr press_back (PyDict example_two_sets)) b in
  r = (Reran,
       set_world
         (set_session_state (insert "current_set_hash" (Json PyNone))
            (set_session_state (insert "flashcards_current_set" (Json (PyList [])))
               (set_session_state (insert "selected_set_name" (Json PyNone))
                  (set_session_state
                     (insert "viewer_current_view" (Json (PyStr "dashboard")))
                     (world b)))))
         b) ∧
  ∀ cards : list value,
    cards ≠ [] →
    (run (initialize_flashcard_viewer_state example_hash (PyList cards))
         (world r.2)).1 = Rerun.
Proof.
  apply (back_button_leaves_the_review example_hash example_repr press_back
           (PyDict example_two_sets) (PyStr "Biology")
           (browser_of (example_steps_review true [] (ReplyFails "no network"))));
    reflexivity.
Defined.

Lemma review_fails_witness :
  run_page (viewer_page.display_flashcard_review_view example_hash example_repr
              nothing_pressed
              (PyDict [("Biology", PyList [PyInt 7; example_card])]))
           (browser_of (example_review [PyInt 7; example_card] [0; 1] 0
                          (PyStr "") (PyBool false) (PyList [])
                          (ReplyFails "no network"))) =
  (Failed (AttributeError (type_name (PyInt 7)) "get"),
   draw_all [StHeader ("Set: " +:+ "Biology");
             StWrite "Review your flashcards below."]
     (browser_of (example_review [PyInt 7; example_card] [0; 1] 0
                    (PyStr "") (PyBool false) (PyList [])
                    (ReplyFails "no network")))).
Proof.
  apply (review_fails_on_card_that_is_no_object example_hash example_repr
           nothing_pressed [("Biology", PyList [PyInt 7; example_card])]
           "Biology" [PyInt 7; example_card] [0; 1] 0 0 (PyInt 7)
           (browser_of (example_review [PyInt 7; example_card] [0; 1] 0
                          (PyStr "") (PyBool false) (PyList [])
                          (ReplyFails "no network"))));
    first [ reflexivity | lia | by repeat split | done ].
Defined.

Lemma stale_shuffle_order_witness :
  let b := browser_of (example_review [example_card; example_steps] [0] 0
                         (PyStr "") (PyBool false) (PyList [])
                         (ReplyFails "no network")) in
  let r := run_page (viewer_page.display_flashcard_review_view example_hash
                       example_repr nothing_pressed (PyDict example_two_sets)) b in
  ∃ order i fields,
    permutation_of_range order (length [example_card; example_steps]) ∧
    order !! 0%nat = Some i ∧
    [example_card; example_steps] !! Z.to_nat i = Some (PyDict fields) ∧
    r.1 = Returned () ∧
    session_state (world r.2) !! "shuffled_cards"
      = Some (Json (PyList (PyInt <$> order))) ∧
    cursor (world r.2) = Some 0 ∧
    drawn r.2 = drawn b ++
      [StHeader ("Set: " +:+ "Biology"); StWrite "Review your flashcards below.";
       StMarkdown (PyStr "---")]
      ++ question_drawn example_repr fields 0
           (length [example_card; example_steps])
      ++ [StMarkdown (PyStr "---")].
Proof.
  apply (stale_shuffle_order_is_replaced example_hash example_repr
           nothing_pressed example_two_sets "Biology"
           [example_card; example_steps] (PyStr "")
           (browser_of (example_review [example_card; example_steps] [0] 0
                          (PyStr "") (PyBool false) (PyList [])
                          (ReplyFails "no network"))));
    try reflexivity.
  - right. exists [PyInt 0]. split; [reflexivity|]. cbn. lia.
  - done.
  - repeat constructor; by eexists.
Defined.


Lemma clear_ends_a_review_witness :
  let b := browser_of (example_steps_review true [] (ReplyFails "no network")) in
  let b1 := page_after (app.script "Make flashcards." example_hash example_repr
                          "Main page" (press_clear None None "")
                          nothing_pressed) b in
  let r := run_page (app.script "Make flashcards." example_hash example_repr
                       "Flashcard viewer" (press_nothing None None "")
                       nothing_pressed) b1 in
  r.1 = Returned () ∧
  drawn r.2 = drawn b1 ++
    [StMarkdown (PyStr "### Flashcard App");
     StTitle "✨ Interactive Flashcard Viewer";
     StHeader ("Set: " +:+ "Biology");
     StWrite "Review your flashcards below.";
     StMarkdown (PyStr "---"); StMarkdown (PyStr "---")] ∧
  shown (world r.2) = shown (world b1) ++
    [StWarning ("The selected set '" +:+ "Biology"
                +:+ "' is empty or not found. Please go back and select another set or generate new flashcards.");
     StInfo "Built with Streamlit and Google Gemini"].
Proof.
  apply (clear_ends_a_review "Make flashcards." example_hash example_repr
           None None "" "Biology" "secret"
           (press_nothing None None "") nothing_pressed nothing_pressed
           (browser_of (example_steps_review true [] (ReplyFails "no network"))));
    reflexivity.
Defined.

(** ** The viewer page at work *)

(** Three runs of the application on the viewer page: Open Set on the
    dashboard, the run that initialises the review, the run that draws
    the first card of the shuffle order. *)
Example open_then_review :
  let run ui b :=
    run_page (app.script "Make flashcards." example_hash example_repr
                "Flashcard viewer" (press_nothing None None "") ui) b in
  let r1 := run (press_open "Biology")
                (browser_of (with_saved_sets (example_world (ReplyFails "")))) in
  let r2 := run nothing_pressed r1.2 in
  let r3 := run nothing_pressed r2.2 in
  r1.1 = Reran ∧ r2.1 = Reran ∧ r3.1 = Returned () ∧
  session_state (world r2.2) !! "shuffled_cards"
    = Some (Json (PyList [PyInt 1; PyInt 0])) ∧
  drop (length (drawn r2.2)) (drawn r3.2) =
    [StMarkdown (PyStr "### Flashcard App");
     StTitle "✨ Interactive Flashcard Viewer";
     StHeader "Set: Biology"; StWrite "Review your flashcards below.";
     StMarkdown (PyStr "---"); StSubheader "Flashcard 1 / 2";
     StMarkdown (PyStr "**Type:** `why_how`");
     StMarkdown (PyStr "---");
     StMarkdown (PyStr "<h3 style='text-align: center; color: #306998;'>❓ Question:</h3>");
     StMarkdown (PyStr "<p style='text-align: center; font-size: 1.2em; font-weight: bold;'>Why do cells need water?</p>");
     StMarkdown (PyStr "---"); StMarkdown (PyStr "---");
     StMarkdown (PyStr "---")] ∧
  session_state (world r3.2) !! "current_flashcard_context"
    = Some (Json (PyStr "Biology_Why do cells need water?_['It dissolves salts.', 'It carries heat.']")).
Proof. by vm_compute. Qed.

(** A question in the chat of a card whose answer is a list: the request
    carries the list as Python writes it. *)
Example chat_about_a_list :
  let r := run_page (viewer_page.flashcard_viewer_page example_hash example_repr
                       (send_chat "How?"))
             (browser_of (with_saved_sets
                            (example_steps_review true [("user", PyStr "Why?")]
                               (ReplyText "Because.")))) in
  r.1 = Reran ∧
  requests (world r.2) =
    ["User: Why?" +:+ nl +:+ "User: How?" +:+ nl
     +:+ "Flashcard Question: Why do cells need water?" +:+ nl
     +:+ "Flashcard Answer: ['It dissolves salts.', 'It carries heat.']" +:+ nl
     +:+ "Now, answer the user's most recent question concisely (max 3 sentences)."] ∧
  session_state (world r.2) !! "chat_history" =
    Some (Json (PyList [turn "user" (PyStr "Why?"); turn "user" (PyStr "How?");
                        turn "assistant" (PyStr "Because.")])).
Proof. by vm_compute. Qed.

(** A set that Gemini gave as a JSON object, not as a list: it is stored
    as it is, and the review of it fails on the first card, since an
    object has no card at an index. *)
Example review_of_an_object :
  let cards := PyDict [("cards", PyList [example_card])] in
  let w := set_disk (insert flashcard_viewer.FLASHCARDS_FILE
                       (RefJson.dumps (PyDict [("Biology", cards)])))
             (example_world (ReplyFails "")) in
  let run ui b :=
    run_page (viewer_page.flashcard_viewer_page example_hash example_repr ui) b in
  let r1 := run (press_open "Biology") (browser_of w) in
  let r2 := run nothing_pressed r1.2 in
  let r3 := run nothing_pressed r2.2 in
  r1.1 = Reran ∧ r2.1 = Reran ∧ r3.1 = Failed (KeyErrorAt (PyInt 0)).
Proof. by vm_compute. Qed.
